(** * ingress-gce: resource graph, backend pool and firewall controller

    A shallow embedding of the Go sources

    - [pkg/backends/features/lbpolicy.go]  ([EnsureLocalityLbPolicy]),
    - [pkg/backends/backends.go]           ([Backends.Get],
                                            [ensureDescription],
                                            [Backends.Delete]),
    - [pkg/loadbalancers/features/l7ilb.go] ([ILBSubnetSourceRange]),
    - [pkg/firewalls/controller.go]        ([FirewallController.sync]),
    - [pkg/fuzz/gcp.go]                    ([GCLB], [CheckResourceDeletion],
                                            [CheckNEGDeletion], [GCLBForVIP],
                                            [NetworkEndpointsInNegs]),
    - [pkg/composite/gen/main.go]          (the templates of [to<Name>] and
                                            [to<Version>], [getGoType]),
    - [pkg/composite/composite_test.go]    ([compareFields], [typeEquality]),
    - [pkg/loadbalancers/fakes.go]         (the forwarding rules, URL maps,
                                            target HTTPS proxies and SSL
                                            certificates of
                                            [FakeLoadBalancers]),

    followed by the properties of these functions.

    Conventions of the embedding.

    - A Go pointer that the code may see as [nil] is an [option]; a
      dereference of [None] is a run-time panic and is modelled as such.
    - A function that mutates an object through a pointer returns the
      object's state after the call.
    - Calls to collaborators (the cloud API, the firewall pool, the event
      recorder) are recorded in a trace, in program order.
    - [klog] output is not modelled. *)

From Stdlib Require Import ZArith String List Bool Permutation DecimalString.
From stdpp Require Import base option list gmap strings.

Local Open Scope string_scope.
Local Open Scope list_scope.
Set Warnings "-register-all".

(* ===================================================================== *)
(** * Part I: the embedding                                               *)
(* ===================================================================== *)

(** ** [k8s-cloud-provider/pkg/cloud/meta]: keys and versions *)

Module Meta.

(** [type Version string] with its three constants. *)
Definition Version : Type := string.
Definition VersionGA : Version := "ga".
Definition VersionAlpha : Version := "alpha".
Definition VersionBeta : Version := "beta".

(** [type KeyType string]. *)
Definition KeyType : Type := string.
Definition Global : KeyType := "global".
Definition Regional : KeyType := "regional".
Definition Zonal : KeyType := "zonal".

(** [type Key struct { Name, Zone, Region string }]; Go compares keys
    field by field. *)
Record Key : Type := mkKey { Name : string; Zone : string; Region : string }.

Definition GlobalKey (name : string) : Key := mkKey name "" "".
Definition RegionalKey (name region : string) : Key := mkKey name "" region.
Definition ZonalKey (name zone : string) : Key := mkKey name zone "".

#[global] Instance Key_eq_dec : EqDecision Key.
Proof. solve_decision. Defined.

Definition Key_to_tuple (k : Key) : string * string * string :=
  (Name k, Zone k, Region k).
Definition Key_of_tuple (t : string * string * string) : Key :=
  let '(n, z, r) := t in mkKey n z r.

#[global] Instance Key_countable : Countable Key.
Proof.
  refine (inj_countable' Key_to_tuple Key_of_tuple _).
  intros [n z r]; reflexivity.
Defined.

End Meta.

(** ** Go values shared by the packages below *)

Module Go.

(** The [error] values this code creates or inspects.  [error] is an interface:
    the dynamic type of a value decides what a type assertion does.

    - [GoogleapiError c m] is a non-nil [*googleapi.Error] with [Code = c];
    - [GoogleapiErrorNil] is a nil pointer of type [*googleapi.Error] stored
      in the interface (the interface itself is not [nil]);
    - [FirewallXPNError m] is a non-nil [*firewalls.FirewallXPNError];
    - [ErrorString m] is [errors.New(m)], and stands for every error of
      another dynamic type;
    - [Errorf f args] is [fmt.Errorf(f, args...)], kept unformatted. *)
Inductive error : Type :=
| GoogleapiError (Code : Z) (Message : string)
| GoogleapiErrorNil
| FirewallXPNError (Message : string)
| ErrorString (msg : string)
| Errorf (format : string) (args : list fmtarg)
with fmtarg : Type :=
| ArgString (s : string)
| ArgError (e : error)
| ArgKey (k : Meta.Key).

(** A Go result pair [(x, err)]: [ok x] is [(x, nil)], [err e] is
    [(zero, e)]. *)
Inductive result (A : Type) : Type :=
| ok (a : A)
| err (e : error).
Arguments ok {A} a.
Arguments err {A} e.

(** [net/http]: [StatusNotFound = 404]. *)
Definition StatusNotFound : Z := 404.

(** A computation that calls collaborators: the calls made, in program
    order, and the value computed. *)
Definition traced (Ev A : Type) : Type := (list Ev * A)%type.

Definition tret {Ev A : Type} (a : A) : traced Ev A := ([], a).

Definition tbind {Ev A B : Type} (m : traced Ev A) (f : A -> traced Ev B)
  : traced Ev B :=
  let '(t1, a) := m in
  let '(t2, b) := f a in
  (t1 ++ t2, b).

Definition emit {Ev : Type} (e : Ev) : traced Ev unit := ([e], tt).

Definition trace_of {Ev A : Type} (m : traced Ev A) : list Ev := fst m.
Definition value_of {Ev A : Type} (m : traced Ev A) : A := snd m.

(** How a piece of a function body ends: with a value, control going on
    ([Val]); with the function returning the error [e] ([Fail]: the Go
    statements [return nil, e] and [return e]); or with a run-time panic.
    For a whole function, [Val x] is [return x, nil]. *)
Inductive flow (A : Type) : Type :=
| Val (a : A)
| Fail (e : error)
| Panic.
Arguments Val {A} a.
Arguments Fail {A} e.
Arguments Panic {A}.

Definition M (Ev A : Type) : Type := traced Ev (flow A).

Definition mret {Ev A : Type} (a : A) : M Ev A := ([], Val a).

Definition mbind {Ev A B : Type} (m : M Ev A) (f : A -> M Ev B) : M Ev B :=
  match m with
  | (t1, Val a) => let '(t2, r) := f a in (t1 ++ t2, r)
  | (t1, Fail e) => (t1, Fail e)
  | (t1, Panic) => (t1, Panic)
  end.

Definition fail {Ev A : Type} (e : error) : M Ev A := ([], Fail e).
Definition panic {Ev A : Type} : M Ev A := ([], Panic).

(** [if err != nil { return nil, err }] after a call that answered [r]. *)
Definition try {Ev A : Type} (r : result A) : M Ev A :=
  match r with
  | ok a => mret a
  | err e => fail e
  end.

(** [*p]: the dereference of a pointer. *)
Definition deref {Ev A : Type} (p : option A) : M Ev A :=
  match p with
  | Some a => mret a
  | None => panic
  end.

(** [for _, x := range l { s = body(s, x) }], where the body may return from
    the function or panic. *)
Fixpoint range {Ev A S : Type} (l : list A) (body : S -> A -> M Ev S) (s : S)
  : M Ev S :=
  match l with
  | [] => mret s
  | x :: l' => mbind (body s x) (range l' body)
  end.

End Go.

Declare Scope go_scope.
Delimit Scope go_scope with go.
Notation "x <- m ;; k" := (Go.tbind m (fun x => k))
  (at level 100, m at next level, right associativity) : go_scope.
Notation "m ;;; k" := (Go.tbind m (fun _ => k))
  (at level 100, right associativity) : go_scope.

Declare Scope flow_scope.
Delimit Scope flow_scope with flow.
Notation "x <- m ;; k" := (Go.mbind m (fun x => k))
  (at level 100, m at next level, right associativity) : flow_scope.
Notation "m ;;; k" := (Go.mbind m (fun _ => k))
  (at level 100, right associativity) : flow_scope.

(** ** [pkg/apis/backendconfig/v1beta1]: the part of [BackendConfig] read here *)

Module BackendConfigApi.

Record TrafficManagementConfig : Type :=
  { LocalityLbPolicy : string }.

(** [TrafficManagement *TrafficManagementConfig]. *)
Record BackendConfigSpec : Type :=
  { TrafficManagement : option TrafficManagementConfig }.

Record BackendConfig : Type :=
  { Spec : BackendConfigSpec }.

End BackendConfigApi.

(** ** [pkg/composite]: the canonical backend service *)

Module Composite.

Record Backend : Type := { Group : string }.

(** The fields of [composite.BackendService] that the modelled code reads
    or writes.  [Version] is the controller's own bookkeeping field. *)
Record BackendService : Type := mkBackendService
  { Version : Meta.Version;
    Name : string;
    Description : string;
    Backends : list Backend;
    HealthChecks : list string;
    LoadBalancingScheme : string;
    LocalityLbPolicy : string;
    Port : Z;
    PortName : string;
    Protocol : string;
    Region : string;
    ResourceType : Meta.KeyType;
    Fingerprint : string }.

Definition set_LocalityLbPolicy (p : string) (be : BackendService)
  : BackendService :=
  {| Version := Version be; Name := Name be; Description := Description be;
     Backends := Backends be; HealthChecks := HealthChecks be;
     LoadBalancingScheme := LoadBalancingScheme be;
     LocalityLbPolicy := p;
     Port := Port be; PortName := PortName be; Protocol := Protocol be;
     Region := Region be; ResourceType := ResourceType be;
     Fingerprint := Fingerprint be |}.

(** [&composite.BackendService{}] *)
Definition zero : BackendService :=
  mkBackendService "" "" "" [] [] "" "" 0%Z "" "" "" "" "".

End Composite.

(** ** [pkg/utils]: service ports *)

Module Utils.

Record NamespacedName : Type := { Namespace : string; SvcName : string }.

Record ServicePortID : Type := { Service : NamespacedName; PortStr : string }.

(** [BackendConfig *backendconfigv1beta1.BackendConfig]. *)
Record ServicePort : Type :=
  { ID : ServicePortID;
    NodePort : Z;
    NEGEnabled : bool;
    L7ILBEnabled : bool;
    BackendConfig : option BackendConfigApi.BackendConfig }.

End Utils.

(** ** [pkg/backends/features/lbpolicy.go] *)

Module Features.

Import BackendConfigApi.

(** The expression [sp.BackendConfig.Spec.TrafficManagement]: it
    dereferences [sp.BackendConfig]; [None] is the panic of a nil
    dereference, [Some tm] the value of the field (itself a pointer). *)
Definition read_TrafficManagement (sp : Utils.ServicePort)
  : option (option TrafficManagementConfig) :=
  bc ← Utils.BackendConfig sp; Some (TrafficManagement (Spec bc)).

(** The expression
    [sp.BackendConfig.Spec.TrafficManagement.LocalityLbPolicy]. *)
Definition read_LocalityLbPolicy (sp : Utils.ServicePort) : option string :=
  tm ← read_TrafficManagement sp; LocalityLbPolicy <$> tm.

(** [applyLocalityLbPolicy(sp, be)]:
    [be.LocalityLbPolicy = sp.BackendConfig.Spec.TrafficManagement.LocalityLbPolicy].
    [None] is a panic. *)
Definition applyLocalityLbPolicy (sp : Utils.ServicePort)
    (be : Composite.BackendService) : option Composite.BackendService :=
  p ← read_LocalityLbPolicy sp; Some (Composite.set_LocalityLbPolicy p be).

(** [EnsureLocalityLbPolicy(sp, be)].  The result is [None] when the call
    panics, and otherwise the returned boolean with the backend service as
    the call leaves it.  Go evaluates [||] left to right and stops at the
    first true operand. *)
Definition EnsureLocalityLbPolicy (sp : Utils.ServicePort)
    (be : Composite.BackendService)
  : option (bool * Composite.BackendService) :=
  tm ← read_TrafficManagement sp;
  match tm with
  | None => Some (false, be)
  | Some _ =>
      p ← read_LocalityLbPolicy sp;
      if String.eqb p "" then Some (false, be)
      else
        p' ← read_LocalityLbPolicy sp;
        if negb (String.eqb (Composite.LocalityLbPolicy be) p') then
          be' ← applyLocalityLbPolicy sp be;
          Some (true, be')
        else Some (false, be)
  end.

End Features.

(** ** [google.golang.org/api/compute]: the wire objects the graph holds *)

Module Compute.

(** The fields the modelled code reads.  The three API versions of a kind
    agree on these fields, and one record stands for all three. *)

Module ForwardingRule.
Record t : Type := { Name : string; IPAddress : string; Target : string }.
End ForwardingRule.

Module TargetHttpProxy.
Record t : Type := { Name : string; UrlMap : string }.
End TargetHttpProxy.

Module TargetHttpsProxy.
Record t : Type := { Name : string; UrlMap : string }.
End TargetHttpsProxy.

Module PathRule.
Record t : Type := { Service : string }.
End PathRule.

Module PathMatcher.
Record t : Type := { DefaultService : string; PathRules : list PathRule.t }.
End PathMatcher.

Module UrlMap.
Record t : Type :=
  { Name : string; DefaultService : string; PathMatchers : list PathMatcher.t }.
End UrlMap.

Module Backend.
Record t : Type := { Group : string }.
End Backend.

Module BackendService.
Record t : Type :=
  { Name : string; Description : string; Backends : list Backend.t }.
End BackendService.

Module NetworkEndpointGroup.
Record t : Type := { Name : string }.
End NetworkEndpointGroup.

Module InstanceGroup.
Record t : Type := { Name : string }.
End InstanceGroup.

End Compute.

(** ** [k8s-cloud-provider/pkg/cloud]: resource identifiers and the cloud *)

Module Cloud.

(** [type ResourceID struct { ProjectID, Resource string; Key *meta.Key }]. *)
Record ResourceID : Type :=
  { ProjectID : string; Resource : string; Key : option Meta.Key }.

(** The services of [cloud.Cloud] that the modelled code calls. *)
Inductive Service : Type :=
| GlobalForwardingRules
| ForwardingRules
| AlphaForwardingRules
| TargetHttpProxies
| TargetHttpsProxies
| UrlMaps
| BackendServices
| AlphaBackendServices
| BetaBackendServices
| NetworkEndpointGroups
| AlphaNetworkEndpointGroups
| BetaNetworkEndpointGroups
| InstanceGroups.

#[global] Instance Service_eq_dec : EqDecision Service.
Proof. solve_decision. Defined.

(** A call made to the cloud.  [Get]'s key is the pointer the caller passes. *)
Inductive Call : Type :=
| List (s : Service)
| Get (s : Service) (key : option Meta.Key).

#[global] Instance Call_eq_dec : EqDecision Call.
Proof. solve_decision. Defined.

(** The cloud, as a snapshot: what each call answers.  A successful [Get]
    answers a non-nil object. *)
Record Cloud : Type :=
  { GlobalForwardingRules_List : Go.result (list Compute.ForwardingRule.t);
    GlobalForwardingRules_Get :
      option Meta.Key -> Go.result Compute.ForwardingRule.t;
    ForwardingRules_Get :
      option Meta.Key -> Go.result Compute.ForwardingRule.t;
    AlphaForwardingRules_Get :
      option Meta.Key -> Go.result Compute.ForwardingRule.t;
    TargetHttpProxies_Get :
      option Meta.Key -> Go.result Compute.TargetHttpProxy.t;
    TargetHttpsProxies_Get :
      option Meta.Key -> Go.result Compute.TargetHttpsProxy.t;
    UrlMaps_Get : option Meta.Key -> Go.result Compute.UrlMap.t;
    BackendServices_Get :
      option Meta.Key -> Go.result Compute.BackendService.t;
    AlphaBackendServices_Get :
      option Meta.Key -> Go.result Compute.BackendService.t;
    BetaBackendServices_Get :
      option Meta.Key -> Go.result Compute.BackendService.t;
    NetworkEndpointGroups_Get :
      option Meta.Key -> Go.result Compute.NetworkEndpointGroup.t;
    AlphaNetworkEndpointGroups_Get :
      option Meta.Key -> Go.result Compute.NetworkEndpointGroup.t;
    BetaNetworkEndpointGroups_Get :
      option Meta.Key -> Go.result Compute.NetworkEndpointGroup.t;
    InstanceGroups_Get :
      option Meta.Key -> Go.result Compute.InstanceGroup.t }.

(** [c.<Service>().Get(ctx, key)]: the call is recorded and its Go result
    pair handed to the caller. *)
Definition get {A : Type} (s : Service)
    (f : option Meta.Key -> Go.result A) (key : option Meta.Key)
  : Go.M Call (Go.result A) :=
  ([Get s key], Go.Val (f key)).

(** [c.GlobalForwardingRules().List(ctx, filter.None)]. *)
Definition list_ {A : Type} (s : Service) (r : Go.result (list A))
  : Go.M Call (Go.result (list A)) :=
  ([List s], Go.Val r).

End Cloud.

(** ** [pkg/utils]: the description stored in a backend service *)

Module Description.

(** The part of [utils.Description] read here. *)
Record t : Type := { ServiceName : string; ServicePort : string }.

End Description.

(** ** [pkg/fuzz/gcp.go]: the resource graph of a load balancer *)

Module Fuzz.

Import Go Cloud.

Definition NegResourceType : string := "networkEndpointGroup".
Definition IgResourceType : string := "instanceGroup".

(** [ForwardingRule], [TargetHTTPProxy], [TargetHTTPSProxy], [URLMap],
    [BackendService] and [NetworkEndpointGroup]: each the union of the API
    version types of its kind. *)
Record Union (A : Type) : Type :=
  mkUnion { GA : option A; Alpha : option A; Beta : option A }.
Arguments mkUnion {A} GA Alpha Beta.
Arguments GA {A} u.
Arguments Alpha {A} u.
Arguments Beta {A} u.

Definition set_Alpha {A : Type} (x : A) (u : Union A) : Union A :=
  mkUnion (GA u) (Some x) (Beta u).
Definition set_Beta {A : Type} (x : A) (u : Union A) : Union A :=
  mkUnion (GA u) (Alpha u) (Some x).

(** [type InstanceGroup struct { GA *compute.InstanceGroup }]. *)
Record InstanceGroupUnion : Type :=
  mkInstanceGroupUnion { IG_GA : option Compute.InstanceGroup.t }.

(** [type GCLB struct]: the resources of a load balancer.  A Go map from
    [meta.Key] is a [gmap]. *)
Record GCLB : Type := mkGCLB
  { VIP : string;
    ForwardingRule : gmap Meta.Key (Union Compute.ForwardingRule.t);
    TargetHTTPProxy : gmap Meta.Key (Union Compute.TargetHttpProxy.t);
    TargetHTTPSProxy : gmap Meta.Key (Union Compute.TargetHttpsProxy.t);
    URLMap : gmap Meta.Key (Union Compute.UrlMap.t);
    BackendService : gmap Meta.Key (Union Compute.BackendService.t);
    NetworkEndpointGroup :
      gmap Meta.Key (Union Compute.NetworkEndpointGroup.t);
    InstanceGroup : gmap Meta.Key InstanceGroupUnion }.

(** [NewGCLB(vip)] *)
Definition NewGCLB (vip : string) : GCLB :=
  mkGCLB vip ∅ ∅ ∅ ∅ ∅ ∅ ∅.

(** Assignments to the maps of a graph. *)
Definition upd_ForwardingRule
    (f : gmap Meta.Key (Union Compute.ForwardingRule.t) ->
         gmap Meta.Key (Union Compute.ForwardingRule.t)) (g : GCLB) : GCLB :=
  mkGCLB (VIP g) (f (ForwardingRule g)) (TargetHTTPProxy g)
    (TargetHTTPSProxy g) (URLMap g) (BackendService g)
    (NetworkEndpointGroup g) (InstanceGroup g).
Definition upd_TargetHTTPProxy
    (f : gmap Meta.Key (Union Compute.TargetHttpProxy.t) ->
         gmap Meta.Key (Union Compute.TargetHttpProxy.t)) (g : GCLB) : GCLB :=
  mkGCLB (VIP g) (ForwardingRule g) (f (TargetHTTPProxy g))
    (TargetHTTPSProxy g) (URLMap g) (BackendService g)
    (NetworkEndpointGroup g) (InstanceGroup g).
Definition upd_TargetHTTPSProxy
    (f : gmap Meta.Key (Union Compute.TargetHttpsProxy.t) ->
         gmap Meta.Key (Union Compute.TargetHttpsProxy.t)) (g : GCLB) : GCLB :=
  mkGCLB (VIP g) (ForwardingRule g) (TargetHTTPProxy g)
    (f (TargetHTTPSProxy g)) (URLMap g) (BackendService g)
    (NetworkEndpointGroup g) (InstanceGroup g).
Definition upd_URLMap
    (f : gmap Meta.Key (Union Compute.UrlMap.t) ->
         gmap Meta.Key (Union Compute.UrlMap.t)) (g : GCLB) : GCLB :=
  mkGCLB (VIP g) (ForwardingRule g) (TargetHTTPProxy g)
    (TargetHTTPSProxy g) (f (URLMap g)) (BackendService g)
    (NetworkEndpointGroup g) (InstanceGroup g).
Definition upd_BackendService
    (f : gmap Meta.Key (Union Compute.BackendService.t) ->
         gmap Meta.Key (Union Compute.BackendService.t)) (g : GCLB) : GCLB :=
  mkGCLB (VIP g) (ForwardingRule g) (TargetHTTPProxy g)
    (TargetHTTPSProxy g) (URLMap g) (f (BackendService g))
    (NetworkEndpointGroup g) (InstanceGroup g).
Definition upd_NetworkEndpointGroup
    (f : gmap Meta.Key (Union Compute.NetworkEndpointGroup.t) ->
         gmap Meta.Key (Union Compute.NetworkEndpointGroup.t)) (g : GCLB)
  : GCLB :=
  mkGCLB (VIP g) (ForwardingRule g) (TargetHTTPProxy g)
    (TargetHTTPSProxy g) (URLMap g) (BackendService g)
    (f (NetworkEndpointGroup g)) (InstanceGroup g).
Definition upd_InstanceGroup
    (f : gmap Meta.Key InstanceGroupUnion -> gmap Meta.Key InstanceGroupUnion)
    (g : GCLB) : GCLB :=
  mkGCLB (VIP g) (ForwardingRule g) (TargetHTTPProxy g)
    (TargetHTTPSProxy g) (URLMap g) (BackendService g)
    (NetworkEndpointGroup g) (f (InstanceGroup g)).

(** [type GCLBDeleteOptions struct { SkipDefaultBackend bool }]. *)
Record GCLBDeleteOptions : Type := { SkipDefaultBackend : bool }.

(** [strings.Contains(s, substr)]. *)
Fixpoint Contains (s substr : string) : bool :=
  if String.prefix substr s then true
  else match s with
       | EmptyString => false
       | String _ s' => Contains s' substr
       end.

(** [strings.Join(elems, sep)]. *)
Definition Join (elems : list string) (sep : string) : string :=
  String.concat sep elems.

(** The condition
    [err.( *googleapi.Error ) == nil || err.( *googleapi.Error ).Code != http.StatusNotFound]
    on a non-nil [err].  The type assertion has one result, so it panics when
    the dynamic type of [err] is not [*googleapi.Error]. *)
Definition notStatusNotFound (e : error) : M Call bool :=
  match e with
  | GoogleapiErrorNil => mret true
  | GoogleapiError code _ => mret (negb (code =? StatusNotFound)%Z)
  | _ => panic
  end.

(** *** Vocabulary for the properties of the deletion check *)

(** The kinds of resource that [CheckResourceDeletion] examines, one per loop,
    with the word its error message uses. *)
Inductive Kind : Type :=
| KForwardingRule
| KTargetHTTPProxy
| KTargetHTTPSProxy
| KURLMap
| KBackendService
| KNetworkEndpointGroup.

#[global] Instance Kind_eq_dec : EqDecision Kind.
Proof. solve_decision. Defined.

Definition kindName (kind : Kind) : string :=
  match kind with
  | KForwardingRule => "ForwardingRule"
  | KTargetHTTPProxy => "TargetHTTPProxy"
  | KTargetHTTPSProxy => "TargetHTTPSProxy"
  | KURLMap => "URLMap"
  | KBackendService => "BackendService"
  | KNetworkEndpointGroup => "NetworkEndpointGroup"
  end.

(** The keys a graph records for a kind. *)
Definition keysOf (g : GCLB) (kind : Kind) : gset Meta.Key :=
  match kind with
  | KForwardingRule => dom (ForwardingRule g)
  | KTargetHTTPProxy => dom (TargetHTTPProxy g)
  | KTargetHTTPSProxy => dom (TargetHTTPSProxy g)
  | KURLMap => dom (URLMap g)
  | KBackendService => dom (BackendService g)
  | KNetworkEndpointGroup => dom (NetworkEndpointGroup g)
  end.

(** The service through which the check fetches a key of a kind. *)
Definition serviceOf (kind : Kind) (k : Meta.Key) : Service :=
  match kind with
  | KForwardingRule =>
      if negb (String.eqb (Meta.Region k) "") then ForwardingRules
      else GlobalForwardingRules
  | KTargetHTTPProxy => TargetHttpProxies
  | KTargetHTTPSProxy => TargetHttpsProxies
  | KURLMap => UrlMaps
  | KBackendService => BackendServices
  | KNetworkEndpointGroup => BetaNetworkEndpointGroups
  end.

Definition callOf (item : Kind * Meta.Key) : Call :=
  Get (serviceOf (fst item) (snd item)) (Some (snd item)).

(** What the cloud answers to that fetch; of the object only a backend
    service is kept, the check reads no other. *)
Definition forget {A : Type} (r : result A)
  : result (option Compute.BackendService.t) :=
  match r with
  | ok _ => ok None
  | err e => err e
  end.

Definition response (c : Cloud) (kind : Kind) (k : Meta.Key)
  : result (option Compute.BackendService.t) :=
  match kind with
  | KForwardingRule =>
      if negb (String.eqb (Meta.Region k) "") then
        forget (ForwardingRules_Get c (Some k))
      else forget (GlobalForwardingRules_Get c (Some k))
  | KTargetHTTPProxy => forget (TargetHttpProxies_Get c (Some k))
  | KTargetHTTPSProxy => forget (TargetHttpsProxies_Get c (Some k))
  | KURLMap => forget (UrlMaps_Get c (Some k))
  | KBackendService =>
      match BackendServices_Get c (Some k) with
      | ok bs => ok (Some bs)
      | err e => err e
      end
  | KNetworkEndpointGroup => forget (BetaNetworkEndpointGroups_Get c (Some k))
  end.

(** An answer that says not found: a [*googleapi.Error] with code 404. *)
Definition isNotFound {A : Type} (r : result A) : Prop :=
  exists message, r = err (GoogleapiError StatusNotFound message).

(** An answer that is a success or says not found. *)
Definition foundOrNotFound {A : Type} (r : result A) : Prop :=
  match r with
  | ok _ => True
  | err e => exists message, e = GoogleapiError StatusNotFound message
  end.

(** A [*googleapi.Error] that does not say not found: a nil pointer, or a
    code other than 404. *)
Definition otherGoogleapiError (e : error) : Prop :=
  e = GoogleapiErrorNil \/
  exists code message, e = GoogleapiError code message /\ code <> StatusNotFound.

(** What an answer means to the check. *)
Inductive Verdict : Type :=
| Gone                 (* not found: the resource is deleted *)
| Present              (* the Get succeeded: the resource still exists *)
| Skipped              (* still exists, and is the default backend to skip *)
| Bad (e : error)      (* another googleapi error, or a nil *googleapi.Error *)
| Crash.               (* an error of another type: the assertion panics *)

Definition isClean (v : Verdict) : bool :=
  match v with
  | Gone | Present | Skipped => true
  | Bad _ | Crash => false
  end.

Definition isPresent (v : Verdict) : bool :=
  match v with
  | Present => true
  | _ => false
  end.

(** The error of the loop for [kind] at key [k], when the Get failed with
    [e]. *)
Definition notDeleted (kind : Kind) (k : Meta.Key) (e : error) : error :=
  Errorf (kindName kind ++ " %s is not deleted/error to get: %s")
    [ArgString (Meta.Name k); ArgError e].

(** The structural error of discovery: two target proxies of one VIP with
    different URL map keys. *)
Definition referencesNotSame (kind : string) (a b : Meta.Key) : error :=
  Errorf (kind ++ " references are not the same: %+v != %+v")
    [ArgKey a; ArgKey b].

Definition isStructural (e : error) : Prop :=
  exists kind a b, a <> b /\ e = referencesNotSame kind a b.

Section Graph.

(** What the code takes from outside this file:
    - [cloud.ParseResourceURL] and [meta.Key.String] of k8s-cloud-provider;
    - [utils.DescriptionFromString] of [pkg/utils];
    - the [FeatureValidator] interface of [pkg/fuzz];
    - the order in which [range] visits the keys of a map, which Go leaves
      unspecified. *)
Variable ParseResourceURL : string -> result ResourceID.
Variable KeyString : Meta.Key -> string.
Variable DescriptionFromString : string -> Description.t.
Variable FeatureValidator : Type.
Variable rangeKeys : forall V : Type, gmap Meta.Key V -> list Meta.Key.
Arguments rangeKeys {_} _.

Local Open Scope flow_scope.

(** [CheckResourceDeletion]: one loop per map of the graph, each appending
    the keys still present to [resources]. *)
Definition CheckResourceDeletion (g : GCLB) (c : Cloud)
    (options : option GCLBDeleteOptions) : M Call unit :=
  let resources : list Meta.Key := [] in
  resources <- range (rangeKeys (ForwardingRule g)) (fun resources k =>
    r <- (if negb (String.eqb (Meta.Region k) "") then
            get ForwardingRules (ForwardingRules_Get c) (Some k)
          else
            get GlobalForwardingRules (GlobalForwardingRules_Get c) (Some k)) ;;
    match r with
    | err e =>
        b <- notStatusNotFound e ;;
        if b then
          fail (Errorf "ForwardingRule %s is not deleted/error to get: %s"
                  [ArgString (Meta.Name k); ArgError e])
        else mret resources
    | ok _ => mret (resources ++ [k])
    end) resources ;;
  resources <- range (rangeKeys (TargetHTTPProxy g)) (fun resources k =>
    r <- get TargetHttpProxies (TargetHttpProxies_Get c) (Some k) ;;
    match r with
    | err e =>
        b <- notStatusNotFound e ;;
        if b then
          fail (Errorf "TargetHTTPProxy %s is not deleted/error to get: %s"
                  [ArgString (Meta.Name k); ArgError e])
        else mret resources
    | ok _ => mret (resources ++ [k])
    end) resources ;;
  resources <- range (rangeKeys (TargetHTTPSProxy g)) (fun resources k =>
    r <- get TargetHttpsProxies (TargetHttpsProxies_Get c) (Some k) ;;
    match r with
    | err e =>
        b <- notStatusNotFound e ;;
        if b then
          fail (Errorf "TargetHTTPSProxy %s is not deleted/error to get: %s"
                  [ArgString (Meta.Name k); ArgError e])
        else mret resources
    | ok _ => mret (resources ++ [k])
    end) resources ;;
  resources <- range (rangeKeys (URLMap g)) (fun resources k =>
    r <- get UrlMaps (UrlMaps_Get c) (Some k) ;;
    match r with
    | err e =>
        b <- notStatusNotFound e ;;
        if b then
          fail (Errorf "URLMap %s is not deleted/error to get: %s"
                  [ArgString (Meta.Name k); ArgError e])
        else mret resources
    | ok _ => mret (resources ++ [k])
    end) resources ;;
  resources <- range (rangeKeys (BackendService g)) (fun resources k =>
    r <- get BackendServices (BackendServices_Get c) (Some k) ;;
    match r with
    | err e =>
        b <- notStatusNotFound e ;;
        if b then
          fail (Errorf "BackendService %s is not deleted/error to get: %s"
                  [ArgString (Meta.Name k); ArgError e])
        else mret resources
    | ok bs =>
        if match options with
           | Some o => SkipDefaultBackend o
           | None => false
           end
           && String.eqb
                (Description.ServiceName
                   (DescriptionFromString (Compute.BackendService.Description bs)))
                "kube-system/default-http-backend"
        then mret resources
        else mret (resources ++ [k])
    end) resources ;;
  resources <- range (rangeKeys (NetworkEndpointGroup g)) (fun resources k =>
    r <- get BetaNetworkEndpointGroups (BetaNetworkEndpointGroups_Get c)
           (Some k) ;;
    match r with
    | err e =>
        b <- notStatusNotFound e ;;
        if b then
          fail (Errorf "NetworkEndpointGroup %s is not deleted/error to get: %s"
                  [ArgString (Meta.Name k); ArgError e])
        else mret resources
    | ok _ => mret (resources ++ [k])
    end) resources ;;
  if negb (length resources =? 0)%nat then
    fail (Errorf "resources still exist (%s)"
            [ArgString (Join (map KeyString resources) ", ")])
  else mret tt.

(** [CheckNEGDeletion]: the same check for the network endpoint groups
    alone. *)
Definition CheckNEGDeletion (g : GCLB) (c : Cloud)
    (options : option GCLBDeleteOptions) : M Call unit :=
  let resources : list Meta.Key := [] in
  resources <- range (rangeKeys (NetworkEndpointGroup g)) (fun resources k =>
    r <- get BetaNetworkEndpointGroups (BetaNetworkEndpointGroups_Get c)
           (Some k) ;;
    match r with
    | err e =>
        b <- notStatusNotFound e ;;
        if b then fail e else mret resources
    | ok _ => mret (resources ++ [k])
    end) resources ;;
  if negb (length resources =? 0)%nat then
    fail (Errorf "NEGs still exist (%s)"
            [ArgString (Join (map KeyString resources) ", ")])
  else mret tt.

(** [hasAlphaResource] and [hasBetaResource]: both answer [false]. *)
Definition hasAlphaResource (resourceType : string)
    (validators : list FeatureValidator) : bool := false.

Definition hasBetaResource (resourceType : string)
    (validators : list FeatureValidator) : bool := false.

(** [getGclbForwardingRules], [getGclbTargetProxies], [getGclbUrlMaps] and
    [getGclbBackendServices]: each loops over the validators and switches on
    the wanted version and scope with empty cases; the graph is left as it
    was. *)
Definition getGclbForwardingRules (gclb : GCLB)
    (validators : list FeatureValidator) (vip : string) : GCLB := gclb.
Definition getGclbTargetProxies (gclb : GCLB)
    (validators : list FeatureValidator) : GCLB := gclb.
Definition getGclbUrlMaps (gclb : GCLB)
    (validators : list FeatureValidator) : GCLB := gclb.
Definition getGclbBackendServices (gclb : GCLB)
    (validators : list FeatureValidator) : GCLB := gclb.

(** The statements shared by the two proxy cases, after the proxy is stored:
    [urlMapResID, err := cloud.ParseResourceURL(p.UrlMap)], the first URL map
    key kept in [urlMapKey], and the comparison [*urlMapKey != *urlMapResID.Key].
    [kind] is the word the error message starts with. *)
Definition checkUrlMapReference (kind : string) (urlMap : string)
    (urlMapKey : option Meta.Key) : M Call (option Meta.Key) :=
  urlMapResID <- try (ParseResourceURL urlMap) ;;
  let urlMapKey :=
    match urlMapKey with
    | None => Key urlMapResID
    | Some _ => urlMapKey
    end in
  a <- deref urlMapKey ;;
  b <- deref (Key urlMapResID) ;;
  if negb (bool_decide (a = b)) then
    fail (Errorf (kind ++ " references are not the same: %+v != %+v")
            [ArgKey a; ArgKey b])
  else mret urlMapKey.

(** The body of the loop over the forwarding rules of the VIP.  The state is
    the graph and [urlMapKey]. *)
Definition visitForwardingRule (c : Cloud)
    (validators : list FeatureValidator)
    (st : GCLB * option Meta.Key) (gfr : Compute.ForwardingRule.t)
  : M Call (GCLB * option Meta.Key) :=
  let '(gclb, urlMapKey) := st in
  let frKey := Meta.GlobalKey (Compute.ForwardingRule.Name gfr) in
  let gclb :=
    upd_ForwardingRule (insert frKey (mkUnion (Some gfr) None None)) gclb in
  gclb <- (if hasAlphaResource "forwardingRule" validators then
             r <- get AlphaForwardingRules (AlphaForwardingRules_Get c)
                    (Some frKey) ;;
             fr <- try r ;;
             mret (upd_ForwardingRule (alter (set_Alpha fr) frKey) gclb)
           else mret gclb) ;;
  (if hasBetaResource "forwardingRule" validators then
     fail (ErrorString "unsupported forwardingRule version")
   else mret tt) ;;;
  resID <- try (ParseResourceURL (Compute.ForwardingRule.Target gfr)) ;;
  if String.eqb (Resource resID) "targetHttpProxies" then
    r <- get TargetHttpProxies (TargetHttpProxies_Get c) (Key resID) ;;
    p <- try r ;;
    k <- deref (Key resID) ;;
    let gclb :=
      upd_TargetHTTPProxy (insert k (mkUnion (Some p) None None)) gclb in
    (if hasAlphaResource "targetHttpProxy" validators
        || hasBetaResource "targetHttpProxy" validators then
       fail (ErrorString "unsupported targetHttpProxy version")
     else mret tt) ;;;
    urlMapKey <- checkUrlMapReference "targetHttpProxy"
                   (Compute.TargetHttpProxy.UrlMap p) urlMapKey ;;
    mret (gclb, urlMapKey)
  else if String.eqb (Resource resID) "targetHttpsProxies" then
    r <- get TargetHttpsProxies (TargetHttpsProxies_Get c) (Key resID) ;;
    p <- try r ;;
    k <- deref (Key resID) ;;
    let gclb :=
      upd_TargetHTTPSProxy (insert k (mkUnion (Some p) None None)) gclb in
    (if hasAlphaResource "targetHttpsProxy" validators
        || hasBetaResource "targetHttpsProxy" validators then
       fail (ErrorString "unsupported targetHttpsProxy version")
     else mret tt) ;;;
    urlMapKey <- checkUrlMapReference "targetHttpsProxy"
                   (Compute.TargetHttpsProxy.UrlMap p) urlMapKey ;;
    mret (gclb, urlMapKey)
  else
    fail (Errorf "unhandled resource %q" [ArgString (Resource resID)]).

(** The loop [URLMap => BackendService(s)]: the keys of the services a path
    matcher names, appended to [bsKeys]. *)
Definition visitPathMatcher (bsKeys : list (option Meta.Key))
    (pm : Compute.PathMatcher.t) : M Call (list (option Meta.Key)) :=
  resID <- try (ParseResourceURL (Compute.PathMatcher.DefaultService pm)) ;;
  let bsKeys := bsKeys ++ [Key resID] in
  range (Compute.PathMatcher.PathRules pm) (fun bsKeys pr =>
    resID <- try (ParseResourceURL (Compute.PathRule.Service pr)) ;;
    mret (bsKeys ++ [Key resID])) bsKeys.

(** The body of the first loop over [bsKeys]: the backend service is fetched
    and stored. *)
Definition visitBackendService (c : Cloud)
    (validators : list FeatureValidator)
    (gclb : GCLB) (bsKey : option Meta.Key) : M Call GCLB :=
  r <- get BackendServices (BackendServices_Get c) bsKey ;;
  bs <- try r ;;
  k <- deref bsKey ;;
  let gclb :=
    upd_BackendService (insert k (mkUnion (Some bs) None None)) gclb in
  gclb <- (if hasAlphaResource "backendService" validators then
             r <- get AlphaBackendServices (AlphaBackendServices_Get c) bsKey ;;
             bs <- try r ;;
             mret (upd_BackendService (alter (set_Alpha bs) k) gclb)
           else mret gclb) ;;
  gclb <- (if hasBetaResource "backendService" validators then
             r <- get BetaBackendServices (BetaBackendServices_Get c) bsKey ;;
             bs <- try r ;;
             mret (upd_BackendService (alter (set_Beta bs) k) gclb)
           else mret gclb) ;;
  mret gclb.

(** The body of the loop over [beGroups]: a group whose URL contains
    [NegResourceType] adds a key to [negKeys], one whose URL contains
    [IgResourceType] adds a key to [igKeys]. *)
Definition visitGroup (st : list (option Meta.Key) * list (option Meta.Key))
    (group : string)
  : M Call (list (option Meta.Key) * list (option Meta.Key)) :=
  let '(negKeys, igKeys) := st in
  negKeys <- (if Contains group NegResourceType then
                resourceId <- try (ParseResourceURL group) ;;
                mret (negKeys ++ [Key resourceId])
              else mret negKeys) ;;
  igKeys <- (if Contains group IgResourceType then
               resourceId <- try (ParseResourceURL group) ;;
               mret (igKeys ++ [Key resourceId])
             else mret igKeys) ;;
  mret (negKeys, igKeys).

(** The body of the second loop over [bsKeys] ([Fetch NEG Backends]). *)
Definition visitBackends (c : Cloud) (validators : list FeatureValidator)
    (st : list (option Meta.Key) * list (option Meta.Key))
    (bsKey : option Meta.Key)
  : M Call (list (option Meta.Key) * list (option Meta.Key)) :=
  beGroups <- (if hasAlphaResource "backendService" validators then
                 r <- get AlphaBackendServices (AlphaBackendServices_Get c)
                        bsKey ;;
                 bs <- try r ;;
                 mret (map Compute.Backend.Group
                         (Compute.BackendService.Backends bs))
               else
                 r <- get BetaBackendServices (BetaBackendServices_Get c)
                        bsKey ;;
                 bs <- try r ;;
                 mret (map Compute.Backend.Group
                         (Compute.BackendService.Backends bs))) ;;
  range beGroups visitGroup st.

(** The body of the loop over [negKeys]. *)
Definition visitNetworkEndpointGroup (c : Cloud)
    (validators : list FeatureValidator)
    (gclb : GCLB) (negKey : option Meta.Key) : M Call GCLB :=
  r <- get NetworkEndpointGroups (NetworkEndpointGroups_Get c) negKey ;;
  neg <- try r ;;
  k <- deref negKey ;;
  let gclb :=
    upd_NetworkEndpointGroup (insert k (mkUnion (Some neg) None None)) gclb in
  gclb <- (if hasAlphaResource NegResourceType validators then
             r <- get AlphaNetworkEndpointGroups
                    (AlphaNetworkEndpointGroups_Get c) negKey ;;
             neg <- try r ;;
             mret (upd_NetworkEndpointGroup (alter (set_Alpha neg) k) gclb)
           else mret gclb) ;;
  gclb <- (if hasBetaResource NegResourceType validators then
             r <- get BetaNetworkEndpointGroups
                    (BetaNetworkEndpointGroups_Get c) negKey ;;
             neg <- try r ;;
             mret (upd_NetworkEndpointGroup (alter (set_Beta neg) k) gclb)
           else mret gclb) ;;
  mret gclb.

(** The body of the loop over [igKeys]. *)
Definition visitInstanceGroup (c : Cloud) (gclb : GCLB)
    (igKey : option Meta.Key) : M Call GCLB :=
  r <- get InstanceGroups (InstanceGroups_Get c) igKey ;;
  ig <- try r ;;
  k <- deref igKey ;;
  mret (upd_InstanceGroup (insert k (mkInstanceGroupUnion (Some ig))) gclb).

(** [GCLBForVIP(ctx, c, vip, validators)]. *)
Definition GCLBForVIP (c : Cloud) (vip : string)
    (validators : list FeatureValidator) : M Call GCLB :=
  let gclb := NewGCLB vip in
  let gclb := getGclbForwardingRules gclb validators vip in
  let gclb := getGclbTargetProxies gclb validators in
  let gclb := getGclbUrlMaps gclb validators in
  let gclb := getGclbBackendServices gclb validators in
  r <- list_ GlobalForwardingRules (GlobalForwardingRules_List c) ;;
  allGFRs <- try r ;;
  let gfrs :=
    List.filter
      (fun gfr => String.eqb (Compute.ForwardingRule.IPAddress gfr) vip)
      allGFRs in
  st <- range gfrs (visitForwardingRule c validators) (gclb, None) ;;
  let '(gclb, urlMapKey) := st in
  (* TargetProxy => URLMap *)
  r <- get UrlMaps (UrlMaps_Get c) urlMapKey ;;
  urlMap <- try r ;;
  k <- deref urlMapKey ;;
  let gclb := upd_URLMap (insert k (mkUnion (Some urlMap) None None)) gclb in
  (if hasAlphaResource "urlMap" validators
      || hasBetaResource "urlMap" validators then
     fail (ErrorString "unsupported urlMap version")
   else mret tt) ;;;
  (* URLMap => BackendService(s) *)
  resID <- try (ParseResourceURL (Compute.UrlMap.DefaultService urlMap)) ;;
  let bsKeys := [Key resID] in
  bsKeys <- range (Compute.UrlMap.PathMatchers urlMap) visitPathMatcher
              bsKeys ;;
  gclb <- range bsKeys (visitBackendService c validators) gclb ;;
  (* Fetch NEG Backends *)
  st <- range bsKeys (visitBackends c validators) ([], []) ;;
  let '(negKeys, igKeys) := st in
  gclb <- range negKeys (visitNetworkEndpointGroup c validators) gclb ;;
  gclb <- range igKeys (visitInstanceGroup c) gclb ;;
  mret gclb.

(** *** Vocabulary for the properties of discovery *)

(** The URL map key that the target proxy of a forwarding rule references:
    the rule's target parses to a proxy key of one of the two proxy
    resources, the proxy is fetched, and its URL map link parses to a key. *)
Definition targetProxyUrlMap (c : Cloud) (gfr : Compute.ForwardingRule.t)
  : option string :=
  match ParseResourceURL (Compute.ForwardingRule.Target gfr) with
  | ok resID =>
      match Key resID with
      | None => None
      | Some _ =>
          if String.eqb (Resource resID) "targetHttpProxies" then
            match TargetHttpProxies_Get c (Key resID) with
            | ok p => Some (Compute.TargetHttpProxy.UrlMap p)
            | err _ => None
            end
          else if String.eqb (Resource resID) "targetHttpsProxies" then
            match TargetHttpsProxies_Get c (Key resID) with
            | ok p => Some (Compute.TargetHttpsProxy.UrlMap p)
            | err _ => None
            end
          else None
      end
  | err _ => None
  end.

Definition referencedUrlMapKey (c : Cloud) (gfr : Compute.ForwardingRule.t)
  : option Meta.Key :=
  match targetProxyUrlMap c gfr with
  | Some urlMap =>
      match ParseResourceURL urlMap with
      | ok urlMapResID => Key urlMapResID
      | err _ => None
      end
  | None => None
  end.

(** The forwarding rules of the VIP among the rules listed. *)
Definition rulesOfVIP (vip : string) (allGFRs : list Compute.ForwardingRule.t)
  : list Compute.ForwardingRule.t :=
  List.filter
    (fun gfr => String.eqb (Compute.ForwardingRule.IPAddress gfr) vip) allGFRs.

(** The statements of a proxy case of the loop body, for either kind of
    proxy: fetch the proxy, store it, compare the URL map keys. *)
Definition proxyCase {P : Type} (s : Service)
    (getf : option Meta.Key -> result P) (urlMapOf : P -> string)
    (kind : string) (key : option Meta.Key) (urlMapKey : option Meta.Key)
    (store : Meta.Key -> P -> GCLB) : M Call (GCLB * option Meta.Key) :=
  mbind (get s getf key) (fun r =>
  mbind (try r) (fun p =>
  mbind (deref key) (fun k =>
  mbind (mret tt) (fun _ =>
  mbind (checkUrlMapReference kind (urlMapOf p) urlMapKey) (fun urlMapKey0 =>
  mret (store k p, urlMapKey0)))))).

(** *** The deletion check as one pass over the resources of the graph *)

(** The resources in the order the six loops visit them. *)
Definition items (g : GCLB) : list (Kind * Meta.Key) :=
  map (pair KForwardingRule) (rangeKeys (ForwardingRule g)) ++
  map (pair KTargetHTTPProxy) (rangeKeys (TargetHTTPProxy g)) ++
  map (pair KTargetHTTPSProxy) (rangeKeys (TargetHTTPSProxy g)) ++
  map (pair KURLMap) (rangeKeys (URLMap g)) ++
  map (pair KBackendService) (rangeKeys (BackendService g)) ++
  map (pair KNetworkEndpointGroup) (rangeKeys (NetworkEndpointGroup g)).

(** The condition under which a backend service that still exists is left
    out: [options != nil && options.SkipDefaultBackend] and the service name
    of its description. *)
Definition skipsDefaultBackend (options : option GCLBDeleteOptions)
    (bs : Compute.BackendService.t) : bool :=
  match options with
  | Some o => SkipDefaultBackend o
  | None => false
  end
  && String.eqb
       (Description.ServiceName
          (DescriptionFromString (Compute.BackendService.Description bs)))
       "kube-system/default-http-backend".

Definition verdict (options : option GCLBDeleteOptions)
    (r : result (option Compute.BackendService.t)) : Verdict :=
  match r with
  | ok (Some bs) => if skipsDefaultBackend options bs then Skipped else Present
  | ok None => Present
  | err GoogleapiErrorNil => Bad GoogleapiErrorNil
  | err (GoogleapiError code message) =>
      if (code =? StatusNotFound)%Z then Gone
      else Bad (GoogleapiError code message)
  | err _ => Crash
  end.

Definition probe (c : Cloud) (options : option GCLBDeleteOptions)
    (item : Kind * Meta.Key) : Verdict :=
  verdict options (response c (fst item) (snd item)).

(** One step of the pass: the Get, and what the loop body does with the
    answer. *)
Definition examineStep (c : Cloud) (options : option GCLBDeleteOptions)
    (resources : list Meta.Key) (item : Kind * Meta.Key)
  : M Call (list Meta.Key) :=
  ([callOf item],
   match probe c options item with
   | Gone | Skipped => Val resources
   | Present => Val (resources ++ [snd item])
   | Bad e => Fail (notDeleted (fst item) (snd item) e)
   | Crash => Panic
   end).

Definition examine (c : Cloud) (options : option GCLBDeleteOptions)
    (l : list (Kind * Meta.Key)) (resources : list Meta.Key)
  : M Call (list Meta.Key) :=
  range l (examineStep c options) resources.

(** The resources of the graph that still exist and are not skipped, in the
    order of the pass. *)
Definition stillPresent (c : Cloud) (options : option GCLBDeleteOptions)
    (l : list (Kind * Meta.Key)) : list Meta.Key :=
  map snd (List.filter (fun item => isPresent (probe c options item)) l).

(** The end of [CheckResourceDeletion]: nil when nothing is left, and one
    error that lists all the keys left otherwise. *)
Definition report (resources : list Meta.Key) : flow unit :=
  if negb (length resources =? 0)%nat then
    Fail (Errorf "resources still exist (%s)"
            [ArgString (Join (map KeyString resources) ", ")])
  else Val tt.

End Graph.

(** *** Two sentences of the specification, as predicates *)

(** The specification says of [CheckResourceDeletion] that it issues a Get
    for every resource recorded in the graph, instance groups included. *)
Definition getsEveryResource (g : GCLB) (trace : list Call) : Prop :=
  (forall kind k, k ∈ keysOf g kind ->
     In (Get (serviceOf kind k) (Some k)) trace) /\
  (forall k, k ∈ dom (InstanceGroup g) ->
     In (Get InstanceGroups (Some k)) trace).

(** The strings an error carries, and an error that mentions a key: by its
    name or by its printed form. *)
Definition argsOf (e : error) : list fmtarg :=
  match e with
  | Errorf _ args => args
  | _ => []
  end.

Definition mentions (KeyString : Meta.Key -> string) (e : error)
    (k : Meta.Key) : Prop :=
  exists s, In (ArgString s) (argsOf e) /\
            (Contains s (Meta.Name k) = true \/ Contains s (KeyString k) = true).

(** The specification says that every failure, a Get error other than not
    found as well as a resource still present, is in the one error the call
    returns. *)
Definition reportsEveryFailure (KeyString : Meta.Key -> string)
    (g : GCLB) (c : Cloud) (r : flow unit) : Prop :=
  forall kind k, k ∈ keysOf g kind -> ~ isNotFound (response c kind k) ->
    exists e, r = Fail e /\ mentions KeyString e k.

End Fuzz.

(** ** [pkg/backends/backends.go]: the backend pool's [Get] *)

Module Backends.

(** [composite.Cloud] as the pool uses it: [CreateKey(name, regional)] and
    [GetBackendService(version, key)].  The cloud is a snapshot: a fetch does
    not change what later fetches return. *)
Record CompositeCloud : Type :=
  { CreateKey : string -> bool -> Meta.Key;
    GetBackendService :
      Meta.Version -> Meta.Key -> Go.result Composite.BackendService }.

(** A call of [GetBackendService], as the trace records it. *)
Inductive Call : Type :=
| CallGetBackendService (version : Meta.Version) (key : Meta.Key).

Section Pool.

(** [features.VersionFromDescription] and [features.IsLowerVersion] of
    [pkg/backends/features], which [Get] calls. *)
Variable VersionFromDescription : string -> Meta.Version.
Variable IsLowerVersion : Meta.Version -> Meta.Version -> bool.

Variable compositeCloud : CompositeCloud.

Local Open Scope go_scope.

(** [b.compositeCloud.GetBackendService(version, key)], recorded. *)
Definition fetch (version : Meta.Version) (key : Meta.Key)
  : Go.traced Call (Go.result Composite.BackendService) :=
  Go.emit (CallGetBackendService version key) ;;;
  Go.tret (GetBackendService compositeCloud version key).

(** [func (b *Backends) Get(name, version, regional)]. *)
Definition Get (name : string) (version : Meta.Version) (regional : bool)
  : Go.traced Call (Go.result Composite.BackendService) :=
  r <- fetch version (CreateKey compositeCloud name regional) ;;
  match r with
  | Go.err e => Go.tret (Go.err e)
  | Go.ok be =>
      let versionRequired :=
        VersionFromDescription (Composite.Description be) in
      if IsLowerVersion versionRequired version then
        r' <- fetch versionRequired (CreateKey compositeCloud name regional) ;;
        match r' with
        | Go.err e => Go.tret (Go.err e)
        | Go.ok be' => Go.tret (Go.ok be')
        end
      else Go.tret (Go.ok be)
  end.

End Pool.

End Backends.

(** ** [pkg/loadbalancers/features/l7ilb.go] *)

Module LBFeatures.

(** The fields of [computealpha.Subnetwork] read here. *)
Record Subnetwork : Type :=
  { Role : string; Purpose : string; IpCidrRange : string }.

(** The loop of [ILBSubnetSourceRange]: the range of the first subnet whose
    role is ACTIVE and whose purpose is INTERNAL_HTTPS_LOAD_BALANCER. *)
Fixpoint firstILBSubnet (subnets : list Subnetwork) : option string :=
  match subnets with
  | [] => None
  | subnet :: rest =>
      if String.eqb (Role subnet) "ACTIVE"
         && String.eqb (Purpose subnet) "INTERNAL_HTTPS_LOAD_BALANCER"
      then Some (IpCidrRange subnet)
      else firstILBSubnet rest
  end.

(** [ILBSubnetSourceRange(cloud, region)], given what
    [cloud.Compute().AlphaSubnetworks().List(ctx, region, filter.None)]
    answers. *)
Definition ILBSubnetSourceRange
    (AlphaSubnetworks_List : string -> Go.result (list Subnetwork))
    (region : string) : Go.result string :=
  match AlphaSubnetworks_List region with
  | Go.err _ =>
      Go.err (Go.Errorf "error obtaining subnets for region: %s"
                [Go.ArgString region])
  | Go.ok subnets =>
      match firstILBSubnet subnets with
      | Some range => Go.ok range
      | None =>
          Go.err (Go.Errorf "L7 ILB Subnet not found in region: %s"
                    [Go.ArgString region])
      end
  end.

End LBFeatures.

(** ** [pkg/firewalls/controller.go]: the firewall controller's [sync] *)

Module Firewalls.

Import Go.

(** The part of [v1beta1.Ingress] read here. *)
Record Ingress : Type :=
  { Namespace : string;
    Name : string;
    Annotations : list (string * string) }.

(** What [sync] does to its collaborators, in program order. *)
Inductive Effect : Type :=
| Sleep
    (* time.Sleep(context.StoreSyncPollPeriod) *)
| FirewallPoolGC
    (* fwc.firewallPool.GC() *)
| FirewallPoolSync (nodeNames negPorts additionalRanges : list string)
    (* fwc.firewallPool.Sync(nodeNames, negPorts, additionalRanges) *)
| ListSubnetworks (region : string)
    (* cloud.Compute().AlphaSubnetworks().List(ctx, region, filter.None) *)
| Eventf (recorderNamespace : string) (object : Ingress)
    (eventtype reason messageFmt : string).
    (* fwc.ctx.Recorder(ns).Eventf(object, eventtype, reason, messageFmt) *)

(** [apiv1.EventTypeNormal] *)
Definition EventTypeNormal : string := "Normal".

Section Controller.

(** Types and functions of other packages of the repository:
    [utils.ServicePort] is used as an opaque value here, [GCEURLMap] is the
    translator's result. *)
Variable ServicePort : Type.
Variable GCEURLMap : Type.

(** [utils.IsGCEIngress], [utils.IsGCEL7ILBIngress] and
    [annotations.FromIngress(ing).SuppressFirewallXPNError()]. *)
Variable IsGCEIngress : Ingress -> bool.
Variable IsGCEL7ILBIngress : Ingress -> bool.
Variable SuppressFirewallXPNError : Ingress -> bool.

(** [translator.TranslateIngress(ing, defaultBackendSvcPortID)] (its second
    result is dropped by the caller), [urlMap.AllServicePorts()],
    [controller.UpdateServicePortsForILB(svcPorts, ing)], which rewrites the
    ports in place, and [translator.GatherEndpointPorts]. *)
Variable TranslateIngress : Ingress -> GCEURLMap.
Variable AllServicePorts : GCEURLMap -> list ServicePort.
Variable UpdateServicePortsForILB :
  list ServicePort -> Ingress -> list ServicePort.
Variable GatherEndpointPorts : list ServicePort -> list string.

(** The controller and the state of the world at one call of [sync]:
    the informer caches, the flag, the cloud and the firewall pool. *)
Record FirewallController : Type :=
  { hasSynced : bool;
      (* fwc.hasSynced() *)
    Ingresses_List : list Ingress;
      (* fwc.ctx.Ingresses().List() *)
    GetReadyNodeNames : result (list string);
      (* utils.GetReadyNodeNames(listers.NewNodeLister(fwc.nodeLister)) *)
    EnableL7Ilb : bool;
      (* flags.F.EnableL7Ilb *)
    Region : string;
      (* fwc.ctx.Cloud.Region() *)
    AlphaSubnetworks_List : string -> result (list LBFeatures.Subnetwork);
    firewallPool_Sync :
      list string -> list string -> list string -> option error
      (* the error fwc.firewallPool.Sync answers; None is nil *) }.

Variable fwc : FirewallController.

Local Open Scope go_scope.

(** [ToSvcPorts(ings)] *)
Fixpoint ToSvcPorts (ings : list Ingress) : list ServicePort :=
  match ings with
  | [] => []
  | ing :: rest =>
      let urlMap := TranslateIngress ing in
      let svcPorts := AllServicePorts urlMap in
      let svcPorts :=
        if EnableL7Ilb fwc && IsGCEL7ILBIngress ing
        then UpdateServicePortsForILB svcPorts ing
        else svcPorts in
      svcPorts ++ ToSvcPorts rest
  end.

(** [ilbFirewallSrcRange(gceIngresses)] *)
Definition ilbFirewallSrcRange (gceIngresses : list Ingress)
  : traced Effect (result string) :=
  let ilbEnabled := existsb IsGCEL7ILBIngress gceIngresses in
  if ilbEnabled then
    emit (ListSubnetworks (Region fwc)) ;;;
    match LBFeatures.ILBSubnetSourceRange (AlphaSubnetworks_List fwc)
            (Region fwc) with
    | err e =>
        tret (err (Errorf "error unable to get ILB subnet source ranges: %v"
                     [ArgError e]))
    | ok L7ILBSrcRange => tret (ok L7ILBSrcRange)
    end
  else tret (ok "").

(** The loop that raises an event on each ingress, for an XPN error with
    message [message]. *)
Fixpoint raiseXPNEvents (message : string) (gceIngresses : list Ingress)
  : traced Effect unit :=
  match gceIngresses with
  | [] => tret tt
  | ing :: rest =>
      (if SuppressFirewallXPNError ing then tret tt
       else emit (Eventf (Namespace ing) ing EventTypeNormal "XPN" message)) ;;;
      raiseXPNEvents message rest
  end.

(** [func (fwc *FirewallController) sync(key string) error]; the result
    [None] is [nil]. *)
Definition sync (key : string) : traced Effect (option error) :=
  if negb (hasSynced fwc) then
    emit Sleep ;;;
    tret (Some (Errorf "waiting for stores to sync" []))
  else
    let gceIngresses := List.filter IsGCEIngress (Ingresses_List fwc) in
    (* If there are no more ingresses, then delete the firewall rule. *)
    if (length gceIngresses =? 0)%nat then
      emit FirewallPoolGC ;;;
      tret None
    else
      let gceSvcPorts := ToSvcPorts gceIngresses in
      match GetReadyNodeNames fwc with
      | err e => tret (Some e)
      | ok nodeNames =>
          let negPorts := GatherEndpointPorts gceSvcPorts in
          r <- (if EnableL7Ilb fwc then
                  r <- ilbFirewallSrcRange gceIngresses ;;
                  match r with
                  | err e => tret (err e)
                  | ok ilbRange => tret (ok ([] ++ [ilbRange]))
                  end
                else tret (ok [])) ;;
          match r with
          | err e => tret (Some e)
          | ok additionalRanges =>
              emit (FirewallPoolSync nodeNames negPorts additionalRanges) ;;;
              match firewallPool_Sync fwc nodeNames negPorts
                      additionalRanges with
              | Some e =>
                  match e with
                  | FirewallXPNError message =>
                      (* XPN: Raise an event on each ingress *)
                      raiseXPNEvents message gceIngresses ;;;
                      tret None
                  | _ => tret (Some e)
                  end
              | None => tret None
              end
          end
      end.

End Controller.

(** The managed ingresses of a controller: the listed ingresses that
    [utils.IsGCEIngress] accepts. *)
Definition gceIngressesOf (IsGCEIngress : Ingress -> bool)
    (fwc : FirewallController) : list Ingress :=
  List.filter IsGCEIngress (Ingresses_List fwc).

#[global] Instance Ingress_eq_dec : EqDecision Ingress.
Proof. solve_decision. Defined.

(** The events of a trace, and the number of events recorded against one
    ingress. *)
Definition isEvent (e : Effect) : bool :=
  match e with
  | Eventf _ _ _ _ _ => true
  | _ => false
  end.

Definition isEventAgainst (ing : Ingress) (e : Effect) : bool :=
  match e with
  | Eventf _ object _ _ _ => bool_decide (object = ing)
  | _ => false
  end.

Definition events (trace : list Effect) : list Effect :=
  List.filter isEvent trace.

Definition eventsAgainst (ing : Ingress) (trace : list Effect) : nat :=
  length (List.filter (isEventAgainst ing) trace).

Definition isSyncCall (e : Effect) : bool :=
  match e with
  | FirewallPoolSync _ _ _ => true
  | _ => false
  end.

(** Effects that are neither a call of [Sync] nor an event. *)
Definition quiet (trace : list Effect) : Prop :=
  Forall (fun e => isSyncCall e = false /\ isEvent e = false) trace.

End Firewalls.

(** ** [pkg/composite]: conversion between the composite and the wire types *)

Module Converter.

(** Modelled from the spec: the struct types of the generated
    [pkg/composite/composite.go] and of the three compute API packages, which
    are not under src/.  The spec describes a canonical shape that is the
    union of the fields of all versions, and a structural, field-by-field
    mapping.  A struct value is the list of its fields that are set, by JSON
    name, each a scalar or a nested struct that is present, together with
    its [ForceSendFields]; a field that is not listed holds its zero value. *)
Inductive Value : Type :=
| Scalar (text : string)
| Struct (fields : list (string * Value)) (ForceSendFields : list string).

(** Modelled from the spec: the type of a struct at one API version, the
    JSON names of its fields with the type of each. *)
Inductive Schema : Type :=
| SScalar
| SStruct (fields : list (string * Schema)).

(** Modelled from the spec: a JSON document.  [JZero] is the zero value that
    a field listed in [ForceSendFields] is sent with. *)
Inductive Json : Type :=
| JScalar (text : string)
| JZero
| JObject (members : list (string * Json)).

(** The three API versions of the generator's [Versions] table. *)
Inductive ApiVersion : Type := Alpha | Beta | GA.

Fixpoint assoc {A : Type} (name : string) (l : list (string * A)) : option A :=
  match l with
  | [] => None
  | (n, a) :: rest => if String.eqb n name then Some a else assoc name rest
  end.

Definition hasField {A : Type} (name : string) (l : list (string * A)) : bool :=
  match assoc name l with
  | Some _ => true
  | None => false
  end.

(** The JSON name of a Go field name: the first letter in lower case. *)
Definition toLower (ch : Ascii.ascii) : Ascii.ascii :=
  let n := Ascii.nat_of_ascii ch in
  if (65 <=? n)%nat && (n <=? 90)%nat then Ascii.ascii_of_nat (n + 32) else ch.

Definition jsonName (goName : string) : string :=
  match goName with
  | EmptyString => EmptyString
  | String ch rest => String (toLower ch) rest
  end.

(** Modelled from the spec: [json.Marshal] of a wire struct.  The fields that
    are set are written (all carry [omitempty]), and a field named in
    [ForceSendFields] that is not set is written with its zero value. *)
Fixpoint Marshal (v : Value) : Json :=
  match v with
  | Scalar text => JScalar text
  | Struct fields force =>
      JObject
        (map (fun nv => (fst nv, Marshal (snd nv))) fields ++
         map (fun name => (jsonName name, JZero))
           (List.filter (fun name => negb (hasField (jsonName name) fields))
              force))
  end.

(** Modelled from the spec: [json.Unmarshal] into a struct of the schema
    [S].  A member whose name the struct does not have is ignored, a zero
    value leaves the field unset, and a scalar where the struct has a nested
    struct (or the reverse) is malformed input, the only error.  The
    [ForceSendFields] of the result are empty, their tag being [json:"-"]. *)
Fixpoint unmarshalMembers (U : Schema -> Json -> Go.result Value)
    (ss : list (string * Schema)) (ms : list (string * Json))
  : Go.result (list (string * Value)) :=
  match ms with
  | [] => Go.ok []
  | (n, j) :: rest =>
      match assoc n ss with
      | None => unmarshalMembers U ss rest
      | Some s =>
          match j with
          | JZero => unmarshalMembers U ss rest
          | _ =>
              match U s j with
              | Go.err e => Go.err e
              | Go.ok v =>
                  match unmarshalMembers U ss rest with
                  | Go.err e => Go.err e
                  | Go.ok vs => Go.ok ((n, v) :: vs)
                  end
              end
          end
      end
  end.

Fixpoint Unmarshal (S : Schema) (j : Json) {struct j} : Go.result Value :=
  match j with
  | JScalar text =>
      match S with
      | SScalar => Go.ok (Scalar text)
      | SStruct _ =>
          Go.err (Go.ErrorString "json: cannot unmarshal string into struct")
      end
  | JZero => Go.err (Go.ErrorString "json: unexpected zero value")
  | JObject ms =>
      match S with
      | SScalar =>
          Go.err (Go.ErrorString "json: cannot unmarshal object into scalar")
      | SStruct ss =>
          match unmarshalMembers Unmarshal ss ms with
          | Go.ok fields => Go.ok (Struct fields [])
          | Go.err e => Go.err e
          end
      end
  end.

(** A composite value: the [Version] field, which is the controller's own
    and has no JSON tag, and the fields shared with the wire types. *)
Record Composite : Type := mkComposite
  { Version : string;
    Fields : list (string * Value) }.

(** Modelled from the spec: [json.Marshal] of a composite struct, which has
    no marshaller of its own: the fields that are set, none forced, after the
    [Version] field under its Go name. *)
Fixpoint clean (x : Value) : Value :=
  match x with
  | Scalar text => Scalar text
  | Struct fields _ =>
      Struct (map (fun nv => (fst nv, clean (snd nv))) fields) []
  end.

Definition MarshalComposite (c : Composite) : Json :=
  JObject
    (("Version", JScalar (Version c)) ::
     map (fun nv => (fst nv, Marshal (clean (snd nv)))) (Fields c)).

(** Modelled from the spec: [json.Unmarshal] into a composite struct whose
    shared fields have the schema [ss]. *)
Definition versionOf (ms : list (string * Json)) : string :=
  match assoc "Version" ms with
  | Some (JScalar text) => text
  | _ => ""
  end.

Definition UnmarshalComposite (ss : list (string * Schema)) (j : Json)
  : Go.result Composite :=
  match j with
  | JObject ms =>
      match unmarshalMembers Unmarshal ss ms with
      | Go.ok fields => Go.ok (mkComposite (versionOf ms) fields)
      | Go.err e => Go.err e
      end
  | _ => Go.err (Go.ErrorString "json: cannot unmarshal into struct")
  end.

(** Reading and writing a field of a struct that is present. *)
Definition field (name : string) (v : Value) : option Value :=
  match v with
  | Struct fields _ => assoc name fields
  | Scalar _ => None
  end.

Definition setForceSendFields (force : list string) (v : Value) : Value :=
  match v with
  | Struct fields _ => Struct fields force
  | Scalar text => Scalar text
  end.

Fixpoint updateFields (name : string) (f : Value -> Value)
    (fields : list (string * Value)) : list (string * Value) :=
  match fields with
  | [] => []
  | (n, v) :: rest =>
      if String.eqb n name then (n, f v) :: rest
      else (n, v) :: updateFields name f rest
  end.

Definition update (name : string) (f : Value -> Value) (v : Value) : Value :=
  match v with
  | Struct fields force => Struct (updateFields name f fields) force
  | Scalar text => Scalar text
  end.

(** The statements of [to<Version>] for a [BackendService], after the
    unmarshalling: [Set force send fields. This is a temporary hack.] *)
Definition setForceSend (w : Value) : Value :=
  let w :=
    match field "cdnPolicy" w with
    | Some cdnPolicy =>
        match field "cacheKeyPolicy" cdnPolicy with
        | Some _ =>
            update "cdnPolicy"
              (update "cacheKeyPolicy"
                 (setForceSendFields
                    ["IncludeHost"; "IncludeProtocol"; "IncludeQueryString";
                     "QueryStringBlacklist"; "QueryStringWhitelist"])) w
        | None => w
        end
    | None => w
    end in
  match field "iap" w with
  | Some _ =>
      update "iap"
        (setForceSendFields ["Enabled"; "Oauth2ClientId"; "Oauth2ClientSecret"])
        w
  | None => w
  end.

(** [$version | ToLower] *)
Definition lowerName (version : ApiVersion) : string :=
  match version with
  | Alpha => "alpha"
  | Beta => "beta"
  | GA => "ga"
  end.

Section Generated.

(** The schema of the type [name] at each API version.  The composite type
    has the fields of the alpha type. *)
Variable name : string.
Variable schemaOf : ApiVersion -> list (string * Schema).

(** [to<Name>(obj)] of the generator's template: [json.Marshal(obj)], then
    [json.Unmarshal] into a new composite value. *)
Definition toComposite (obj : Value) : Go.result Composite :=
  let bytes := Marshal obj in
  match UnmarshalComposite (schemaOf Alpha) bytes with
  | Go.err e =>
      Go.err (Go.Errorf ("error unmarshalling to " ++ name ++ ": %v")
                [Go.ArgError e])
  | Go.ok be => Go.ok be
  end.

(** [to<Version>()] of the generator's template: [json.Marshal] of the
    composite value, [json.Unmarshal] into a new wire value of the version,
    and for a [BackendService] the force send fields. *)
Definition toVersion (version : ApiVersion) (c : Composite) : Go.result Value :=
  let bytes := MarshalComposite c in
  match Unmarshal (SStruct (schemaOf version)) bytes with
  | Go.err e =>
      Go.err (Go.Errorf
                ("error unmarshalling " ++ name ++ " JSON to compute "
                 ++ lowerName version ++ " type: %v")
                [Go.ArgError e])
  | Go.ok w =>
      if String.eqb name "BackendService" then Go.ok (setForceSend w)
      else Go.ok w
  end.

End Generated.

(** *** Vocabulary for the properties of the conversion *)

(** A value restricted to the fields of a schema, nested structs included. *)
Fixpoint projectFields (P : Schema -> Value -> Value)
    (ss : list (string * Schema)) (fs : list (string * Value))
  : list (string * Value) :=
  match fs with
  | [] => []
  | (n, v) :: rest =>
      match assoc n ss with
      | Some s => (n, P s v) :: projectFields P ss rest
      | None => projectFields P ss rest
      end
  end.

Fixpoint project (S : Schema) (x : Value) {struct x} : Value :=
  match x with
  | Scalar text => Scalar text
  | Struct fields _ =>
      match S with
      | SStruct ss => Struct (projectFields project ss fields) []
      | SScalar => Struct [] []
      end
  end.

(** The composite value restricted to the fields present at a version; the
    [Version] field is of no version. *)
Definition restrictTo (ss : list (string * Schema)) (c : Composite)
  : Composite :=
  mkComposite "" (projectFields project ss (Fields c)).

(** A value conforms to a schema when each field that the schema has is of
    the schema's type; strictly, when the schema has every field of the
    value as well: the value is then an object of that schema. *)
Fixpoint conformsFields (C : Schema -> Value -> bool) (strict : bool)
    (ss : list (string * Schema)) (fs : list (string * Value)) : bool :=
  match fs with
  | [] => true
  | (n, v) :: rest =>
      match assoc n ss with
      | Some s => C s v
      | None => negb strict
      end && conformsFields C strict ss rest
  end.

Fixpoint conforms (strict : bool) (S : Schema) (x : Value) {struct x} : bool :=
  match x with
  | Scalar _ =>
      match S with
      | SScalar => true
      | SStruct _ => false
      end
  | Struct fields _ =>
      match S with
      | SStruct ss => conformsFields (conforms strict) strict ss fields
      | SScalar => false
      end
  end.

(** A schema all of whose fields another schema has, at every depth. *)
Fixpoint subFields (Sub : Schema -> Schema -> bool)
    (ss : list (string * Schema)) (ss' : list (string * Schema)) : bool :=
  match ss' with
  | [] => true
  | (n, s') :: rest =>
      match assoc n ss with
      | Some s => Sub s' s
      | None => false
      end && subFields Sub ss rest
  end.

Fixpoint subschema (S' S : Schema) {struct S'} : bool :=
  match S' with
  | SScalar =>
      match S with
      | SScalar => true
      | SStruct _ => false
      end
  | SStruct ss' =>
      match S with
      | SStruct ss => subFields subschema ss ss'
      | SScalar => false
      end
  end.

End Converter.

(** ** Sample inputs *)

Module Samples.

Import BackendConfigApi.

(** A backend config that asks for ROUND_ROBIN, a service port that carries
    it, and a backend service whose policy is MAGLEV. *)
Definition bc_round_robin : BackendConfig :=
  {| Spec := {| TrafficManagement :=
                  Some {| LocalityLbPolicy := "ROUND_ROBIN" |} |} |}.

Definition sp_round_robin : Utils.ServicePort :=
  {| Utils.ID :=
       {| Utils.Service := {| Utils.Namespace := "default";
                              Utils.SvcName := "svc" |};
          Utils.PortStr := "80" |};
     Utils.NodePort := 30080%Z;
     Utils.NEGEnabled := false;
     Utils.L7ILBEnabled := true;
     Utils.BackendConfig := Some bc_round_robin |}.

Definition be_maglev : Composite.BackendService :=
  Composite.set_LocalityLbPolicy "MAGLEV" Composite.zero.

(** A backend service stored with a marker in its description, a decoder
    that reads the marker, an order on versions in which alpha is lowest, and
    a cloud that answers the marked object at GA and a fuller one at alpha. *)
Definition be_marked : Composite.BackendService :=
  Composite.mkBackendService "" "be-1" "alpha-feature" [] [] "" "" 0%Z "" "" ""
    "" "".

Definition be_marked_alpha : Composite.BackendService :=
  Composite.mkBackendService "" "be-1" "alpha-feature" [] [] "" "MAGLEV" 0%Z
    "" "" "" "" "".

Definition versionFromDescription (desc : string) : Meta.Version :=
  if String.eqb desc "alpha-feature" then Meta.VersionAlpha else Meta.VersionGA.

Definition versionLevel (v : Meta.Version) : nat :=
  if String.eqb v Meta.VersionAlpha then 0
  else if String.eqb v Meta.VersionBeta then 1 else 2.

Definition isLowerVersion (v1 v2 : Meta.Version) : bool :=
  (versionLevel v1 <? versionLevel v2)%nat.

Definition compositeCloud : Backends.CompositeCloud :=
  {| Backends.CreateKey := fun name regional =>
       if regional then Meta.RegionalKey name "us-central1"
       else Meta.GlobalKey name;
     Backends.GetBackendService := fun version key =>
       if String.eqb version Meta.VersionAlpha then Go.ok be_marked_alpha
       else Go.ok be_marked |}.

(** A cluster with two GCE ingresses, the second of which suppresses the
    XPN event, and one ingress of another class; a firewall pool whose [Sync]
    answers an XPN error. *)
Definition ing (name : string) (annotations : list (string * string))
  : Firewalls.Ingress :=
  {| Firewalls.Namespace := "default";
     Firewalls.Name := name;
     Firewalls.Annotations := annotations |}.

Definition ing_a : Firewalls.Ingress := ing "a" [].
Definition ing_b : Firewalls.Ingress :=
  ing "b" [("networking.gke.io/suppress-firewall-xpn-error", "true")].
Definition ing_nginx : Firewalls.Ingress :=
  ing "n" [("kubernetes.io/ingress.class", "nginx")].

Definition hasAnnotation (key value : string) (i : Firewalls.Ingress) : bool :=
  existsb (fun kv => String.eqb (fst kv) key && String.eqb (snd kv) value)
    (Firewalls.Annotations i).

Definition isGCEIngress (i : Firewalls.Ingress) : bool :=
  negb (hasAnnotation "kubernetes.io/ingress.class" "nginx" i).

Definition isGCEL7ILBIngress (i : Firewalls.Ingress) : bool :=
  hasAnnotation "kubernetes.io/ingress.class" "gce-internal" i.

Definition suppressFirewallXPNError (i : Firewalls.Ingress) : bool :=
  hasAnnotation "networking.gke.io/suppress-firewall-xpn-error" "true" i.

Definition translateIngress (i : Firewalls.Ingress) : list Z := [30080%Z].

Definition gatherEndpointPorts (ports : list Z) : list string := ["8080"].

Definition xpnMessage : string := "Firewall change required by network admin".

Definition fwc_xpn : Firewalls.FirewallController :=
  {| Firewalls.hasSynced := true;
     Firewalls.Ingresses_List := [ing_a; ing_nginx; ing_b];
     Firewalls.GetReadyNodeNames := Go.ok ["node-1"; "node-2"];
     Firewalls.EnableL7Ilb := false;
     Firewalls.Region := "us-central1";
     Firewalls.AlphaSubnetworks_List := fun _ => Go.ok [];
     Firewalls.firewallPool_Sync := fun _ _ _ =>
       Some (Go.FirewallXPNError xpnMessage) |}.

(** The same cluster with no GCE ingress left. *)
Definition fwc_empty : Firewalls.FirewallController :=
  {| Firewalls.hasSynced := true;
     Firewalls.Ingresses_List := [ing_nginx];
     Firewalls.GetReadyNodeNames := Go.ok ["node-1"; "node-2"];
     Firewalls.EnableL7Ilb := false;
     Firewalls.Region := "us-central1";
     Firewalls.AlphaSubnetworks_List := fun _ => Go.ok [];
     Firewalls.firewallPool_Sync := fun _ _ _ => None |}.

(** A printer of keys, a decoder of descriptions that takes the whole
    description for the service name, and the order of [range] that follows
    the map's own enumeration. *)
Definition keyString (k : Meta.Key) : string :=
  "Key{" ++ Meta.Name k ++ "}".

Definition descriptionFromString (desc : string) : Description.t :=
  {| Description.ServiceName := desc; Description.ServicePort := "" |}.

Definition mapOrder (V : Type) (m : gmap Meta.Key V) : list Meta.Key :=
  (map_to_list m).*1.

(** Wire objects. *)
Definition fr_http : Compute.ForwardingRule.t :=
  {| Compute.ForwardingRule.Name := "fr-http";
     Compute.ForwardingRule.IPAddress := "203.0.113.7";
     Compute.ForwardingRule.Target := "global/targetHttpProxies/tp-http" |}.

Definition fr_https : Compute.ForwardingRule.t :=
  {| Compute.ForwardingRule.Name := "fr-https";
     Compute.ForwardingRule.IPAddress := "203.0.113.7";
     Compute.ForwardingRule.Target := "global/targetHttpsProxies/tp-https" |}.

Definition tp_http : Compute.TargetHttpProxy.t :=
  {| Compute.TargetHttpProxy.Name := "tp-http";
     Compute.TargetHttpProxy.UrlMap := "global/urlMaps/um-1" |}.

Definition tp_https : Compute.TargetHttpsProxy.t :=
  {| Compute.TargetHttpsProxy.Name := "tp-https";
     Compute.TargetHttpsProxy.UrlMap := "global/urlMaps/um-2" |}.

Definition um_1 : Compute.UrlMap.t :=
  {| Compute.UrlMap.Name := "um-1";
     Compute.UrlMap.DefaultService := "global/backendServices/be-default";
     Compute.UrlMap.PathMatchers := [] |}.

Definition bs_default : Compute.BackendService.t :=
  {| Compute.BackendService.Name := "be-default";
     Compute.BackendService.Description := "kube-system/default-http-backend";
     Compute.BackendService.Backends := [] |}.

Definition bs_app : Compute.BackendService.t :=
  {| Compute.BackendService.Name := "be-app";
     Compute.BackendService.Description := "default/app";
     Compute.BackendService.Backends := [] |}.

Definition neg_1 : Compute.NetworkEndpointGroup.t :=
  {| Compute.NetworkEndpointGroup.Name := "neg-1" |}.

Definition ig_1 : Compute.InstanceGroup.t :=
  {| Compute.InstanceGroup.Name := "ig-1" |}.

Definition only {A : Type} (a : A) : Fuzz.Union A :=
  Fuzz.mkUnion (Some a) None None.

(** Answers. *)
Definition notFound {A : Type} : Go.result A :=
  Go.err (Go.GoogleapiError Go.StatusNotFound "not found").

Definition serverError {A : Type} : Go.result A :=
  Go.err (Go.GoogleapiError 500 "internal error").

(** A cloud in which nothing exists any more. *)
Definition cloud_gone : Cloud.Cloud :=
  {| Cloud.GlobalForwardingRules_List := Go.ok [];
     Cloud.GlobalForwardingRules_Get := fun _ => notFound;
     Cloud.ForwardingRules_Get := fun _ => notFound;
     Cloud.AlphaForwardingRules_Get := fun _ => notFound;
     Cloud.TargetHttpProxies_Get := fun _ => notFound;
     Cloud.TargetHttpsProxies_Get := fun _ => notFound;
     Cloud.UrlMaps_Get := fun _ => notFound;
     Cloud.BackendServices_Get := fun _ => notFound;
     Cloud.AlphaBackendServices_Get := fun _ => notFound;
     Cloud.BetaBackendServices_Get := fun _ => notFound;
     Cloud.NetworkEndpointGroups_Get := fun _ => notFound;
     Cloud.AlphaNetworkEndpointGroups_Get := fun _ => notFound;
     Cloud.BetaNetworkEndpointGroups_Get := fun _ => notFound;
     Cloud.InstanceGroups_Get := fun _ => notFound |}.

(** A cloud in which a Get of a forwarding rule fails with code 500 and the
    URL map still exists. *)
Definition cloud_failing : Cloud.Cloud :=
  {| Cloud.GlobalForwardingRules_List := Go.ok [];
     Cloud.GlobalForwardingRules_Get := fun _ => serverError;
     Cloud.ForwardingRules_Get := fun _ => serverError;
     Cloud.AlphaForwardingRules_Get := fun _ => notFound;
     Cloud.TargetHttpProxies_Get := fun _ => notFound;
     Cloud.TargetHttpsProxies_Get := fun _ => notFound;
     Cloud.UrlMaps_Get := fun _ => Go.ok um_1;
     Cloud.BackendServices_Get := fun _ => notFound;
     Cloud.AlphaBackendServices_Get := fun _ => notFound;
     Cloud.BetaBackendServices_Get := fun _ => notFound;
     Cloud.NetworkEndpointGroups_Get := fun _ => notFound;
     Cloud.AlphaNetworkEndpointGroups_Get := fun _ => notFound;
     Cloud.BetaNetworkEndpointGroups_Get := fun _ => notFound;
     Cloud.InstanceGroups_Get := fun _ => notFound |}.

(** A cloud in which only the default backend service is left. *)
Definition cloud_default_backend : Cloud.Cloud :=
  {| Cloud.GlobalForwardingRules_List := Go.ok [];
     Cloud.GlobalForwardingRules_Get := fun _ => notFound;
     Cloud.ForwardingRules_Get := fun _ => notFound;
     Cloud.AlphaForwardingRules_Get := fun _ => notFound;
     Cloud.TargetHttpProxies_Get := fun _ => notFound;
     Cloud.TargetHttpsProxies_Get := fun _ => notFound;
     Cloud.UrlMaps_Get := fun _ => notFound;
     Cloud.BackendServices_Get := fun key =>
       if bool_decide (key = Some (Meta.GlobalKey "be-default"))
       then Go.ok bs_default else notFound;
     Cloud.AlphaBackendServices_Get := fun _ => notFound;
     Cloud.BetaBackendServices_Get := fun _ => notFound;
     Cloud.NetworkEndpointGroups_Get := fun _ => notFound;
     Cloud.AlphaNetworkEndpointGroups_Get := fun _ => notFound;
     Cloud.BetaNetworkEndpointGroups_Get := fun _ => notFound;
     Cloud.InstanceGroups_Get := fun _ => notFound |}.

(** The graph of a load balancer: a forwarding rule, its proxy, the URL map,
    two backend services (one the default backend), a network endpoint group
    and an instance group. *)
Definition gclb_full : Fuzz.GCLB :=
  Fuzz.mkGCLB "203.0.113.7"
    {[ Meta.GlobalKey "fr-http" := only fr_http ]}
    {[ Meta.GlobalKey "tp-http" := only tp_http ]}
    ∅
    {[ Meta.GlobalKey "um-1" := only um_1 ]}
    {[ Meta.GlobalKey "be-default" := only bs_default;
       Meta.GlobalKey "be-app" := only bs_app ]}
    {[ Meta.ZonalKey "neg-1" "us-central1-a" := only neg_1 ]}
    {[ Meta.ZonalKey "ig-1" "us-central1-a" :=
         Fuzz.mkInstanceGroupUnion (Some ig_1) ]}.

(** A graph with a forwarding rule and a URL map. *)
Definition gclb_small : Fuzz.GCLB :=
  Fuzz.mkGCLB "203.0.113.7"
    {[ Meta.GlobalKey "fr-http" := only fr_http ]} ∅ ∅
    {[ Meta.GlobalKey "um-1" := only um_1 ]} ∅ ∅ ∅.

(** A parser of the links [global/<resource>/<name>]. *)
Fixpoint splitOn (sep : Ascii.ascii) (s : string) : list string :=
  match s with
  | EmptyString => [EmptyString]
  | String ch rest =>
      if Ascii.eqb ch sep then EmptyString :: splitOn sep rest
      else match splitOn sep rest with
           | [] => [String ch EmptyString]
           | first :: others => String ch first :: others
           end
  end.

Definition parseResourceURL (url : string) : Go.result Cloud.ResourceID :=
  match splitOn (Ascii.ascii_of_nat 47) url with
  | [scope; resource; name] =>
      if String.eqb scope "global" then
        Go.ok {| Cloud.ProjectID := "project";
                 Cloud.Resource := resource;
                 Cloud.Key := Some (Meta.GlobalKey name) |}
      else Go.err (Go.ErrorString "not a valid resource URL")
  | _ => Go.err (Go.ErrorString "not a valid resource URL")
  end.

(** A cloud with two forwarding rules on one VIP, whose proxies reference
    the URL maps um-1 and um-2, and a rule of another VIP. *)
Definition fr_other : Compute.ForwardingRule.t :=
  {| Compute.ForwardingRule.Name := "fr-other";
     Compute.ForwardingRule.IPAddress := "198.51.100.1";
     Compute.ForwardingRule.Target := "global/targetHttpProxies/tp-other" |}.

Definition cloud_two_url_maps : Cloud.Cloud :=
  {| Cloud.GlobalForwardingRules_List := Go.ok [fr_http; fr_other; fr_https];
     Cloud.GlobalForwardingRules_Get := fun _ => notFound;
     Cloud.ForwardingRules_Get := fun _ => notFound;
     Cloud.AlphaForwardingRules_Get := fun _ => notFound;
     Cloud.TargetHttpProxies_Get := fun _ => Go.ok tp_http;
     Cloud.TargetHttpsProxies_Get := fun _ => Go.ok tp_https;
     Cloud.UrlMaps_Get := fun _ => Go.ok um_1;
     Cloud.BackendServices_Get := fun _ => Go.ok bs_default;
     Cloud.AlphaBackendServices_Get := fun _ => Go.ok bs_default;
     Cloud.BetaBackendServices_Get := fun _ => Go.ok bs_default;
     Cloud.NetworkEndpointGroups_Get := fun _ => notFound;
     Cloud.AlphaNetworkEndpointGroups_Get := fun _ => notFound;
     Cloud.BetaNetworkEndpointGroups_Get := fun _ => notFound;
     Cloud.InstanceGroups_Get := fun _ => notFound |}.

(** The schemas of a backend service at the three versions: beta adds a
    field to GA, alpha one more; a wire object of GA with a CDN policy and an
    IAP block; and a composite value that sets the alpha-only field. *)
Definition cacheKeyPolicySchema : Converter.Schema :=
  Converter.SStruct
    [("includeHost", Converter.SScalar);
     ("includeProtocol", Converter.SScalar);
     ("includeQueryString", Converter.SScalar);
     ("queryStringBlacklist", Converter.SScalar);
     ("queryStringWhitelist", Converter.SScalar)].

Definition backendServiceGA : list (string * Converter.Schema) :=
  [("name", Converter.SScalar);
   ("description", Converter.SScalar);
   ("cdnPolicy", Converter.SStruct [("cacheKeyPolicy", cacheKeyPolicySchema)]);
   ("iap",
    Converter.SStruct
      [("enabled", Converter.SScalar);
       ("oauth2ClientId", Converter.SScalar);
       ("oauth2ClientSecret", Converter.SScalar)])].

Definition backendServiceBeta : list (string * Converter.Schema) :=
  backendServiceGA ++ [("customRequestHeaders", Converter.SScalar)].

Definition backendServiceAlpha : list (string * Converter.Schema) :=
  backendServiceBeta ++ [("localityLbPolicy", Converter.SScalar)].

Definition backendServiceSchemas (version : Converter.ApiVersion)
  : list (string * Converter.Schema) :=
  match version with
  | Converter.Alpha => backendServiceAlpha
  | Converter.Beta => backendServiceBeta
  | Converter.GA => backendServiceGA
  end.

Definition wire_ga : Converter.Value :=
  Converter.Struct
    [("name", Converter.Scalar "be-1");
     ("cdnPolicy",
      Converter.Struct
        [("cacheKeyPolicy",
          Converter.Struct [("includeHost", Converter.Scalar "true")] [])]
        []);
     ("iap", Converter.Struct [] ["Enabled"])]
    [].

Definition composite_alpha : Converter.Composite :=
  Converter.mkComposite "alpha"
    [("name", Converter.Scalar "be-1");
     ("localityLbPolicy", Converter.Scalar "MAGLEV");
     ("iap", Converter.Struct [] [])].

End Samples.

(** ** [pkg/fuzz/gcp.go]: vocabulary for the graph that discovery returns *)

Module FuzzGraph.

Import Go Cloud Fuzz.

(** The links to backend services that a URL map holds, in the order in which
    [GCLBForVIP] reads them: the default service, then for each path matcher
    its default service and the services of its path rules. *)
Definition serviceLinks (urlMap : Compute.UrlMap.t) : list string :=
  Compute.UrlMap.DefaultService urlMap ::
  flat_map
    (fun pm =>
       Compute.PathMatcher.DefaultService pm ::
       map Compute.PathRule.Service (Compute.PathMatcher.PathRules pm))
    (Compute.UrlMap.PathMatchers urlMap).

(** An entry of a map of the graph that holds, as its GA object and with no
    other version, what the Get [getf] of the cloud answers for its key. *)
Definition holdsAnswer {A : Type} (getf : option Meta.Key -> result A)
    (m : gmap Meta.Key (Union A)) : Prop :=
  forall k u, m !! k = Some u ->
    exists a, getf (Some k) = ok a /\ u = mkUnion (Some a) None None.

(** A graph all of whose target proxies, URL maps, backend services, network
    endpoint groups and instance groups are what the cloud answers for their
    keys. *)
Definition holdsAnswers (c : Cloud.Cloud) (g : GCLB) : Prop :=
  holdsAnswer (TargetHttpProxies_Get c) (TargetHTTPProxy g) /\
  holdsAnswer (TargetHttpsProxies_Get c) (TargetHTTPSProxy g) /\
  holdsAnswer (UrlMaps_Get c) (URLMap g) /\
  holdsAnswer (BackendServices_Get c) (BackendService g) /\
  holdsAnswer (NetworkEndpointGroups_Get c) (NetworkEndpointGroup g) /\
  (forall k u, InstanceGroup g !! k = Some u ->
     exists ig, InstanceGroups_Get c (Some k) = ok ig /\
                u = mkInstanceGroupUnion (Some ig)).

End FuzzGraph.

(** ** [pkg/fuzz/gcp.go]: [NetworkEndpointsInNegs] *)

Module FuzzEndpoints.

Import Go.

(** The calls that [NetworkEndpointsInNegs] makes to the cloud:
    [c.NetworkEndpointGroups().Get(ctx, key)] and
    [c.NetworkEndpointGroups().ListNetworkEndpoints(ctx, key, req, nil)],
    the request being its [HealthStatus]. *)
Inductive Call : Type :=
| Get (key : option Meta.Key)
| ListNetworkEndpoints (key : option Meta.Key) (HealthStatus : string).

Section Endpoints.

(** [compute.NetworkEndpointWithHealthStatus], of which the code reads
    nothing. *)
Variable NetworkEndpointWithHealthStatus : Type.

(** [type NetworkEndpoints struct { NEG *compute.NetworkEndpointGroup;
    Endpoints []*compute.NetworkEndpointWithHealthStatus }]. *)
Record NetworkEndpoints : Type := mkNetworkEndpoints
  { NEG : option Compute.NetworkEndpointGroup.t;
    Endpoints : list NetworkEndpointWithHealthStatus }.

(** What the two calls answer. *)
Variable NetworkEndpointGroups_Get :
  option Meta.Key -> result Compute.NetworkEndpointGroup.t.
Variable NetworkEndpointGroups_ListNetworkEndpoints :
  option Meta.Key -> string -> result (list NetworkEndpointWithHealthStatus).

Local Open Scope flow_scope.

(** [NetworkEndpointsInNegs(ctx, c, name, zones)]. *)
Definition NetworkEndpointsInNegs (name : string) (zones : list string)
  : M Call (gmap Meta.Key NetworkEndpoints) :=
  let ret : gmap Meta.Key NetworkEndpoints := ∅ in
  ret <- range zones (fun ret zone =>
    let key := Some (Meta.ZonalKey name zone) in
    r <- ([Get key], Val (NetworkEndpointGroups_Get key)) ;;
    neg <- try r ;;
    let networkEndpoints := mkNetworkEndpoints (Some neg) [] in
    r <- ([ListNetworkEndpoints key "SHOW"],
          Val (NetworkEndpointGroups_ListNetworkEndpoints key "SHOW")) ;;
    nes <- try r ;;
    let networkEndpoints := mkNetworkEndpoints (NEG networkEndpoints) nes in
    k <- deref key ;;
    mret (<[k := networkEndpoints]> ret)) ret ;;
  mret ret.

(** *** Vocabulary for the properties *)

(** What the cloud answers for the group of a zone: the group and its
    endpoints, or the error of the first of the two calls that fails. *)
Definition answerOf (name zone : string) : result NetworkEndpoints :=
  let key := Some (Meta.ZonalKey name zone) in
  match NetworkEndpointGroups_Get key with
  | err e => err e
  | ok neg =>
      match NetworkEndpointGroups_ListNetworkEndpoints key "SHOW" with
      | err e => err e
      | ok nes => ok (mkNetworkEndpoints (Some neg) nes)
      end
  end.

(** The calls made for a zone whose [Get] succeeds. *)
Definition callsOf (name zone : string) : list Call :=
  [Get (Some (Meta.ZonalKey name zone));
   ListNetworkEndpoints (Some (Meta.ZonalKey name zone)) "SHOW"].

End Endpoints.

Arguments mkNetworkEndpoints {_} _ _.
Arguments NEG {_} _.
Arguments Endpoints {_} _.

End FuzzEndpoints.

(** ** [pkg/backends/backends.go]: [ensureDescription] and [Delete] *)

Module BackendPool.

Import Go.

(** [be.Description = descString] *)
Definition set_Description (d : string) (be : Composite.BackendService)
  : Composite.BackendService :=
  {| Composite.Version := Composite.Version be;
     Composite.Name := Composite.Name be;
     Composite.Description := d;
     Composite.Backends := Composite.Backends be;
     Composite.HealthChecks := Composite.HealthChecks be;
     Composite.LoadBalancingScheme := Composite.LoadBalancingScheme be;
     Composite.LocalityLbPolicy := Composite.LocalityLbPolicy be;
     Composite.Port := Composite.Port be;
     Composite.PortName := Composite.PortName be;
     Composite.Protocol := Composite.Protocol be;
     Composite.Region := Composite.Region be;
     Composite.ResourceType := Composite.ResourceType be;
     Composite.Fingerprint := Composite.Fingerprint be |}.

(** The call of [Delete] to the composite cloud. *)
Inductive Call : Type :=
| DeleteBackendService (version : Meta.Version) (key : Meta.Key).

Section Pool.

(** Of other packages: the service port and its description
    ([sp.GetDescription()], [features.SetDescription(&desc, sp)], which
    writes through the pointer, and [desc.String()]);
    [utils.IsHTTPErrorCode(err, code)], whose first argument may be nil; and
    [lbfeatures.ILBVersion]. *)
Variable ServicePort : Type.
Variable Description : Type.
Variable GetDescription : ServicePort -> Description.
Variable SetDescription : Description -> ServicePort -> Description.
Variable DescriptionString : Description -> string.
Variable IsHTTPErrorCode : option error -> Z -> bool.
Variable ILBVersion : Meta.Version.

(** The composite cloud at the time of the call: its [CreateKey], and what
    [DeleteBackendService] answers ([None] is nil). *)
Variable compositeCloud : Backends.CompositeCloud.
Variable DeleteBackendService_answer : Meta.Version -> Meta.Key -> option error.

Local Open Scope go_scope.

(** [ensureDescription(be, sp)]: the result with the backend service as the
    call leaves it. *)
Definition ensureDescription (be : Composite.BackendService) (sp : ServicePort)
  : bool * Composite.BackendService :=
  let desc := GetDescription sp in
  let desc := SetDescription desc sp in
  let descString := DescriptionString desc in
  if String.eqb (Composite.Description be) descString then (false, be)
  else
    let be := set_Description descString be in
    (true, be).

(** [func (b *Backends) Delete(name string, regional bool) (err error)].
    The result is named, and the deferred function runs on every return, on
    the value that the result then has. *)
Definition Delete (name : string) (regional : bool)
  : traced Call (option error) :=
  let deferred (err : option error) : option error :=
    if IsHTTPErrorCode err StatusNotFound then None else err in
  let version := if regional then ILBVersion else Meta.VersionGA in
  let key := Backends.CreateKey compositeCloud name regional in
  emit (DeleteBackendService version key) ;;;
  let err := DeleteBackendService_answer version key in
  if match err with
     | Some _ => negb (IsHTTPErrorCode err StatusNotFound)
     | None => false
     end
  then tret (deferred err)    (* return err *)
  else tret (deferred err).   (* return *)

End Pool.

End BackendPool.

(** ** [pkg/composite/gen/main.go]: the Go type of a property of the API
       description *)

Module Generator.

(** What [json.Unmarshal] decodes into an [interface{}]: nil, a [bool], a
    [float64] (kept as its literal), a [string], a [[]interface{}] or a
    [map[string]interface{}].  A map is the list of its members, and a key
    is looked up from the front. *)
Inductive Any : Type :=
| ANil
| ABool (b : bool)
| ANumber (literal : string)
| AString (s : string)
| AArray (items : list Any)
| AObject (members : list (string * Any)).

(** [field[key]]: the nil interface when the key is missing. *)
Definition index (field : list (string * Any)) (key : string) : Any :=
  match Converter.assoc key field with
  | Some v => v
  | None => ANil
  end.

(** [v == s] for a string constant [s]: two interface values are equal when
    their dynamic types and their values are. *)
Definition eqString (v : Any) (s : string) : bool :=
  match v with
  | AString t => String.eqb t s
  | _ => false
  end.

(** [v.(string)], the assertion with one result: [None] is its panic. *)
Definition assertString (v : Any) : option string :=
  match v with
  | AString t => Some t
  | _ => None
  end.

(** [fmt.Errorf("unable to get property type for prop: %v", val)]. *)
Inductive Error : Type :=
| UnableToGetPropertyType (val : Any).

(** The four results of [getGoType]. *)
Record Results : Type := mkResults
  { propType : string;
    typesQueue : list string;
    override : bool;
    err : option Error }.

(** [getGoType(val, typesQueue)]; [None] is a panic.  The function calls
    itself on [field["items"]] and on [field["additionalProperties"]]:
    [calls] holds these calls for every member of [field], and a call on a
    missing member is the call on nil, which panics. *)
Fixpoint getGoType (val : Any) (typesQueue : list string) {struct val}
  : option Results :=
  match val with
  | AObject field =>
      let calls := map (fun kv => (fst kv, getGoType (snd kv))) field in
      let getGoTypeOf (key : string) (typesQueue : list string) :=
        match Converter.assoc key calls with
        | Some call => call typesQueue
        | None => None
        end in
      (* the last statements: the override for a string, and the return *)
      let finish (propType : string) (typesQueue : list string)
                 (override : bool) (err : option Error) :=
        let override :=
          if eqString (index field "type") "string"
             && negb (String.eqb propType "string")
          then true else override in
        Some (mkResults propType typesQueue override err) in
      match Converter.assoc "$ref" field with
      | Some ref =>
          (* Field is not a built-in type, we need to wrap it *)
          refName ← assertString ref;
          finish ("*" ++ refName)%string (typesQueue ++ [refName]) false None
      | None =>
          if eqString (index field "type") "array" then
            r ← getGoTypeOf "items" typesQueue;
            finish ("[]" ++ propType r)%string (Generator.typesQueue r) (override r)
              (err r)
          else if eqString (index field "type") "object" then
            match Converter.assoc "additionalProperties" field with
            | Some _ =>
                r ← getGoTypeOf "additionalProperties" typesQueue;
                finish ("map[string]" ++ propType r)%string (Generator.typesQueue r)
                  (override r) (err r)
            | None => finish "map[string]string" typesQueue false None
            end
          else
            match Converter.assoc "format" field with
            | Some format =>
                f ← assertString format;
                finish
                  (if String.eqb f "byte" then "string"
                   else if String.eqb f "float" then "float64"
                   else if String.eqb f "int32" then "int64"
                   else f)
                  typesQueue false None
            | None =>
                if negb (eqString (index field "type") "") then
                  t ← assertString (index field "type");
                  finish (if String.eqb t "boolean" then "bool" else t)
                    typesQueue false None
                else
                  finish "" typesQueue false
                    (Some (UnableToGetPropertyType val))
            end
      end
  | _ => None
  end.

(** *** Vocabulary for the properties *)

(** The type that a property refers to, through arrays and maps: the name
    under [$ref] of the property itself, of its items or of its additional
    properties. *)
Fixpoint referenced (val : Any) : list string :=
  match val with
  | AObject field =>
      let below := map (fun kv => (fst kv, referenced (snd kv))) field in
      let referencedOf (key : string) :=
        match Converter.assoc key below with
        | Some names => names
        | None => []
        end in
      match Converter.assoc "$ref" field with
      | Some (AString refName) => [refName]
      | Some _ => []
      | None =>
          if eqString (index field "type") "array" then referencedOf "items"
          else if eqString (index field "type") "object" then
            referencedOf "additionalProperties"
          else []
      end
  | _ => []
  end.

(** The properties of an API description: a reference to a type, an array
    of properties, a map of properties or of strings, a value with a format,
    or a value of a named type. *)
Inductive Property : Any -> Prop :=
| PropertyRef (field : list (string * Any)) (refName : string) :
    Converter.assoc "$ref" field = Some (AString refName) ->
    Property (AObject field)
| PropertyArray (field : list (string * Any)) (items : Any) :
    Converter.assoc "$ref" field = None ->
    index field "type" = AString "array" ->
    Converter.assoc "items" field = Some items ->
    Property items ->
    Property (AObject field)
| PropertyMap (field : list (string * Any)) (additionalProperties : Any) :
    Converter.assoc "$ref" field = None ->
    index field "type" = AString "object" ->
    Converter.assoc "additionalProperties" field = Some additionalProperties ->
    Property additionalProperties ->
    Property (AObject field)
| PropertyObject (field : list (string * Any)) :
    Converter.assoc "$ref" field = None ->
    index field "type" = AString "object" ->
    Converter.assoc "additionalProperties" field = None ->
    Property (AObject field)
| PropertyFormat (field : list (string * Any)) (format : string) :
    Converter.assoc "$ref" field = None ->
    index field "type" <> AString "array" ->
    index field "type" <> AString "object" ->
    Converter.assoc "format" field = Some (AString format) ->
    Property (AObject field)
| PropertyType (field : list (string * Any)) (type : string) :
    Converter.assoc "$ref" field = None ->
    Converter.assoc "format" field = None ->
    index field "type" = AString type ->
    type <> "array" -> type <> "object" -> type <> "" ->
    Property (AObject field).

End Generator.

(** ** [pkg/composite/composite_test.go]: the comparison of struct types *)

Module CompositeTest.

(** [reflect.StructField], as far as the comparison reads it: the name, the
    tag, and the [Name()] of its [Type].  [Type] is an interface: [None] is
    the nil type of the zero [StructField], on which [Name()] panics. *)
Record StructField : Type := mkStructField
  { Name : string;
    Tag : string;
    Type_Name : option string }.

#[global] Instance StructField_eq_dec : EqDecision StructField.
Proof. solve_decision. Defined.

(** A [reflect.Type] of kind struct: its fields, [t.Field(0)] to
    [t.Field(t.NumField()-1)]. *)
Definition StructType : Type := list StructField.

(** [t.FieldByName(n)] for the name of a field of the struct itself: the
    field and true, or the zero [StructField] and false. *)
Fixpoint FieldByName (n : string) (t : StructType) : StructField * bool :=
  match t with
  | [] => (mkStructField "" "" None, false)
  | f :: rest => if String.eqb (Name f) n then (f, true) else FieldByName n rest
  end.

(** The errors of the two functions, with the arguments of their messages. *)
Inductive Error : Type :=
| NameError (name name' want : string)
    (* "field %s name = %q, want %q" *)
| TagError (name tag want : string)
    (* "field %s tag = %q, want %q" *)
| TypeError (name type want : string)
    (* "field %s type = %q, want %q" *)
| FieldsError (t1Fields t2Fields : gmap string bool).
    (* "type = %+v, want %+v" *)

(** How a call ends: with nil, with an error, or with a panic. *)
Inductive Outcome : Type :=
| Nil
| Err (e : Error)
| Panics.

(** [compareFields(s1, s2)] *)
Definition compareFields (s1 s2 : StructField) : Outcome :=
  if negb (String.eqb (Name s1) (Name s2)) then
    Err (NameError (Name s1) (Name s1) (Name s2))
  else if negb (String.eqb (Tag s1) (Tag s2)) then
    Err (TagError (Name s1) (Tag s1) (Tag s2))
  else
    match Type_Name s1, Type_Name s2 with
    | Some n1, Some n2 =>
        if negb (String.eqb n1 n2) then Err (TypeError (Name s1) n1 n2)
        else Nil
    | _, _ => Panics
    end.

(** The loops that fill [t1Fields] and [t2Fields]. *)
Fixpoint fieldNames (t : StructType) (tFields : gmap string bool)
  : gmap string bool :=
  match t with
  | [] => tFields
  | f :: rest => fieldNames rest (<[Name f := true]> tFields)
  end.

Section TypeEquality.

(** The order in which [range] visits the keys of a map, which Go leaves
    unspecified. *)
Variable rangeKeys : gmap string bool -> list string.

(** The loop [for n := range t1Fields]. *)
Fixpoint compareAll (t1 t2 : StructType) (names : list string) : Outcome :=
  match names with
  | [] => Nil
  | n :: rest =>
      let '(f1, _) := FieldByName n t1 in
      let '(f2, _) := FieldByName n t2 in
      match compareFields f1 f2 with
      | Nil => compareAll t1 t2 rest
      | Err e => Err e
      | Panics => Panics
      end
  end.

(** [typeEquality(t1, t2)].  [reflect.DeepEqual] of two maps from strings to
    booleans is the equality of the maps. *)
Definition typeEquality (t1 t2 : StructType) : Outcome :=
  let t1Fields := fieldNames t1 ∅ in
  let t2Fields := fieldNames t2 ∅ in
  if negb (bool_decide (t1Fields = t2Fields)) then
    Err (FieldsError t1Fields t2Fields)
  else compareAll t1 t2 (rangeKeys t1Fields).

End TypeEquality.

End CompositeTest.

(** ** [pkg/loadbalancers/fakes.go]: the fake of the load balancer cloud *)

Module Fakes.

Import Go.

(** A pointer that is not nil.  The fake holds pointers to the objects that
    its callers pass, and writes through them: the objects live in a store,
    one per type, that maps a pointer to what it points to. *)
Definition ptr : Type := nat.

(** [*p = v] *)
Definition assign {T : Type} (store : ptr -> T) (p : ptr) (v : T) : ptr -> T :=
  fun q => if Nat.eqb q p then v else store q.

(** The fields of the [compute] objects that the fake reads or writes. *)
Module ForwardingRule.
Record t : Type := mk
  { Name : string; IPAddress : string; SelfLink : string; Target : string }.
End ForwardingRule.

Module UrlMap.
Record t : Type := mk { Name : string; SelfLink : string }.
End UrlMap.

Module TargetHttpsProxy.
Record t : Type := mk
  { Name : string; SelfLink : string; UrlMap : string;
    SslCertificates : list string }.
End TargetHttpsProxy.

Module SslCertificate.
Record t : Type := mk { Name : string; SelfLink : string }.
End SslCertificate.

(** [const FakeCertQuota = 15] *)
Definition FakeCertQuota : nat := 15.

(** The state that the methods modelled here read and write: the objects,
    the counter [testIPManager.start], and of [FakeLoadBalancers] the slices
    [Fw], [Um], [Tps] and [Certs] and the list [calls]. *)
Record State : Type := mkState
  { forwardingRule : ptr -> ForwardingRule.t;
    urlMap : ptr -> UrlMap.t;
    targetHttpsProxy : ptr -> TargetHttpsProxy.t;
    sslCertificate : ptr -> SslCertificate.t;
    testIPManager_start : Z;
    Fw : list ptr;
    Um : list ptr;
    Tps : list ptr;
    Certs : list ptr;
    calls : list string }.

Definition set_forwardingRule (v : ptr -> ForwardingRule.t) (s : State) : State :=
  mkState v (urlMap s) (targetHttpsProxy s) (sslCertificate s)
    (testIPManager_start s) (Fw s) (Um s) (Tps s) (Certs s) (calls s).
Definition set_urlMap (v : ptr -> UrlMap.t) (s : State) : State :=
  mkState (forwardingRule s) v (targetHttpsProxy s) (sslCertificate s)
    (testIPManager_start s) (Fw s) (Um s) (Tps s) (Certs s) (calls s).
Definition set_targetHttpsProxy (v : ptr -> TargetHttpsProxy.t) (s : State)
  : State :=
  mkState (forwardingRule s) (urlMap s) v (sslCertificate s)
    (testIPManager_start s) (Fw s) (Um s) (Tps s) (Certs s) (calls s).
Definition set_sslCertificate (v : ptr -> SslCertificate.t) (s : State) : State :=
  mkState (forwardingRule s) (urlMap s) (targetHttpsProxy s) v
    (testIPManager_start s) (Fw s) (Um s) (Tps s) (Certs s) (calls s).
Definition set_testIPManager_start (v : Z) (s : State) : State :=
  mkState (forwardingRule s) (urlMap s) (targetHttpsProxy s) (sslCertificate s)
    v (Fw s) (Um s) (Tps s) (Certs s) (calls s).
Definition set_Fw (v : list ptr) (s : State) : State :=
  mkState (forwardingRule s) (urlMap s) (targetHttpsProxy s) (sslCertificate s)
    (testIPManager_start s) v (Um s) (Tps s) (Certs s) (calls s).
Definition set_Um (v : list ptr) (s : State) : State :=
  mkState (forwardingRule s) (urlMap s) (targetHttpsProxy s) (sslCertificate s)
    (testIPManager_start s) (Fw s) v (Tps s) (Certs s) (calls s).
Definition set_Tps (v : list ptr) (s : State) : State :=
  mkState (forwardingRule s) (urlMap s) (targetHttpsProxy s) (sslCertificate s)
    (testIPManager_start s) (Fw s) (Um s) v (Certs s) (calls s).
Definition set_Certs (v : list ptr) (s : State) : State :=
  mkState (forwardingRule s) (urlMap s) (targetHttpsProxy s) (sslCertificate s)
    (testIPManager_start s) (Fw s) (Um s) (Tps s) v (calls s).
Definition set_calls (v : list string) (s : State) : State :=
  mkState (forwardingRule s) (urlMap s) (targetHttpsProxy s) (sslCertificate s)
    (testIPManager_start s) (Fw s) (Um s) (Tps s) (Certs s) v.

(** [f.calls = append(f.calls, call)] *)
Definition record (call : string) (s : State) : State :=
  set_calls (calls s ++ [call]) s.

(** [t.start++] on an [int], which is 64 bits wide on the platforms the
    tests run on, and [fmt.Sprintf("0.0.0.%v", t.start)]. *)
Definition incr (n : Z) : Z :=
  ((n + 1 + 2 ^ 63) mod 2 ^ 64 - 2 ^ 63)%Z.

Definition ip (s : State) : string * State :=
  let s := set_testIPManager_start (incr (testIPManager_start s)) s in
  (("0.0.0." ++ NilZero.string_of_int (Z.to_int (testIPManager_start s)))%string,
   s).

(** The first element of a slice that passes a test:
    [for i := range l { if test(l[i]) { return l[i] } }]. *)
Fixpoint first (test : ptr -> bool) (l : list ptr) : option ptr :=
  match l with
  | [] => None
  | p :: rest => if test p then Some p else first test rest
  end.

(** The elements of a slice that pass a test, in order:
    [for i := range l { if test(l[i]) { out = append(out, l[i]) } }]. *)
Fixpoint keep (test : ptr -> bool) (l : list ptr) : list ptr :=
  match l with
  | [] => []
  | p :: rest => if test p then p :: keep test rest else keep test rest
  end.

Section Fake.

(** Of other packages: the two errors of [pkg/utils],
    [utils.FakeGoogleAPINotFoundErr()] and [utils.FakeGoogleAPIForbiddenErr()];
    the self link of the resource of a kind with a name,
    [cloud.New<Kind>ResourceID("mock-project", name).SelfLink(meta.VersionGA)];
    and the constant [TargetProxyCertLimit] of this package. *)
Variable FakeGoogleAPINotFoundErr : error.
Variable FakeGoogleAPIForbiddenErr : error.
Variable GlobalForwardingRulesSelfLink : string -> string.
Variable UrlMapsSelfLink : string -> string.
Variable TargetHttpProxiesSelfLink : string -> string.
Variable SslCertificatesSelfLink : string -> string.
Variable TargetProxyCertLimit : nat.

(** *** Forwarding rules *)

(** [GetGlobalForwardingRule(name)] *)
Definition GetGlobalForwardingRule (name : string) (s : State)
  : result ptr * State :=
  let s := record "GetGlobalForwardingRule" s in
  match first (fun p =>
                 String.eqb (ForwardingRule.Name (forwardingRule s p)) name)
          (Fw s) with
  | Some p => (ok p, s)
  | None => (err FakeGoogleAPINotFoundErr, s)
  end.

(** [ListGlobalForwardingRules()], which records no call. *)
Definition ListGlobalForwardingRules (s : State) : result (list ptr) * State :=
  (ok (Fw s), s).

(** [CreateGlobalForwardingRule(rule)]; the result [None] is nil. *)
Definition CreateGlobalForwardingRule (rule : ptr) (s : State)
  : option error * State :=
  let s := record "CreateGlobalForwardingRule" s in
  let s :=
    if String.eqb (ForwardingRule.IPAddress (forwardingRule s rule)) "" then
      let '(address, s) := ip s in
      let r := forwardingRule s rule in
      set_forwardingRule
        (assign (forwardingRule s) rule
           (ForwardingRule.mk (ForwardingRule.Name r) address
              (ForwardingRule.SelfLink r) (ForwardingRule.Target r))) s
    else s in
  let r := forwardingRule s rule in
  let s :=
    set_forwardingRule
      (assign (forwardingRule s) rule
         (ForwardingRule.mk (ForwardingRule.Name r) (ForwardingRule.IPAddress r)
            (GlobalForwardingRulesSelfLink (ForwardingRule.Name r))
            (ForwardingRule.Target r))) s in
  let s := set_Fw (Fw s ++ [rule]) s in
  (None, s).

(** The loop of [SetProxyForGlobalForwardingRule]. *)
Fixpoint setProxy (forwardingRuleName proxyLink : string) (l : list ptr)
    (store : ptr -> ForwardingRule.t) : ptr -> ForwardingRule.t :=
  match l with
  | [] => store
  | p :: rest =>
      let r := store p in
      let store :=
        if String.eqb (ForwardingRule.Name r) forwardingRuleName then
          assign store p
            (ForwardingRule.mk (ForwardingRule.Name r)
               (ForwardingRule.IPAddress r) (ForwardingRule.SelfLink r)
               proxyLink)
        else store in
      setProxy forwardingRuleName proxyLink rest store
  end.

(** [SetProxyForGlobalForwardingRule(forwardingRuleName, proxyLink)] *)
Definition SetProxyForGlobalForwardingRule
    (forwardingRuleName proxyLink : string) (s : State)
  : option error * State :=
  let s := record "SetProxyForGlobalForwardingRule" s in
  let s :=
    set_forwardingRule
      (setProxy forwardingRuleName proxyLink (Fw s) (forwardingRule s)) s in
  (None, s).

(** [DeleteGlobalForwardingRule(name)] *)
Definition DeleteGlobalForwardingRule (name : string) (s : State)
  : option error * State :=
  let s := record "DeleteGlobalForwardingRule" s in
  let fw :=
    keep (fun p =>
            negb (String.eqb (ForwardingRule.Name (forwardingRule s p)) name))
      (Fw s) in
  if (length (Fw s) =? length fw)%nat then
    (* Nothing was deleted. *)
    (Some FakeGoogleAPINotFoundErr, s)
  else
    let s := set_Fw fw s in
    (None, s).

(** [GetForwardingRulesWithIPs(ip)]; [sets.NewString(ip...)] has an address
    when the slice has it. *)
Definition GetForwardingRulesWithIPs (ip : list string) (s : State)
  : list ptr * State :=
  let s := record "GetForwardingRulesWithIPs" s in
  (keep (fun p =>
           existsb (String.eqb (ForwardingRule.IPAddress (forwardingRule s p)))
             ip)
     (Fw s), s).

(** *** URL maps *)

(** [GetURLMap(name)] *)
Definition GetURLMap (name : string) (s : State) : result ptr * State :=
  let s := record "GetURLMap" s in
  match first (fun p => String.eqb (UrlMap.Name (urlMap s p)) name) (Um s) with
  | Some p => (ok p, s)
  | None => (err FakeGoogleAPINotFoundErr, s)
  end.

(** [CreateURLMap(urlMap)] *)
Definition CreateURLMap (um : ptr) (s : State) : option error * State :=
  let s := record "CreateURLMap" s in
  let u := urlMap s um in
  let s :=
    set_urlMap
      (assign (urlMap s) um
         (UrlMap.mk (UrlMap.Name u) (UrlMapsSelfLink (UrlMap.Name u)))) s in
  let s := set_Um (Um s ++ [um]) s in
  (None, s).

(** The loop of [UpdateURLMap]: the slice with [um] in the place of its first
    element of that name, or [None] when it has none. *)
Fixpoint replaceFirst (test : ptr -> bool) (um : ptr) (l : list ptr)
  : option (list ptr) :=
  match l with
  | [] => None
  | p :: rest =>
      if test p then Some (um :: rest)
      else match replaceFirst test um rest with
           | Some rest' => Some (p :: rest')
           | None => None
           end
  end.

(** [UpdateURLMap(urlMap)] *)
Definition UpdateURLMap (um : ptr) (s : State) : option error * State :=
  let s := record "UpdateURLMap" s in
  match replaceFirst
          (fun p => String.eqb (UrlMap.Name (urlMap s p))
                      (UrlMap.Name (urlMap s um)))
          um (Um s) with
  | Some l => (None, set_Um l s)
  | None => (Some FakeGoogleAPINotFoundErr, s)
  end.

(** [DeleteURLMap(name)] *)
Definition DeleteURLMap (name : string) (s : State) : option error * State :=
  let s := record "DeleteURLMap" s in
  let um :=
    keep (fun p => negb (String.eqb (UrlMap.Name (urlMap s p)) name)) (Um s) in
  if (length (Um s) =? length um)%nat then
    (* Nothing was deleted. *)
    (Some FakeGoogleAPINotFoundErr, s)
  else
    let s := set_Um um s in
    (None, s).

(** [ListURLMaps()] *)
Definition ListURLMaps (s : State) : result (list ptr) * State :=
  let s := record "ListURLMaps" s in
  (ok (Um s), s).

(** *** Target HTTPS proxies *)

(** [GetTargetHTTPSProxy(name)] *)
Definition GetTargetHTTPSProxy (name : string) (s : State)
  : result ptr * State :=
  let s := record "GetTargetHTTPSProxy" s in
  match first (fun p =>
                 String.eqb (TargetHttpsProxy.Name (targetHttpsProxy s p)) name)
          (Tps s) with
  | Some p => (ok p, s)
  | None => (err FakeGoogleAPINotFoundErr, s)
  end.

(** [CreateTargetHTTPSProxy(proxy)]: the self link is the one of a target
    HTTP proxy, as the source has it. *)
Definition CreateTargetHTTPSProxy (proxy : ptr) (s : State)
  : option error * State :=
  let s := record "CreateTargetHTTPSProxy" s in
  let x := targetHttpsProxy s proxy in
  let s :=
    set_targetHttpsProxy
      (assign (targetHttpsProxy s) proxy
         (TargetHttpsProxy.mk (TargetHttpsProxy.Name x)
            (TargetHttpProxiesSelfLink (TargetHttpsProxy.Name x))
            (TargetHttpsProxy.UrlMap x) (TargetHttpsProxy.SslCertificates x)))
      s in
  let s := set_Tps (Tps s ++ [proxy]) s in
  (None, s).

(** [DeleteTargetHTTPSProxy(name)] *)
Definition DeleteTargetHTTPSProxy (name : string) (s : State)
  : option error * State :=
  let s := record "DeleteTargetHTTPSProxy" s in
  let tp :=
    keep (fun p =>
            negb (String.eqb (TargetHttpsProxy.Name (targetHttpsProxy s p)) name))
      (Tps s) in
  if (length (Tps s) =? length tp)%nat then
    (* Nothing was deleted. *)
    (Some FakeGoogleAPINotFoundErr, s)
  else
    let s := set_Tps tp s in
    (None, s).

(** [SetSslCertificateForTargetHTTPSProxy(proxy, sslCertURLs)]: the loop
    ends at the first proxy of the name, with the error or with the
    assignment. *)
Definition SetSslCertificateForTargetHTTPSProxy (proxy : ptr)
    (sslCertURLs : list string) (s : State) : option error * State :=
  let s := record "SetSslCertificateForTargetHTTPSProxy" s in
  match first (fun p =>
                 String.eqb (TargetHttpsProxy.Name (targetHttpsProxy s p))
                   (TargetHttpsProxy.Name (targetHttpsProxy s proxy)))
          (Tps s) with
  | Some p =>
      if (TargetProxyCertLimit <? length sslCertURLs)%nat then
        (Some FakeGoogleAPIForbiddenErr, s)
      else
        let x := targetHttpsProxy s p in
        let s :=
          set_targetHttpsProxy
            (assign (targetHttpsProxy s) p
               (TargetHttpsProxy.mk (TargetHttpsProxy.Name x)
                  (TargetHttpsProxy.SelfLink x) (TargetHttpsProxy.UrlMap x)
                  sslCertURLs)) s in
        (None, s)
  | None => (Some FakeGoogleAPINotFoundErr, s)
  end.

(** *** SSL certificates *)

(** [GetSslCertificate(name)] *)
Definition GetSslCertificate (name : string) (s : State) : result ptr * State :=
  let s := record "GetSslCertificate" s in
  match first (fun p =>
                 String.eqb (SslCertificate.Name (sslCertificate s p)) name)
          (Certs s) with
  | Some p => (ok p, s)
  | None => (err FakeGoogleAPINotFoundErr, s)
  end.

(** [ListSslCertificates()] *)
Definition ListSslCertificates (s : State) : result (list ptr) * State :=
  let s := record "ListSslCertificates" s in
  (ok (Certs s), s).

(** [CreateSslCertificate(cert)]: the self link is written before the quota
    is looked at.  The argument of the error is [FakeCertQuota], as [%d]
    prints it. *)
Definition CreateSslCertificate (cert : ptr) (s : State) : result ptr * State :=
  let s := record "CreateSslCertificate" s in
  let x := sslCertificate s cert in
  let s :=
    set_sslCertificate
      (assign (sslCertificate s) cert
         (SslCertificate.mk (SslCertificate.Name x)
            (SslCertificatesSelfLink (SslCertificate.Name x)))) s in
  if (length (Certs s) =? FakeCertQuota)%nat then
    (* Simulate cert creation failure *)
    (err (Errorf "unable to create cert, Exceeded cert limit of %d."
            [ArgString
               (NilZero.string_of_int (Z.to_int (Z.of_nat FakeCertQuota)))]),
     s)
  else
    let s := set_Certs (Certs s ++ [cert]) s in
    (ok cert, s).

(** [DeleteSslCertificate(name)] *)
Definition DeleteSslCertificate (name : string) (s : State)
  : option error * State :=
  let s := record "DeleteSslCertificate" s in
  let certs :=
    keep (fun p =>
            negb (String.eqb (SslCertificate.Name (sslCertificate s p)) name))
      (Certs s) in
  if (length (Certs s) =? length certs)%nat then
    (* Nothing was deleted. *)
    (Some FakeGoogleAPINotFoundErr, s)
  else
    let s := set_Certs certs s in
    (None, s).

End Fake.

(** [NewFakeLoadBalancers(name, namer)], over the objects [s] has. *)
Definition NewFakeLoadBalancers (s : State) : State :=
  mkState (forwardingRule s) (urlMap s) (targetHttpsProxy s) (sslCertificate s)
    (testIPManager_start s) [] [] [] [] [].

End Fakes.

(** ** More sample inputs *)

Module Examples.

Import Samples.

(** A cloud in which one network endpoint group of [gclb_full] still exists,
    one in which its Get fails with code 500, and one in which the Get of a
    URL map fails with an error that is not a [*googleapi.Error]. *)
Definition cloud_neg_left : Cloud.Cloud :=
  {| Cloud.GlobalForwardingRules_List := Go.ok [];
     Cloud.GlobalForwardingRules_Get := fun _ => notFound;
     Cloud.ForwardingRules_Get := fun _ => notFound;
     Cloud.AlphaForwardingRules_Get := fun _ => notFound;
     Cloud.TargetHttpProxies_Get := fun _ => notFound;
     Cloud.TargetHttpsProxies_Get := fun _ => notFound;
     Cloud.UrlMaps_Get := fun _ => notFound;
     Cloud.BackendServices_Get := fun _ => notFound;
     Cloud.AlphaBackendServices_Get := fun _ => notFound;
     Cloud.BetaBackendServices_Get := fun _ => notFound;
     Cloud.NetworkEndpointGroups_Get := fun _ => notFound;
     Cloud.AlphaNetworkEndpointGroups_Get := fun _ => notFound;
     Cloud.BetaNetworkEndpointGroups_Get := fun _ => Go.ok neg_1;
     Cloud.InstanceGroups_Get := fun _ => notFound |}.

Definition cloud_neg_failing : Cloud.Cloud :=
  {| Cloud.GlobalForwardingRules_List := Go.ok [];
     Cloud.GlobalForwardingRules_Get := fun _ => notFound;
     Cloud.ForwardingRules_Get := fun _ => notFound;
     Cloud.AlphaForwardingRules_Get := fun _ => notFound;
     Cloud.TargetHttpProxies_Get := fun _ => notFound;
     Cloud.TargetHttpsProxies_Get := fun _ => notFound;
     Cloud.UrlMaps_Get := fun _ => notFound;
     Cloud.BackendServices_Get := fun _ => notFound;
     Cloud.AlphaBackendServices_Get := fun _ => notFound;
     Cloud.BetaBackendServices_Get := fun _ => notFound;
     Cloud.NetworkEndpointGroups_Get := fun _ => notFound;
     Cloud.AlphaNetworkEndpointGroups_Get := fun _ => notFound;
     Cloud.BetaNetworkEndpointGroups_Get := fun _ => serverError;
     Cloud.InstanceGroups_Get := fun _ => notFound |}.

Definition cloud_timeout : Cloud.Cloud :=
  {| Cloud.GlobalForwardingRules_List := Go.ok [];
     Cloud.GlobalForwardingRules_Get := fun _ => notFound;
     Cloud.ForwardingRules_Get := fun _ => notFound;
     Cloud.AlphaForwardingRules_Get := fun _ => notFound;
     Cloud.TargetHttpProxies_Get := fun _ => notFound;
     Cloud.TargetHttpsProxies_Get := fun _ => notFound;
     Cloud.UrlMaps_Get := fun _ =>
       Go.err (Go.ErrorString "context deadline exceeded");
     Cloud.BackendServices_Get := fun _ => notFound;
     Cloud.AlphaBackendServices_Get := fun _ => notFound;
     Cloud.BetaBackendServices_Get := fun _ => notFound;
     Cloud.NetworkEndpointGroups_Get := fun _ => notFound;
     Cloud.AlphaNetworkEndpointGroups_Get := fun _ => notFound;
     Cloud.BetaNetworkEndpointGroups_Get := fun _ => notFound;
     Cloud.InstanceGroups_Get := fun _ => notFound |}.

(** A cloud with one load balancer on the VIP 203.0.113.7: a forwarding
    rule, its HTTP proxy, the URL map [um-1] with a path matcher, two backend
    services, the second of which has a network endpoint group for backend;
    and the graph of that load balancer. *)
Definition um_paths : Compute.UrlMap.t :=
  {| Compute.UrlMap.Name := "um-1";
     Compute.UrlMap.DefaultService := "global/backendServices/be-default";
     Compute.UrlMap.PathMatchers :=
       [ {| Compute.PathMatcher.DefaultService :=
              "global/backendServices/be-default";
            Compute.PathMatcher.PathRules :=
              [ {| Compute.PathRule.Service :=
                     "global/backendServices/be-app" |} ] |} ] |}.

Definition bs_app_neg : Compute.BackendService.t :=
  {| Compute.BackendService.Name := "be-app";
     Compute.BackendService.Description := "default/app";
     Compute.BackendService.Backends :=
       [ {| Compute.Backend.Group := "global/networkEndpointGroups/neg-1" |} ] |}.

Definition backendServiceOf (key : option Meta.Key)
  : Go.result Compute.BackendService.t :=
  if bool_decide (key = Some (Meta.GlobalKey "be-default")) then Go.ok bs_default
  else if bool_decide (key = Some (Meta.GlobalKey "be-app")) then Go.ok bs_app_neg
  else notFound.

Definition cloud_one_lb : Cloud.Cloud :=
  {| Cloud.GlobalForwardingRules_List := Go.ok [fr_other; fr_http];
     Cloud.GlobalForwardingRules_Get := fun _ => notFound;
     Cloud.ForwardingRules_Get := fun _ => notFound;
     Cloud.AlphaForwardingRules_Get := fun _ => notFound;
     Cloud.TargetHttpProxies_Get := fun key =>
       if bool_decide (key = Some (Meta.GlobalKey "tp-http")) then Go.ok tp_http
       else notFound;
     Cloud.TargetHttpsProxies_Get := fun _ => notFound;
     Cloud.UrlMaps_Get := fun key =>
       if bool_decide (key = Some (Meta.GlobalKey "um-1")) then Go.ok um_paths
       else notFound;
     Cloud.BackendServices_Get := backendServiceOf;
     Cloud.AlphaBackendServices_Get := backendServiceOf;
     Cloud.BetaBackendServices_Get := backendServiceOf;
     Cloud.NetworkEndpointGroups_Get := fun key =>
       if bool_decide (key = Some (Meta.GlobalKey "neg-1")) then Go.ok neg_1
       else notFound;
     Cloud.AlphaNetworkEndpointGroups_Get := fun _ => notFound;
     Cloud.BetaNetworkEndpointGroups_Get := fun _ => notFound;
     Cloud.InstanceGroups_Get := fun _ => notFound |}.

Definition gclb_one_lb : Fuzz.GCLB :=
  Fuzz.mkGCLB "203.0.113.7"
    {[ Meta.GlobalKey "fr-http" := only fr_http ]}
    {[ Meta.GlobalKey "tp-http" := only tp_http ]}
    ∅
    {[ Meta.GlobalKey "um-1" := only um_paths ]}
    (<[ Meta.GlobalKey "be-app" := only bs_app_neg ]>
       {[ Meta.GlobalKey "be-default" := only bs_default ]})
    {[ Meta.GlobalKey "neg-1" := only neg_1 ]}
    ∅.

(** A cluster with the L7-ILB flag set and one external ingress; and one
    with an internal ingress, in a region whose only subnet is of another
    purpose. *)
Definition fwc_ilb_flag : Firewalls.FirewallController :=
  {| Firewalls.hasSynced := true;
     Firewalls.Ingresses_List := [ing_a];
     Firewalls.GetReadyNodeNames := Go.ok ["node-1"];
     Firewalls.EnableL7Ilb := true;
     Firewalls.Region := "us-central1";
     Firewalls.AlphaSubnetworks_List := fun _ => Go.ok [];
     Firewalls.firewallPool_Sync := fun _ _ _ => None |}.

Definition ing_ilb : Firewalls.Ingress :=
  ing "i" [("kubernetes.io/ingress.class", "gce-internal")].

Definition subnet_private : LBFeatures.Subnetwork :=
  {| LBFeatures.Role := "";
     LBFeatures.Purpose := "PRIVATE";
     LBFeatures.IpCidrRange := "10.128.0.0/20" |}.

Definition subnet_backup : LBFeatures.Subnetwork :=
  {| LBFeatures.Role := "BACKUP";
     LBFeatures.Purpose := "INTERNAL_HTTPS_LOAD_BALANCER";
     LBFeatures.IpCidrRange := "10.129.0.0/26" |}.

Definition subnet_ilb : LBFeatures.Subnetwork :=
  {| LBFeatures.Role := "ACTIVE";
     LBFeatures.Purpose := "INTERNAL_HTTPS_LOAD_BALANCER";
     LBFeatures.IpCidrRange := "10.130.0.0/26" |}.

Definition fwc_ilb_no_subnet : Firewalls.FirewallController :=
  {| Firewalls.hasSynced := true;
     Firewalls.Ingresses_List := [ing_a; ing_ilb];
     Firewalls.GetReadyNodeNames := Go.ok ["node-1"];
     Firewalls.EnableL7Ilb := true;
     Firewalls.Region := "us-central1";
     Firewalls.AlphaSubnetworks_List := fun _ =>
       Go.ok [subnet_private; subnet_backup];
     Firewalls.firewallPool_Sync := fun _ _ _ => None |}.

(** Network endpoint groups named [neg-1] in two zones of three, each with
    one endpoint. *)
Definition negOf (key : option Meta.Key)
  : Go.result Compute.NetworkEndpointGroup.t :=
  if bool_decide (key = Some (Meta.ZonalKey "neg-1" "us-central1-a"))
     || bool_decide (key = Some (Meta.ZonalKey "neg-1" "us-central1-b"))
  then Go.ok neg_1 else notFound.

Definition endpointsOf (key : option Meta.Key) (healthStatus : string)
  : Go.result (list string) :=
  if bool_decide (key = Some (Meta.ZonalKey "neg-1" "us-central1-a"))
  then Go.ok ["10.0.0.1:8080"]
  else Go.ok ["10.0.1.1:8080"].

(** Two properties of the API description of a backend service: its
    backends, an array of references, and its id, a string with a format. *)
Definition prop_backends : Generator.Any :=
  Generator.AObject
    [("type", Generator.AString "array");
     ("items", Generator.AObject [("$ref", Generator.AString "Backend")])].

Definition prop_id : Generator.Any :=
  Generator.AObject
    [("type", Generator.AString "string");
     ("format", Generator.AString "uint64")].

(** The fields of a composite type and of the alpha type it wraps, in two
    orders; and the order of [range] that follows the map's own
    enumeration. *)
Definition type_composite : CompositeTest.StructType :=
  [CompositeTest.mkStructField "Name" "json:name,omitempty" (Some "string");
   CompositeTest.mkStructField "Port" "json:port,omitempty" (Some "int64");
   CompositeTest.mkStructField "ForceSendFields" "json:-" (Some "")].

Definition type_alpha : CompositeTest.StructType :=
  [CompositeTest.mkStructField "Port" "json:port,omitempty" (Some "int64");
   CompositeTest.mkStructField "ForceSendFields" "json:-" (Some "");
   CompositeTest.mkStructField "Name" "json:name,omitempty" (Some "string")].

Definition stringOrder (m : gmap string bool) : list string :=
  (map_to_list m).*1.

End Examples.

(* ===================================================================== *)
(** * Part II: properties                                                  *)
(* ===================================================================== *)

(** ** [EnsureLocalityLbPolicy] *)

Section EnsureLocalityLbPolicyProperties.

Import BackendConfigApi.

(** Reading the configured policy of a service port that has a backend
    config. *)
Lemma read_TrafficManagement_Some (sp : Utils.ServicePort) (bc : BackendConfig) :
  Utils.BackendConfig sp = Some bc ->
  Features.read_TrafficManagement sp = Some (TrafficManagement (Spec bc)).
Proof. intros H. unfold Features.read_TrafficManagement. rewrite H. reflexivity. Qed.

Lemma read_LocalityLbPolicy_Some (sp : Utils.ServicePort) (bc : BackendConfig)
    (tm : TrafficManagementConfig) :
  Utils.BackendConfig sp = Some bc ->
  TrafficManagement (Spec bc) = Some tm ->
  Features.read_LocalityLbPolicy sp = Some (LocalityLbPolicy tm).
Proof.
  intros Hbc Htm. unfold Features.read_LocalityLbPolicy.
  rewrite (read_TrafficManagement_Some _ _ Hbc), Htm. reflexivity.
Qed.

(** C9.  For a service port [sp] that has a backend config and a backend
    service [be]: [EnsureLocalityLbPolicy(sp, be)] returns [false] and leaves
    [be] as it is when no locality policy is configured (the traffic
    management block is nil, or its policy is the empty string) or when
    [be.LocalityLbPolicy] already equals the configured policy; otherwise it
    returns [true] and [be] differs from before exactly in
    [LocalityLbPolicy], which now holds the configured policy. *)
Theorem EnsureLocalityLbPolicy_spec
    (sp : Utils.ServicePort) (bc : BackendConfig) (be : Composite.BackendService) :
  Utils.BackendConfig sp = Some bc ->
  (TrafficManagement (Spec bc) = None ->
     Features.EnsureLocalityLbPolicy sp be = Some (false, be)) /\
  (forall tm, TrafficManagement (Spec bc) = Some tm ->
     (LocalityLbPolicy tm = "" ->
        Features.EnsureLocalityLbPolicy sp be = Some (false, be)) /\
     (Composite.LocalityLbPolicy be = LocalityLbPolicy tm ->
        Features.EnsureLocalityLbPolicy sp be = Some (false, be)) /\
     (LocalityLbPolicy tm <> "" ->
      Composite.LocalityLbPolicy be <> LocalityLbPolicy tm ->
        Features.EnsureLocalityLbPolicy sp be =
          Some (true, Composite.set_LocalityLbPolicy (LocalityLbPolicy tm) be) /\
        Composite.LocalityLbPolicy
          (Composite.set_LocalityLbPolicy (LocalityLbPolicy tm) be)
          = LocalityLbPolicy tm)).
Proof.
  intros Hbc. split.
  - intros Htm. unfold Features.EnsureLocalityLbPolicy.
    rewrite (read_TrafficManagement_Some _ _ Hbc), Htm. reflexivity.
  - intros tm Htm.
    assert (Hunfold : Features.EnsureLocalityLbPolicy sp be =
      if String.eqb (LocalityLbPolicy tm) "" then Some (false, be)
      else if negb (String.eqb (Composite.LocalityLbPolicy be) (LocalityLbPolicy tm))
           then Some (true, Composite.set_LocalityLbPolicy (LocalityLbPolicy tm) be)
           else Some (false, be)).
    { unfold Features.EnsureLocalityLbPolicy, Features.applyLocalityLbPolicy.
      rewrite (read_TrafficManagement_Some _ _ Hbc), Htm. simpl.
      rewrite (read_LocalityLbPolicy_Some _ _ _ Hbc Htm). simpl.
      destruct (String.eqb (LocalityLbPolicy tm) ""); [reflexivity|].
      destruct (String.eqb (Composite.LocalityLbPolicy be) (LocalityLbPolicy tm));
        reflexivity. }
    rewrite Hunfold. repeat split.
    + intros ->. reflexivity.
    + intros ->. rewrite String.eqb_refl. simpl.
      destruct (String.eqb (LocalityLbPolicy tm) ""); reflexivity.
    + apply String.eqb_neq in H, H0. rewrite H, H0. reflexivity.
Qed.

(** The example of the specification: policy ROUND_ROBIN configured, the
    backend service at MAGLEV. *)
Lemma EnsureLocalityLbPolicy_spec_witness :
  Utils.BackendConfig Samples.sp_round_robin = Some Samples.bc_round_robin /\
  Features.EnsureLocalityLbPolicy Samples.sp_round_robin Samples.be_maglev =
    Some (true, Composite.set_LocalityLbPolicy "ROUND_ROBIN" Samples.be_maglev) /\
  Composite.LocalityLbPolicy
    (Composite.set_LocalityLbPolicy "ROUND_ROBIN" Samples.be_maglev)
    = "ROUND_ROBIN".
Proof.
  split; [reflexivity|].
  destruct (EnsureLocalityLbPolicy_spec Samples.sp_round_robin
              Samples.bc_round_robin Samples.be_maglev eq_refl) as [_ H].
  destruct (H {| LocalityLbPolicy := "ROUND_ROBIN" |} eq_refl) as (_ & _ & H3).
  apply H3; discriminate.
Defined.

(** With a backend config the call never panics. *)
Lemma EnsureLocalityLbPolicy_total
    (sp : Utils.ServicePort) (bc : BackendConfig) (be : Composite.BackendService) :
  Utils.BackendConfig sp = Some bc ->
  exists r, Features.EnsureLocalityLbPolicy sp be = Some r.
Proof.
  intros Hbc. unfold Features.EnsureLocalityLbPolicy, Features.applyLocalityLbPolicy.
  rewrite (read_TrafficManagement_Some _ _ Hbc). simpl.
  destruct (TrafficManagement (Spec bc)) as [tm|] eqn:Htm; [|eauto].
  rewrite (read_LocalityLbPolicy_Some _ _ _ Hbc Htm). simpl.
  destruct (String.eqb (LocalityLbPolicy tm) ""); [eauto|].
  destruct (String.eqb (Composite.LocalityLbPolicy be) (LocalityLbPolicy tm));
    simpl; eauto.
Qed.

(** C10.  [EnsureLocalityLbPolicy] panics exactly when [sp.BackendConfig] is
    nil: it reads [sp.BackendConfig.Spec.TrafficManagement] with no guard on
    [BackendConfig], and every other dereference it makes is guarded. *)
Theorem EnsureLocalityLbPolicy_panics_iff_nil_BackendConfig
    (sp : Utils.ServicePort) (be : Composite.BackendService) :
  Features.EnsureLocalityLbPolicy sp be = None <-> Utils.BackendConfig sp = None.
Proof.
  split.
  - intros H. destruct (Utils.BackendConfig sp) as [bc|] eqn:Hbc; [|reflexivity].
    exfalso.
    destruct (EnsureLocalityLbPolicy_total sp bc be Hbc) as [r Hr].
    congruence.
  - intros H. unfold Features.EnsureLocalityLbPolicy,
      Features.read_TrafficManagement. rewrite H. reflexivity.
Qed.

End EnsureLocalityLbPolicyProperties.

(** ** [Backends.Get] *)

Section BackendsGetProperties.

Variable VersionFromDescription : string -> Meta.Version.
Variable IsLowerVersion : Meta.Version -> Meta.Version -> bool.
Variable compositeCloud : Backends.CompositeCloud.

Local Abbreviation Get := (Backends.Get VersionFromDescription IsLowerVersion compositeCloud).
Local Abbreviation GetBackendService := (Backends.GetBackendService compositeCloud).
Local Abbreviation CreateKey := (Backends.CreateKey compositeCloud).

(** [Get] as a case analysis on what the fetches answer. *)
Lemma Get_unfold (name : string) (version : Meta.Version) (regional : bool) :
  Get name version regional =
  let key := CreateKey name regional in
  match GetBackendService version key with
  | Go.err e => ([Backends.CallGetBackendService version key], Go.err e)
  | Go.ok be =>
      let versionRequired := VersionFromDescription (Composite.Description be) in
      if IsLowerVersion versionRequired version then
        ([Backends.CallGetBackendService version key;
          Backends.CallGetBackendService versionRequired key],
         GetBackendService versionRequired key)
      else ([Backends.CallGetBackendService version key], Go.ok be)
  end.
Proof.
  unfold Backends.Get, Backends.fetch. simpl.
  destruct (GetBackendService version (CreateKey name regional)) as [be|e];
    simpl; [|reflexivity].
  destruct (IsLowerVersion _ version); simpl; [|reflexivity].
  destruct (GetBackendService _ (CreateKey name regional)); reflexivity.
Qed.

(** C7.  Whenever [Backends.Get(name, version, regional)] succeeds with
    [be], its first fetch, at [version], succeeded with some [be1]; and with
    [versionRequired] the version decoded from [be1.Description]: if
    [IsLowerVersion(versionRequired, version)] holds, the backend service was
    fetched again at [versionRequired] and [be] is what that fetch answered;
    otherwise no second fetch was made and [be] is [be1]. *)
Theorem Get_refetches_at_required_version
    (name : string) (version : Meta.Version) (regional : bool)
    (be : Composite.BackendService) :
  Go.value_of (Get name version regional) = Go.ok be ->
  let key := CreateKey name regional in
  exists be1,
    GetBackendService version key = Go.ok be1 /\
    let versionRequired := VersionFromDescription (Composite.Description be1) in
    (IsLowerVersion versionRequired version = true ->
       GetBackendService versionRequired key = Go.ok be /\
       Go.trace_of (Get name version regional) =
         [Backends.CallGetBackendService version key;
          Backends.CallGetBackendService versionRequired key]) /\
    (IsLowerVersion versionRequired version = false ->
       be = be1 /\
       Go.trace_of (Get name version regional) =
         [Backends.CallGetBackendService version key]).
Proof.
  rewrite Get_unfold. cbv zeta.
  destruct (GetBackendService version (CreateKey name regional)) as [be1|e] eqn:H1;
    [|discriminate].
  intros H. exists be1. split; [reflexivity|].
  destruct (IsLowerVersion (VersionFromDescription (Composite.Description be1))
              version) eqn:Hlow; simpl in H |- *.
  - split; [|discriminate]. intros _. split; [exact H|reflexivity].
  - split; [discriminate|]. intros _. split; [congruence|reflexivity].
Qed.

End BackendsGetProperties.

(** A read at GA of a backend service whose description asks for alpha. *)
Lemma Get_refetches_at_required_version_witness :
  Go.value_of
    (Backends.Get Samples.versionFromDescription Samples.isLowerVersion
       Samples.compositeCloud "be-1" Meta.VersionGA false)
    = Go.ok Samples.be_marked_alpha /\
  exists be1,
    Backends.GetBackendService Samples.compositeCloud Meta.VersionGA
      (Meta.GlobalKey "be-1") = Go.ok be1 /\
    (Samples.isLowerVersion
       (Samples.versionFromDescription (Composite.Description be1))
       Meta.VersionGA = true ->
     Backends.GetBackendService Samples.compositeCloud
       (Samples.versionFromDescription (Composite.Description be1))
       (Meta.GlobalKey "be-1") = Go.ok Samples.be_marked_alpha /\
     Go.trace_of
       (Backends.Get Samples.versionFromDescription Samples.isLowerVersion
          Samples.compositeCloud "be-1" Meta.VersionGA false) =
       [Backends.CallGetBackendService Meta.VersionGA (Meta.GlobalKey "be-1");
        Backends.CallGetBackendService
          (Samples.versionFromDescription (Composite.Description be1))
          (Meta.GlobalKey "be-1")]) /\
    (Samples.isLowerVersion
       (Samples.versionFromDescription (Composite.Description be1))
       Meta.VersionGA = false ->
     Samples.be_marked_alpha = be1 /\
     Go.trace_of
       (Backends.Get Samples.versionFromDescription Samples.isLowerVersion
          Samples.compositeCloud "be-1" Meta.VersionGA false) =
       [Backends.CallGetBackendService Meta.VersionGA (Meta.GlobalKey "be-1")]).
Proof.
  split; [reflexivity|].
  exact (Get_refetches_at_required_version Samples.versionFromDescription
           Samples.isLowerVersion Samples.compositeCloud "be-1" Meta.VersionGA
           false Samples.be_marked_alpha eq_refl).
Defined.

(** ** The firewall controller's [sync] *)

Section FirewallSyncProperties.

Import Firewalls.

Variable ServicePort : Type.
Variable GCEURLMap : Type.
Variable IsGCEIngress : Ingress -> bool.
Variable IsGCEL7ILBIngress : Ingress -> bool.
Variable SuppressFirewallXPNError : Ingress -> bool.
Variable TranslateIngress : Ingress -> GCEURLMap.
Variable AllServicePorts : GCEURLMap -> list ServicePort.
Variable UpdateServicePortsForILB :
  list ServicePort -> Ingress -> list ServicePort.
Variable GatherEndpointPorts : list ServicePort -> list string.

Local Abbreviation sync :=
  (Firewalls.sync ServicePort GCEURLMap IsGCEIngress IsGCEL7ILBIngress
     SuppressFirewallXPNError TranslateIngress AllServicePorts
     UpdateServicePortsForILB GatherEndpointPorts).
Local Abbreviation gceIngressesOf := (Firewalls.gceIngressesOf IsGCEIngress).
Local Abbreviation raiseXPNEvents :=
  (Firewalls.raiseXPNEvents SuppressFirewallXPNError).
Local Abbreviation ilbFirewallSrcRange :=
  (Firewalls.ilbFirewallSrcRange IsGCEL7ILBIngress).

(** C5.  When the caches have synced and no managed (GCE) ingress is
    listed, [sync] calls the firewall pool's [GC] and nothing else (so
    [Sync] is not called), and returns nil. *)
Theorem sync_no_ingress_GC
    (fwc : FirewallController) (key : string) :
  hasSynced fwc = true ->
  gceIngressesOf fwc = [] ->
  sync fwc key = ([FirewallPoolGC], None).
Proof.
  intros Hs He. unfold gceIngressesOf in He. unfold Firewalls.sync.
  rewrite Hs, He. reflexivity.
Qed.

(** The loop over the ingresses records one event for each ingress that has
    not opted out, in order. *)
Lemma raiseXPNEvents_spec (message : string) (ings : list Ingress) :
  raiseXPNEvents message ings =
  (map (fun ing => Eventf (Namespace ing) ing EventTypeNormal "XPN" message)
     (List.filter (fun ing => negb (SuppressFirewallXPNError ing)) ings), tt).
Proof.
  induction ings as [|ing rest IH]; [reflexivity|].
  cbn [Firewalls.raiseXPNEvents List.filter]. rewrite IH.
  destruct (SuppressFirewallXPNError ing); reflexivity.
Qed.

(** The two shapes of a run of [sync]: either it never reaches the firewall
    pool's [Sync], or it calls it once and what follows is decided by the
    answer. *)
Lemma sync_shape (fwc : FirewallController) (key : string) :
  quiet (Go.trace_of (sync fwc key)) \/
  exists pre nodeNames negPorts additionalRanges,
    quiet pre /\
    sync fwc key =
      match firewallPool_Sync fwc nodeNames negPorts additionalRanges with
      | Some (Go.FirewallXPNError message) =>
          (pre ++ FirewallPoolSync nodeNames negPorts additionalRanges
               :: Go.trace_of (raiseXPNEvents message (gceIngressesOf fwc)),
           None)
      | Some e =>
          (pre ++ [FirewallPoolSync nodeNames negPorts additionalRanges], Some e)
      | None =>
          (pre ++ [FirewallPoolSync nodeNames negPorts additionalRanges], None)
      end.
Proof.
  unfold Firewalls.sync, Firewalls.gceIngressesOf.
  destruct (hasSynced fwc); cbn [negb].
  2:{ left. repeat constructor. }
  set (gce := List.filter IsGCEIngress (Ingresses_List fwc)).
  destruct (length gce =? 0)%nat.
  { left. repeat constructor. }
  destruct (GetReadyNodeNames fwc) as [nodeNames|e].
  2:{ left. constructor. }
  set (negPorts := GatherEndpointPorts _).
  destruct (EnableL7Ilb fwc) eqn:Hilb.
  - unfold Firewalls.ilbFirewallSrcRange.
    destruct (existsb IsGCEL7ILBIngress gce).
    + destruct (LBFeatures.ILBSubnetSourceRange _ _) as [range|e].
      * right. exists [ListSubnetworks (Region fwc)], nodeNames, negPorts, [range].
        split; [repeat constructor|].
        cbn. destruct (firewallPool_Sync fwc nodeNames negPorts [range]) as [[]|];
          cbn; try reflexivity.
        destruct (Firewalls.raiseXPNEvents _ _ gce) as [tr []]. cbn.
        rewrite app_nil_r. reflexivity.
      * left. repeat constructor.
    + right. exists [], nodeNames, negPorts, [""].
      split; [constructor|].
      cbn. destruct (firewallPool_Sync fwc nodeNames negPorts [""]) as [[]|];
        cbn; try reflexivity.
      destruct (Firewalls.raiseXPNEvents _ _ gce) as [tr []]. cbn.
      rewrite app_nil_r. reflexivity.
  - right. exists [], nodeNames, negPorts, [].
    split; [constructor|].
    cbn. destruct (firewallPool_Sync fwc nodeNames negPorts []) as [[]|];
      cbn; try reflexivity.
    destruct (Firewalls.raiseXPNEvents _ _ gce) as [tr []]. cbn.
    rewrite app_nil_r. reflexivity.
Qed.

Lemma quiet_no_sync (trace : list Effect) (n p r : list string) :
  quiet trace -> ~ In (FirewallPoolSync n p r) trace.
Proof.
  intros Hq Hin. unfold quiet in Hq. rewrite List.Forall_forall in Hq.
  destruct (Hq _ Hin) as [H _]. discriminate.
Qed.

Lemma quiet_events (trace : list Effect) : quiet trace -> events trace = [].
Proof.
  induction 1 as [|e tr [_ He] _ IH]; [reflexivity|].
  unfold events in *. cbn. rewrite He. exact IH.
Qed.

Lemma quiet_eventsAgainst (ing : Ingress) (trace : list Effect) :
  quiet trace -> List.filter (isEventAgainst ing) trace = [].
Proof.
  induction 1 as [|e tr [_ He] _ IH]; [reflexivity|].
  cbn. destruct e; try discriminate; cbn; exact IH.
Qed.

Lemma events_of_XPN_events (message : string) (ings : list Ingress) :
  events (map (fun ing => Eventf (Namespace ing) ing EventTypeNormal "XPN" message)
            ings) =
  map (fun ing => Eventf (Namespace ing) ing EventTypeNormal "XPN" message) ings.
Proof.
  induction ings as [|i rest IH]; [reflexivity|].
  unfold events in *. cbn. rewrite IH. reflexivity.
Qed.

Lemma eventsAgainst_XPN_events (message : string) (ing : Ingress)
    (ings : list Ingress) :
  length (List.filter (isEventAgainst ing)
            (map (fun i => Eventf (Namespace i) i EventTypeNormal "XPN" message)
               (List.filter (fun i => negb (SuppressFirewallXPNError i)) ings))) =
  if SuppressFirewallXPNError ing then 0
  else count_occ Ingress_eq_dec ings ing.
Proof.
  induction ings as [|i rest IH].
  - cbn. destruct (SuppressFirewallXPNError ing); reflexivity.
  - cbn [List.filter count_occ].
    destruct (Ingress_eq_dec i ing) as [->|Hne].
    + destruct (SuppressFirewallXPNError ing) eqn:Hs; cbn [negb].
      * exact IH.
      * cbn. rewrite bool_decide_eq_true_2 by reflexivity. cbn. rewrite IH.
        reflexivity.
    + destruct (SuppressFirewallXPNError i); cbn [negb]; [exact IH|].
      cbn. rewrite bool_decide_eq_false_2 by exact Hne. exact IH.
Qed.

(** C6.  In every run of [sync] that calls the firewall pool's [Sync]:
    if [Sync] answers an XPN error, [sync] returns nil and the events it
    records are exactly one event (type Normal, reason XPN, the error's
    message) for each managed ingress that has not opted out through the
    annotation, in the order of the list, so that the number of events
    against an ingress is the number of times it is listed, and none if it
    opted out; if [Sync] answers any other error, [sync] returns that error
    and records no event. *)
Theorem sync_XPN_error_events
    (fwc : FirewallController) (key : string)
    (nodeNames negPorts additionalRanges : list string) :
  In (FirewallPoolSync nodeNames negPorts additionalRanges)
     (Go.trace_of (sync fwc key)) ->
  (forall message,
     firewallPool_Sync fwc nodeNames negPorts additionalRanges
       = Some (Go.FirewallXPNError message) ->
     Go.value_of (sync fwc key) = None /\
     events (Go.trace_of (sync fwc key)) =
       map (fun ing => Eventf (Namespace ing) ing EventTypeNormal "XPN" message)
         (List.filter (fun ing => negb (SuppressFirewallXPNError ing))
            (gceIngressesOf fwc)) /\
     forall ing,
       eventsAgainst ing (Go.trace_of (sync fwc key)) =
       if SuppressFirewallXPNError ing then 0
       else count_occ Ingress_eq_dec (gceIngressesOf fwc) ing) /\
  (forall e,
     firewallPool_Sync fwc nodeNames negPorts additionalRanges = Some e ->
     (forall message, e <> Go.FirewallXPNError message) ->
     Go.value_of (sync fwc key) = Some e /\
     events (Go.trace_of (sync fwc key)) = []).
Proof.
  intros Hin.
  destruct (sync_shape fwc key) as [Hq|(pre & n & p & r & Hpre & Hsync)].
  { exfalso. exact (quiet_no_sync _ _ _ _ Hq Hin). }
  assert (Hargs : (n, p, r) = (nodeNames, negPorts, additionalRanges)).
  { rewrite Hsync in Hin.
    assert (Hmid : forall tl v,
      In (FirewallPoolSync nodeNames negPorts additionalRanges)
         (Go.trace_of (pre ++ FirewallPoolSync n p r :: tl, v : option Go.error)) ->
      (forall x, In x tl -> isSyncCall x = false) ->
      (n, p, r) = (nodeNames, negPorts, additionalRanges)).
    { intros tl v H Htl. cbn in H. apply in_app_or in H.
      destruct H as [H|[H|H]].
      - exfalso. exact (quiet_no_sync _ _ _ _ Hpre H).
      - congruence.
      - apply Htl in H. discriminate. }
    destruct (firewallPool_Sync fwc n p r) as [[]|];
      try (apply (Hmid [] _ Hin); intros x []).
    apply (Hmid _ _ Hin). rewrite raiseXPNEvents_spec. cbn.
    intros x Hx. apply in_map_iff in Hx. destruct Hx as (i & <- & _).
    reflexivity. }
  injection Hargs as -> -> ->.
  split.
  - intros message Hm. rewrite Hm in Hsync. rewrite Hsync.
    rewrite raiseXPNEvents_spec. cbn [Go.trace_of Go.value_of fst snd].
    split; [reflexivity|]. split.
    + unfold events. rewrite List.filter_app. cbn [List.filter isEvent].
      fold (events pre). rewrite (quiet_events _ Hpre). cbn [app].
      apply events_of_XPN_events.
    + intros ing. unfold eventsAgainst. rewrite List.filter_app.
      rewrite (quiet_eventsAgainst _ _ Hpre). cbn [app List.filter isEventAgainst].
      apply eventsAgainst_XPN_events.
  - intros e He Hne. rewrite He in Hsync.
    assert (Hs : sync fwc key =
              (pre ++ [FirewallPoolSync nodeNames negPorts additionalRanges], Some e)).
    { rewrite Hsync. destruct e; try reflexivity. exfalso. eapply Hne. reflexivity. }
    rewrite Hs. cbn [Go.trace_of Go.value_of fst snd].
    split; [reflexivity|].
    unfold events. rewrite List.filter_app. cbn.
    fold (events pre). rewrite (quiet_events _ Hpre). reflexivity.
Qed.

End FirewallSyncProperties.

(** A cluster whose only ingress is of another class. *)
Lemma sync_no_ingress_GC_witness :
  Firewalls.hasSynced Samples.fwc_empty = true /\
  Firewalls.gceIngressesOf Samples.isGCEIngress Samples.fwc_empty = [] /\
  Firewalls.sync Z (list Z) Samples.isGCEIngress Samples.isGCEL7ILBIngress
    Samples.suppressFirewallXPNError Samples.translateIngress
    (fun m => m) (fun ports _ => ports) Samples.gatherEndpointPorts
    Samples.fwc_empty "queueKey"
  = ([Firewalls.FirewallPoolGC], None).
Proof.
  split; [reflexivity|]. split; [reflexivity|].
  apply (sync_no_ingress_GC Z (list Z) Samples.isGCEIngress
           Samples.isGCEL7ILBIngress Samples.suppressFirewallXPNError
           Samples.translateIngress (fun m => m) (fun ports _ => ports)
           Samples.gatherEndpointPorts Samples.fwc_empty "queueKey");
    reflexivity.
Defined.

(** One managed ingress that reports, one that opted out, and a [Sync] that
    answers an XPN error. *)
Lemma sync_XPN_error_events_witness :
  In (Firewalls.FirewallPoolSync ["node-1"; "node-2"] ["8080"] [])
     (Go.trace_of
        (Firewalls.sync Z (list Z) Samples.isGCEIngress Samples.isGCEL7ILBIngress
           Samples.suppressFirewallXPNError Samples.translateIngress
           (fun m => m) (fun ports _ => ports) Samples.gatherEndpointPorts
           Samples.fwc_xpn "queueKey")) /\
  Go.value_of
    (Firewalls.sync Z (list Z) Samples.isGCEIngress Samples.isGCEL7ILBIngress
       Samples.suppressFirewallXPNError Samples.translateIngress
       (fun m => m) (fun ports _ => ports) Samples.gatherEndpointPorts
       Samples.fwc_xpn "queueKey") = None /\
  Firewalls.events
    (Go.trace_of
       (Firewalls.sync Z (list Z) Samples.isGCEIngress Samples.isGCEL7ILBIngress
          Samples.suppressFirewallXPNError Samples.translateIngress
          (fun m => m) (fun ports _ => ports) Samples.gatherEndpointPorts
          Samples.fwc_xpn "queueKey")) =
    [Firewalls.Eventf "default" Samples.ing_a Firewalls.EventTypeNormal "XPN"
       Samples.xpnMessage] /\
  Firewalls.eventsAgainst Samples.ing_a
    (Go.trace_of
       (Firewalls.sync Z (list Z) Samples.isGCEIngress Samples.isGCEL7ILBIngress
          Samples.suppressFirewallXPNError Samples.translateIngress
          (fun m => m) (fun ports _ => ports) Samples.gatherEndpointPorts
          Samples.fwc_xpn "queueKey")) = 1 /\
  Firewalls.eventsAgainst Samples.ing_b
    (Go.trace_of
       (Firewalls.sync Z (list Z) Samples.isGCEIngress Samples.isGCEL7ILBIngress
          Samples.suppressFirewallXPNError Samples.translateIngress
          (fun m => m) (fun ports _ => ports) Samples.gatherEndpointPorts
          Samples.fwc_xpn "queueKey")) = 0.
Proof.
  assert (Hin :
    In (Firewalls.FirewallPoolSync ["node-1"; "node-2"] ["8080"] [])
       (Go.trace_of
          (Firewalls.sync Z (list Z) Samples.isGCEIngress
             Samples.isGCEL7ILBIngress Samples.suppressFirewallXPNError
             Samples.translateIngress (fun m => m) (fun ports _ => ports)
             Samples.gatherEndpointPorts Samples.fwc_xpn "queueKey"))).
  { left. reflexivity. }
  split; [exact Hin|].
  destruct (sync_XPN_error_events Z (list Z) Samples.isGCEIngress
              Samples.isGCEL7ILBIngress Samples.suppressFirewallXPNError
              Samples.translateIngress (fun m => m) (fun ports _ => ports)
              Samples.gatherEndpointPorts Samples.fwc_xpn "queueKey"
              ["node-1"; "node-2"] ["8080"] [] Hin) as [H _].
  destruct (H Samples.xpnMessage eq_refl) as (H1 & H2 & H3).
  split; [exact H1|]. split; [rewrite H2; reflexivity|].
  split; rewrite H3; reflexivity.
Defined.

(** ** Loops and sequencing *)

Section FlowLemmas.

Context {Ev : Type}.

Lemma mbind_mret_l {A B : Type} (a : A) (f : A -> Go.M Ev B) :
  Go.mbind (Go.mret a) f = f a.
Proof. unfold Go.mbind, Go.mret. destruct (f a) as [t r]. reflexivity. Qed.

Lemma mbind_assoc {A B C : Type} (m : Go.M Ev A) (f : A -> Go.M Ev B)
    (g : B -> Go.M Ev C) :
  Go.mbind (Go.mbind m f) g = Go.mbind m (fun x => Go.mbind (f x) g).
Proof.
  destruct m as [t1 [a|e|]]; cbn; try reflexivity.
  destruct (f a) as [t2 [b|e|]]; cbn; try reflexivity.
  destruct (g b) as [t3 r]. rewrite app_assoc. reflexivity.
Qed.

Lemma mbind_ext {A B : Type} (m : Go.M Ev A) (f g : A -> Go.M Ev B) :
  (forall a, f a = g a) -> Go.mbind m f = Go.mbind m g.
Proof.
  intros H. destruct m as [t [a|e|]]; cbn; try reflexivity. rewrite H.
  reflexivity.
Qed.

Lemma range_ext {A S : Type} (l : list A) (body1 body2 : S -> A -> Go.M Ev S)
    (s : S) :
  (forall s x, body1 s x = body2 s x) ->
  Go.range l body1 s = Go.range l body2 s.
Proof.
  intros H. revert s. induction l as [|x l IH]; intros s; [reflexivity|].
  cbn. rewrite H. apply mbind_ext. exact IH.
Qed.

Lemma range_map {A B S : Type} (f : A -> B) (l : list A)
    (body : S -> B -> Go.M Ev S) (s : S) :
  Go.range (map f l) body s = Go.range l (fun s x => body s (f x)) s.
Proof.
  revert s. induction l as [|x l IH]; intros s; [reflexivity|].
  cbn. apply mbind_ext. exact IH.
Qed.

Lemma range_app {A S : Type} (l1 l2 : list A) (body : S -> A -> Go.M Ev S)
    (s : S) :
  Go.range (l1 ++ l2) body s =
  Go.mbind (Go.range l1 body s) (Go.range l2 body).
Proof.
  revert s. induction l1 as [|x l1 IH]; intros s.
  - cbn [app Go.range]. rewrite mbind_mret_l. reflexivity.
  - cbn [app Go.range]. rewrite mbind_assoc. apply mbind_ext. exact IH.
Qed.

End FlowLemmas.

(** ** [CheckResourceDeletion] *)

Section DeletionProperties.

Import Go Cloud Fuzz.

Variable KeyString : Meta.Key -> string.
Variable DescriptionFromString : string -> Description.t.
Variable rangeKeys : forall V : Type, gmap Meta.Key V -> list Meta.Key.

Local Abbreviation CheckResourceDeletion :=
  (Fuzz.CheckResourceDeletion KeyString DescriptionFromString rangeKeys).
Local Abbreviation items := (Fuzz.items rangeKeys).
Local Abbreviation examine := (Fuzz.examine DescriptionFromString).
Local Abbreviation examineStep := (Fuzz.examineStep DescriptionFromString).
Local Abbreviation probe := (Fuzz.probe DescriptionFromString).
Local Abbreviation stillPresent := (Fuzz.stillPresent DescriptionFromString).
Local Abbreviation report := (Fuzz.report KeyString).

(** Every loop of [CheckResourceDeletion] is the pass over the keys of its
    kind. *)
Lemma loop_step_plain {A : Type} (c : Cloud.Cloud)
    (options : option GCLBDeleteOptions) (kind : Kind) (k : Meta.Key)
    (resources : list Meta.Key) (s : Service)
    (f : option Meta.Key -> result A) :
  serviceOf kind k = s ->
  response c kind k = forget (f (Some k)) ->
  Go.mbind (get s f (Some k)) (fun r =>
    match r with
    | err e =>
        Go.mbind (notStatusNotFound e) (fun b =>
          if b then
            fail (Errorf (kindName kind ++ " %s is not deleted/error to get: %s")
                    [ArgString (Meta.Name k); ArgError e])
          else mret resources)
    | ok _ => mret (resources ++ [k])
    end)
  = examineStep c options resources (kind, k).
Proof.
  intros Hs Hr. unfold Fuzz.examineStep, Fuzz.probe, callOf. cbn [fst snd].
  rewrite Hs, Hr. unfold get. cbn.
  destruct (f (Some k)) as [a|e]; cbn; [reflexivity|].
  destruct e as [code m| | | |]; cbn; try reflexivity.
  destruct (code =? StatusNotFound)%Z; reflexivity.
Qed.

Lemma loop_step_forwardingRule (c : Cloud.Cloud)
    (options : option GCLBDeleteOptions) (k : Meta.Key)
    (resources : list Meta.Key) :
  Go.mbind
    (if negb (String.eqb (Meta.Region k) "") then
       get ForwardingRules (ForwardingRules_Get c) (Some k)
     else get GlobalForwardingRules (GlobalForwardingRules_Get c) (Some k))
    (fun r =>
      match r with
      | err e =>
          Go.mbind (notStatusNotFound e) (fun b =>
            if b then
              fail (Errorf "ForwardingRule %s is not deleted/error to get: %s"
                      [ArgString (Meta.Name k); ArgError e])
            else mret resources)
      | ok _ => mret (resources ++ [k])
      end)
  = examineStep c options resources (KForwardingRule, k).
Proof.
  destruct (negb (String.eqb (Meta.Region k) "")) eqn:Hregion.
  - apply (loop_step_plain c options KForwardingRule k resources
             ForwardingRules (ForwardingRules_Get c)).
    + unfold serviceOf. rewrite Hregion. reflexivity.
    + unfold response. rewrite Hregion. reflexivity.
  - apply (loop_step_plain c options KForwardingRule k resources
             GlobalForwardingRules (GlobalForwardingRules_Get c)).
    + unfold serviceOf. rewrite Hregion. reflexivity.
    + unfold response. rewrite Hregion. reflexivity.
Qed.

Lemma loop_step_backendService (c : Cloud.Cloud)
    (options : option GCLBDeleteOptions) (k : Meta.Key)
    (resources : list Meta.Key) :
  Go.mbind (get BackendServices (BackendServices_Get c) (Some k)) (fun r =>
    match r with
    | err e =>
        Go.mbind (notStatusNotFound e) (fun b =>
          if b then
            fail (Errorf "BackendService %s is not deleted/error to get: %s"
                    [ArgString (Meta.Name k); ArgError e])
          else mret resources)
    | ok bs =>
        if match options with
           | Some o => SkipDefaultBackend o
           | None => false
           end
           && String.eqb
                (Description.ServiceName
                   (DescriptionFromString (Compute.BackendService.Description bs)))
                "kube-system/default-http-backend"
        then mret resources
        else mret (resources ++ [k])
    end)
  = examineStep c options resources (KBackendService, k).
Proof.
  unfold Fuzz.examineStep, Fuzz.probe, callOf, response, get. cbn.
  destruct (BackendServices_Get c (Some k)) as [bs|e]; cbn.
  - unfold Fuzz.skipsDefaultBackend.
    destruct (_ && _); reflexivity.
  - destruct e as [code m| | | |]; cbn; try reflexivity.
    destruct (code =? StatusNotFound)%Z; reflexivity.
Qed.

Lemma mbind_cong {Ev A B : Type} (m1 m2 : Go.M Ev A) (f g : A -> Go.M Ev B) :
  m1 = m2 -> (forall a, f a = g a) -> Go.mbind m1 f = Go.mbind m2 g.
Proof. intros -> H. apply mbind_ext. exact H. Qed.

(** [CheckResourceDeletion] is the pass over all the resources of the graph,
    followed by the report. *)
Lemma CheckResourceDeletion_examine (g : GCLB) (c : Cloud.Cloud)
    (options : option GCLBDeleteOptions) :
  CheckResourceDeletion g c options =
  Go.mbind (examine c options (items g) [])
    (fun resources => ([], report resources)).
Proof.
  unfold Fuzz.CheckResourceDeletion, Fuzz.items, Fuzz.examine.
  rewrite range_app, range_map, mbind_assoc.
  apply mbind_cong;
    [apply range_ext; intros; apply loop_step_forwardingRule|intros r1].
  rewrite range_app, range_map, mbind_assoc.
  apply mbind_cong;
    [apply range_ext; intros;
     apply (loop_step_plain c options KTargetHTTPProxy); reflexivity|intros r2].
  rewrite range_app, range_map, mbind_assoc.
  apply mbind_cong;
    [apply range_ext; intros;
     apply (loop_step_plain c options KTargetHTTPSProxy); reflexivity|intros r3].
  rewrite range_app, range_map, mbind_assoc.
  apply mbind_cong;
    [apply range_ext; intros;
     apply (loop_step_plain c options KURLMap); reflexivity|intros r4].
  rewrite range_app, range_map, mbind_assoc.
  apply mbind_cong;
    [apply range_ext; intros; apply loop_step_backendService|intros r5].
  rewrite range_map.
  apply mbind_cong;
    [apply range_ext; intros;
     apply (loop_step_plain c options KNetworkEndpointGroup); reflexivity
    |intros r6].
  unfold Fuzz.report. destruct (negb _); reflexivity.
Qed.

Lemma examine_cons (c : Cloud.Cloud) (options : option GCLBDeleteOptions)
    (item : Kind * Meta.Key) (l : list (Kind * Meta.Key))
    (resources : list Meta.Key) :
  examine c options (item :: l) resources =
  Go.mbind (examineStep c options resources item) (examine c options l).
Proof. reflexivity. Qed.

(** A pass in which every answer is a success or not found visits every
    resource and collects the ones that are present. *)
Lemma examine_clean (c : Cloud.Cloud) (options : option GCLBDeleteOptions)
    (l : list (Kind * Meta.Key)) (resources : list Meta.Key) :
  Forall (fun item => isClean (probe c options item) = true) l ->
  examine c options l resources =
  (map callOf l, Val (resources ++ stillPresent c options l)).
Proof.
  intros H. revert resources.
  induction H as [|item l Hitem _ IH]; intros resources.
  - cbn. rewrite app_nil_r. reflexivity.
  - rewrite examine_cons. unfold Fuzz.examineStep, Fuzz.stillPresent.
    cbn [List.filter].
    destruct (probe c options item) eqn:Hp; try discriminate; cbn;
      rewrite IH; unfold Fuzz.stillPresent; cbn; try reflexivity.
    rewrite <- app_assoc. reflexivity.
Qed.

(** A pass stops at the first answer that is another googleapi error, with
    the error of that resource, and panics at the first answer of another
    error type. *)
Lemma examine_stop (c : Cloud.Cloud) (options : option GCLBDeleteOptions)
    (pre post : list (Kind * Meta.Key)) (item : Kind * Meta.Key)
    (resources : list Meta.Key) :
  Forall (fun item => isClean (probe c options item) = true) pre ->
  isClean (probe c options item) = false ->
  examine c options (pre ++ item :: post) resources =
  (map callOf pre ++ [callOf item],
   match probe c options item with
   | Bad e => Fail (notDeleted (fst item) (snd item) e)
   | _ => Panic
   end).
Proof.
  intros Hpre Hitem. unfold Fuzz.examine. rewrite range_app.
  fold (examine c options pre resources). rewrite (examine_clean _ _ _ _ Hpre).
  cbn [Go.mbind Go.range]. unfold Fuzz.examineStep.
  destruct (probe c options item) eqn:Hp; try discriminate; reflexivity.
Qed.

(** Either every answer of a pass is clean, or there is a first one that is
    not. *)
Lemma first_unclean (c : Cloud.Cloud) (options : option GCLBDeleteOptions)
    (l : list (Kind * Meta.Key)) :
  Forall (fun item => isClean (probe c options item) = true) l \/
  exists pre item post,
    l = pre ++ item :: post /\
    Forall (fun item => isClean (probe c options item) = true) pre /\
    isClean (probe c options item) = false.
Proof.
  induction l as [|item l IH]; [left; constructor|].
  destruct (isClean (probe c options item)) eqn:Hitem.
  - destruct IH as [IH|(pre & i & post & -> & Hpre & Hi)].
    + left. constructor; assumption.
    + right. exists (item :: pre), i, post. repeat split; auto.
  - right. exists [], item, l. repeat split; auto.
Qed.

(** The verdict on an answer, read off the answer. *)
Lemma verdict_clean (options : option GCLBDeleteOptions)
    (r : result (option Compute.BackendService.t)) :
  foundOrNotFound r ->
  isClean (Fuzz.verdict DescriptionFromString options r) = true.
Proof.
  destruct r as [[bs|]|e]; cbn.
  - intros _. destruct (Fuzz.skipsDefaultBackend _ _ _); reflexivity.
  - reflexivity.
  - intros [m ->]. reflexivity.
Qed.

Lemma verdict_bad (options : option GCLBDeleteOptions) (e : error) :
  otherGoogleapiError e ->
  Fuzz.verdict DescriptionFromString options (err e) = Bad e.
Proof.
  intros [->|(code & m & -> & Hcode)]; [reflexivity|].
  cbn. apply Z.eqb_neq in Hcode. rewrite Hcode. reflexivity.
Qed.

Lemma verdict_gone (options : option GCLBDeleteOptions)
    (r : result (option Compute.BackendService.t)) :
  isNotFound r -> Fuzz.verdict DescriptionFromString options r = Gone.
Proof. intros [m ->]. reflexivity. Qed.

Lemma verdict_clean_inv (options : option GCLBDeleteOptions)
    (r : result (option Compute.BackendService.t)) :
  isClean (Fuzz.verdict DescriptionFromString options r) = true ->
  foundOrNotFound r.
Proof.
  destruct r as [[bs|]|e]; cbn; auto.
  destruct e as [code m| | | |]; cbn; try discriminate.
  destruct (code =? StatusNotFound)%Z eqn:Hc; [|discriminate].
  apply Z.eqb_eq in Hc. subst. eauto.
Qed.

Lemma verdict_bad_inv (options : option GCLBDeleteOptions)
    (r : result (option Compute.BackendService.t)) (e : error) :
  Fuzz.verdict DescriptionFromString options r = Bad e ->
  r = err e /\ otherGoogleapiError e.
Proof.
  destruct r as [[bs|]|e']; cbn.
  - destruct (Fuzz.skipsDefaultBackend _ _ _); discriminate.
  - discriminate.
  - destruct e' as [code m| | | |]; cbn; try discriminate.
    + destruct (code =? StatusNotFound)%Z eqn:Hc; [discriminate|].
      intros [= <-]. split; [reflexivity|]. right. exists code, m.
      split; [reflexivity|]. apply Z.eqb_neq. exact Hc.
    + intros [= <-]. split; [reflexivity|]. left. reflexivity.
Qed.

(** *** The order of [range] visits each key of the map once *)

Hypothesis rangeKeys_spec :
  forall (V : Type) (m : gmap Meta.Key V), rangeKeys V m ≡ₚ (map_to_list m).*1.

Lemma in_rangeKeys (V : Type) (m : gmap Meta.Key V) (k : Meta.Key) :
  In k (rangeKeys V m) <-> k ∈ dom m.
Proof.
  rewrite <- list_elem_of_In, rangeKeys_spec, elem_of_dom.
  rewrite list_elem_of_fmap. split.
  - intros ([k' v] & -> & H). apply elem_of_map_to_list in H. eauto.
  - intros [v H]. exists (k, v). split; [reflexivity|].
    apply elem_of_map_to_list. exact H.
Qed.

Lemma NoDup_rangeKeys (V : Type) (m : gmap Meta.Key V) :
  NoDup (rangeKeys V m).
Proof. rewrite rangeKeys_spec. apply NoDup_fst_map_to_list. Qed.

Lemma in_items (g : GCLB) (kind : Kind) (k : Meta.Key) :
  In (kind, k) (items g) <-> k ∈ keysOf g kind.
Proof.
  unfold Fuzz.items. rewrite !in_app_iff, !in_map_iff.
  destruct kind; cbn [keysOf]; rewrite <- in_rangeKeys; split;
    try (intros H; repeat (destruct H as [H|H]); destruct H as (k' & [= <-] & H);
         exact H);
    intros H; eauto 10.
Qed.

Lemma NoDup_tagged (kind : Kind) (l : list Meta.Key) :
  NoDup l -> NoDup (map (pair kind) l).
Proof.
  intros H. induction H as [|k l Hk _ IH]; cbn; constructor; [|exact IH].
  rewrite list_elem_of_In, in_map_iff. intros (k' & [= ->] & Hin).
  apply Hk, list_elem_of_In, Hin.
Qed.

Lemma NoDup_items (g : GCLB) : NoDup (items g).
Proof.
  unfold Fuzz.items.
  repeat (apply NoDup_app; split; [apply NoDup_tagged, NoDup_rangeKeys|split]);
    try (apply NoDup_tagged, NoDup_rangeKeys);
    intros [kind k] H1 H2;
    apply list_elem_of_In in H1, H2;
    rewrite in_map_iff in H1; destruct H1 as (k1 & [= <- <-] & _);
    rewrite ?in_app_iff, ?in_map_iff in H2;
    repeat (destruct H2 as [H2|H2]); destruct H2 as (k2 & [=] & _).
Qed.

(** A list without duplicates in which one element alone passes a test. *)
Lemma filter_only {A : Type} (f : A -> bool) (x : A) (l : list A) :
  NoDup l -> In x l -> f x = true ->
  (forall y, In y l -> y <> x -> f y = false) ->
  List.filter f l = [x].
Proof.
  intros Hnd. induction Hnd as [|y l Hy Hnd IH]; intros Hin Hx Hother;
    [destruct Hin|].
  cbn. destruct Hin as [->|Hin].
  - rewrite Hx. f_equal.
    assert (Hnone : forall z, In z l -> f z = false).
    { intros z Hz. apply Hother; [right; exact Hz|].
      intros ->. apply Hy. apply list_elem_of_In. exact Hz. }
    clear -Hnone. induction l as [|z l IH]; [reflexivity|].
    cbn. rewrite (Hnone z) by (left; reflexivity).
    apply IH. intros w Hw. apply Hnone. right. exact Hw.
  - assert (Hyx : y <> x).
    { intros ->. apply Hy. apply list_elem_of_In. exact Hin. }
    rewrite (Hother y) by (auto using in_eq).
    apply IH; auto. intros z Hz. apply Hother. right. exact Hz.
Qed.

Lemma filter_none {A : Type} (f : A -> bool) (l : list A) :
  (forall y, In y l -> f y = false) -> List.filter f l = [].
Proof.
  induction l as [|z l IH]; intros H; [reflexivity|].
  cbn. rewrite (H z) by (left; reflexivity).
  apply IH. intros w Hw. apply H. right. exact Hw.
Qed.

(** Answers on every resource of the graph, as a property of the pass. *)
Lemma all_clean (g : GCLB) (c : Cloud.Cloud)
    (options : option GCLBDeleteOptions) :
  (forall kind k, k ∈ keysOf g kind -> foundOrNotFound (response c kind k)) ->
  Forall (fun item => isClean (probe c options item) = true) (items g).
Proof.
  intros H. apply List.Forall_forall. intros [kind k] Hin.
  apply verdict_clean. apply H. apply in_items. exact Hin.
Qed.

Lemma all_clean_inv (g : GCLB) (c : Cloud.Cloud)
    (options : option GCLBDeleteOptions) :
  Forall (fun item => isClean (probe c options item) = true) (items g) ->
  forall kind k, k ∈ keysOf g kind -> foundOrNotFound (response c kind k).
Proof.
  intros H kind k Hk. rewrite List.Forall_forall in H.
  apply (verdict_clean_inv options). apply (H (kind, k)). apply in_items.
  exact Hk.
Qed.

(** When every answer is a success or not found, the call makes one Get per
    resource and ends with the report. *)
Lemma CheckResourceDeletion_clean (g : GCLB) (c : Cloud.Cloud)
    (options : option GCLBDeleteOptions) :
  Forall (fun item => isClean (probe c options item) = true) (items g) ->
  CheckResourceDeletion g c options =
  (map callOf (items g), report (stillPresent c options (items g))).
Proof.
  intros H. rewrite CheckResourceDeletion_examine.
  rewrite (examine_clean _ _ _ _ H). cbn. rewrite app_nil_r. reflexivity.
Qed.

Lemma CheckResourceDeletion_stop (g : GCLB) (c : Cloud.Cloud)
    (options : option GCLBDeleteOptions)
    (pre post : list (Kind * Meta.Key)) (item : Kind * Meta.Key) :
  items g = pre ++ item :: post ->
  Forall (fun item => isClean (probe c options item) = true) pre ->
  isClean (probe c options item) = false ->
  CheckResourceDeletion g c options =
  (map callOf pre ++ [callOf item],
   match probe c options item with
   | Bad e => Fail (notDeleted (fst item) (snd item) e)
   | _ => Panic
   end).
Proof.
  intros Hitems Hpre Hitem. rewrite CheckResourceDeletion_examine, Hitems.
  rewrite (examine_stop _ _ _ _ _ _ Hpre Hitem).
  destruct (probe c options item); try discriminate; reflexivity.
Qed.


(** C3, as the code has it.  When every Get answers a success or not found,
    [CheckResourceDeletion] issues a Get for every forwarding rule, target
    HTTP proxy, target HTTPS proxy, URL map, backend service and network
    endpoint group key of the graph, a forwarding rule through the regional
    service when its key has a region and through the global one otherwise;
    it issues no other Get, and none for an instance group; and when all the
    answers are not found it returns nil. *)
Theorem CheckResourceDeletion_gets
    (g : GCLB) (c : Cloud.Cloud) (options : option GCLBDeleteOptions) :
  (forall kind k, k ∈ keysOf g kind -> foundOrNotFound (response c kind k)) ->
  (forall kind k, k ∈ keysOf g kind ->
     In (Get (serviceOf kind k) (Some k))
        (Go.trace_of (CheckResourceDeletion g c options))) /\
  (forall call, In call (Go.trace_of (CheckResourceDeletion g c options)) ->
     exists kind k, k ∈ keysOf g kind /\
                    call = Get (serviceOf kind k) (Some k)) /\
  (forall key, ~ In (Get InstanceGroups key)
                    (Go.trace_of (CheckResourceDeletion g c options))) /\
  ((forall kind k, k ∈ keysOf g kind -> isNotFound (response c kind k)) ->
     Go.value_of (CheckResourceDeletion g c options) = Val tt).
Proof.
  intros H.
  rewrite (CheckResourceDeletion_clean _ _ _ (all_clean g c options H)).
  cbn [Go.trace_of Go.value_of fst snd].
  assert (Hcalls : forall call, In call (map callOf (items g)) ->
            exists kind k, k ∈ keysOf g kind /\
                           call = Get (serviceOf kind k) (Some k)).
  { intros call Hin. apply in_map_iff in Hin.
    destruct Hin as ([kind k] & <- & Hin). exists kind, k.
    split; [apply in_items; exact Hin|reflexivity]. }
  split; [|split; [exact Hcalls|split]].
  - intros kind k Hk. apply in_items in Hk.
    apply (in_map callOf) in Hk. exact Hk.
  - intros key Hin. destruct (Hcalls _ Hin) as (kind & k & _ & Heq).
    injection Heq as Hs _. destruct kind; cbn in Hs; try discriminate.
    destruct (negb _); discriminate.
  - intros Hgone. unfold Fuzz.stillPresent.
    rewrite filter_none; [reflexivity|].
    intros [kind k] Hin. unfold Fuzz.probe. cbn [fst snd].
    rewrite verdict_gone; [reflexivity|]. apply Hgone, in_items, Hin.
Qed.

(** C4.  In a graph all of whose resources answer not found, except one
    backend service that still exists and whose description names
    [kube-system/default-http-backend]: with [SkipDefaultBackend] set the
    call returns nil; with [SkipDefaultBackend] unset, and with nil options,
    it returns the error that says resources still exist and prints the key
    of that backend service. *)
Theorem CheckResourceDeletion_default_backend
    (g : GCLB) (c : Cloud.Cloud) (kbs : Meta.Key)
    (bs : Compute.BackendService.t) :
  kbs ∈ dom (BackendService g) ->
  BackendServices_Get c (Some kbs) = ok bs ->
  Description.ServiceName
    (DescriptionFromString (Compute.BackendService.Description bs))
    = "kube-system/default-http-backend" ->
  (forall kind k, k ∈ keysOf g kind -> (kind, k) <> (KBackendService, kbs) ->
     isNotFound (response c kind k)) ->
  Go.value_of
    (CheckResourceDeletion g c (Some {| SkipDefaultBackend := true |}))
    = Val tt /\
  Go.value_of
    (CheckResourceDeletion g c (Some {| SkipDefaultBackend := false |}))
    = Fail (Errorf "resources still exist (%s)" [ArgString (KeyString kbs)]) /\
  Go.value_of (CheckResourceDeletion g c None)
    = Fail (Errorf "resources still exist (%s)" [ArgString (KeyString kbs)]).
Proof.
  intros Hkbs Hget Hdesc Hgone.
  assert (Hresp : response c KBackendService kbs = ok (Some bs)).
  { unfold response. rewrite Hget. reflexivity. }
  assert (Hfound : forall kind k, k ∈ keysOf g kind ->
            foundOrNotFound (response c kind k)).
  { intros kind k Hk.
    destruct (decide ((kind, k) = (KBackendService, kbs))) as [[= -> ->]|Hne].
    - rewrite Hresp. exact I.
    - destruct (Hgone kind k Hk Hne) as [m ->]. cbn. eauto. }
  assert (Hothers : forall options item, In item (items g) ->
            item <> (KBackendService, kbs) ->
            isPresent (probe c options item) = false).
  { intros options [kind k] Hin Hne. unfold Fuzz.probe. cbn [fst snd].
    rewrite verdict_gone; [reflexivity|].
    apply Hgone; [apply in_items; exact Hin|exact Hne]. }
  assert (Hin : In (KBackendService, kbs) (items g)).
  { apply in_items. exact Hkbs. }
  assert (Hskip : forall options,
            probe c options (KBackendService, kbs) =
            if match options with
               | Some o => SkipDefaultBackend o
               | None => false
               end then Skipped else Present).
  { intros options. unfold Fuzz.probe. cbn [fst snd]. rewrite Hresp. cbn.
    unfold Fuzz.skipsDefaultBackend. rewrite Hdesc.
    destruct options as [[[]]|]; reflexivity. }
  assert (Hleft : forall options,
            match options with
            | Some o => SkipDefaultBackend o
            | None => false
            end = false ->
            stillPresent c options (items g) = [kbs]).
  { intros options Hopt. unfold Fuzz.stillPresent.
    rewrite (filter_only _ (KBackendService, kbs)); auto using NoDup_items.
    rewrite Hskip, Hopt. reflexivity. }
  repeat split.
  - rewrite (CheckResourceDeletion_clean _ _ _ (all_clean g c _ Hfound)).
    cbn [Go.value_of snd]. unfold Fuzz.stillPresent.
    rewrite filter_none; [reflexivity|].
    intros item Hitem.
    destruct (decide (item = (KBackendService, kbs))) as [->|Hne].
    + rewrite Hskip. reflexivity.
    + apply Hothers; assumption.
  - rewrite (CheckResourceDeletion_clean _ _ _ (all_clean g c _ Hfound)).
    cbn [Go.value_of snd]. rewrite Hleft by reflexivity. reflexivity.
  - rewrite (CheckResourceDeletion_clean _ _ _ (all_clean g c _ Hfound)).
    cbn [Go.value_of snd]. rewrite Hleft by reflexivity. reflexivity.
Qed.

End DeletionProperties.

(** *** The deletion check on the sample graphs *)

Lemma mapOrder_spec (V : Type) (m : gmap Meta.Key V) :
  Samples.mapOrder V m ≡ₚ (map_to_list m).*1.
Proof. reflexivity. Qed.

Lemma cloud_gone_answers (kind : Fuzz.Kind) (k : Meta.Key) :
  Fuzz.isNotFound (Fuzz.response Samples.cloud_gone kind k).
Proof.
  exists "not found". destruct kind; cbn; try reflexivity.
  destruct (negb _); reflexivity.
Qed.

Lemma cloud_default_backend_answers (kind : Fuzz.Kind) (k : Meta.Key) :
  (kind, k) <> (Fuzz.KBackendService, Meta.GlobalKey "be-default") ->
  Fuzz.isNotFound (Fuzz.response Samples.cloud_default_backend kind k).
Proof.
  intros Hne. exists "not found". destruct kind; cbn; try reflexivity.
  - destruct (negb _); reflexivity.
  - rewrite bool_decide_eq_false_2; [reflexivity|]. congruence.
Qed.


(** C3, as the specification states it, fails: the graph records an instance
    group, and the call issues no Get for it. *)
Lemma CheckResourceDeletion_no_instance_group_get :
  ~ Fuzz.getsEveryResource Samples.gclb_full
      (Go.trace_of
         (Fuzz.CheckResourceDeletion Samples.keyString
            Samples.descriptionFromString Samples.mapOrder
            Samples.gclb_full Samples.cloud_gone None)).
Proof.
  intros [_ H].
  specialize (H (Meta.ZonalKey "ig-1" "us-central1-a")).
  assert (Hin : Meta.ZonalKey "ig-1" "us-central1-a"
                  ∈ dom (Fuzz.InstanceGroup Samples.gclb_full)).
  { apply elem_of_dom. eexists. reflexivity. }
  specialize (H Hin). vm_compute in H.
  repeat (destruct H as [H|H]; [discriminate H|]). exact H.
Qed.


(** The graph of which nothing is left. *)
Lemma CheckResourceDeletion_gets_witness :
  (forall (V : Type) (m : gmap Meta.Key V),
     Samples.mapOrder V m ≡ₚ (map_to_list m).*1) /\
  (forall kind k, k ∈ Fuzz.keysOf Samples.gclb_full kind ->
     Fuzz.foundOrNotFound (Fuzz.response Samples.cloud_gone kind k)) /\
  In (Cloud.Get Cloud.BetaNetworkEndpointGroups
        (Some (Meta.ZonalKey "neg-1" "us-central1-a")))
     (Go.trace_of
        (Fuzz.CheckResourceDeletion Samples.keyString
           Samples.descriptionFromString Samples.mapOrder
           Samples.gclb_full Samples.cloud_gone None)) /\
  Go.value_of
    (Fuzz.CheckResourceDeletion Samples.keyString
       Samples.descriptionFromString Samples.mapOrder
       Samples.gclb_full Samples.cloud_gone None) = Go.Val tt.
Proof.
  assert (Hfound : forall kind k, k ∈ Fuzz.keysOf Samples.gclb_full kind ->
            Fuzz.foundOrNotFound (Fuzz.response Samples.cloud_gone kind k)).
  { intros kind k _. destruct (cloud_gone_answers kind k) as [m ->].
    exists m. reflexivity. }
  split; [exact mapOrder_spec|]. split; [exact Hfound|].
  destruct (CheckResourceDeletion_gets Samples.keyString
              Samples.descriptionFromString Samples.mapOrder mapOrder_spec
              Samples.gclb_full Samples.cloud_gone None Hfound)
    as (Hget & _ & _ & Hnil).
  split.
  - apply (Hget Fuzz.KNetworkEndpointGroup).
    apply elem_of_dom. eexists. reflexivity.
  - apply Hnil. intros kind k _. apply cloud_gone_answers.
Defined.

(** The graph in which only the default backend service is left, checked
    with and without [SkipDefaultBackend]. *)
Lemma CheckResourceDeletion_default_backend_witness :
  (forall (V : Type) (m : gmap Meta.Key V),
     Samples.mapOrder V m ≡ₚ (map_to_list m).*1) /\
  Meta.GlobalKey "be-default" ∈ dom (Fuzz.BackendService Samples.gclb_full) /\
  Cloud.BackendServices_Get Samples.cloud_default_backend
    (Some (Meta.GlobalKey "be-default")) = Go.ok Samples.bs_default /\
  Go.value_of
    (Fuzz.CheckResourceDeletion Samples.keyString
       Samples.descriptionFromString Samples.mapOrder
       Samples.gclb_full Samples.cloud_default_backend
       (Some {| Fuzz.SkipDefaultBackend := true |})) = Go.Val tt /\
  Go.value_of
    (Fuzz.CheckResourceDeletion Samples.keyString
       Samples.descriptionFromString Samples.mapOrder
       Samples.gclb_full Samples.cloud_default_backend
       (Some {| Fuzz.SkipDefaultBackend := false |}))
  = Go.Fail (Go.Errorf "resources still exist (%s)"
               [Go.ArgString
                  (Samples.keyString (Meta.GlobalKey "be-default"))]) /\
  Go.value_of
    (Fuzz.CheckResourceDeletion Samples.keyString
       Samples.descriptionFromString Samples.mapOrder
       Samples.gclb_full Samples.cloud_default_backend None)
  = Go.Fail (Go.Errorf "resources still exist (%s)"
               [Go.ArgString
                  (Samples.keyString (Meta.GlobalKey "be-default"))]).
Proof.
  assert (Hin : Meta.GlobalKey "be-default"
                  ∈ dom (Fuzz.BackendService Samples.gclb_full)).
  { apply elem_of_dom. eexists. reflexivity. }
  split; [exact mapOrder_spec|]. split; [exact Hin|].
  split; [reflexivity|].
  apply (CheckResourceDeletion_default_backend Samples.keyString
           Samples.descriptionFromString Samples.mapOrder mapOrder_spec
           Samples.gclb_full Samples.cloud_default_backend
           (Meta.GlobalKey "be-default") Samples.bs_default Hin).
  - reflexivity.
  - reflexivity.
  - intros kind k _ Hne. apply cloud_default_backend_answers, Hne.
Defined.

(** ** [GCLBForVIP] *)

Section DiscoveryProperties.

Import Go Cloud Fuzz.

Variable ParseResourceURL : string -> result ResourceID.
Variable FeatureValidator : Type.

Local Abbreviation GCLBForVIP := (Fuzz.GCLBForVIP ParseResourceURL FeatureValidator).
Local Abbreviation visitForwardingRule :=
  (Fuzz.visitForwardingRule ParseResourceURL FeatureValidator).
Local Abbreviation checkUrlMapReference :=
  (Fuzz.checkUrlMapReference ParseResourceURL).
Local Abbreviation referencedUrlMapKey := (Fuzz.referencedUrlMapKey ParseResourceURL).
Local Abbreviation targetProxyUrlMap := (Fuzz.targetProxyUrlMap ParseResourceURL).
Local Abbreviation proxyCase := (Fuzz.proxyCase ParseResourceURL).

Lemma value_of_mbind {Ev A B : Type} (m : M Ev A) (f : A -> M Ev B) :
  value_of (mbind m f) =
  match value_of m with
  | Val a => value_of (f a)
  | Fail e => Fail e
  | Panic => Panic
  end.
Proof.
  destruct m as [t [a|e|]]; cbn; try reflexivity.
  destruct (f a); reflexivity.
Qed.

(** The comparison of URL map keys: its result when the link parses to a
    key. *)
Lemma checkUrlMapReference_resolved (kind urlMap : string)
    (urlMapKey : option Meta.Key) (urlMapResID : ResourceID) (k : Meta.Key) :
  ParseResourceURL urlMap = ok urlMapResID ->
  Key urlMapResID = Some k ->
  checkUrlMapReference kind urlMap urlMapKey =
  ([], match urlMapKey with
       | None => Val (Some k)
       | Some a =>
           if bool_decide (a = k) then Val (Some a)
           else Fail (referencesNotSame kind a k)
       end).
Proof.
  intros Hp Hk. unfold Fuzz.checkUrlMapReference. rewrite Hp. cbn.
  destruct urlMapKey as [a|]; rewrite Hk; cbn.
  - destruct (bool_decide (a = k)); reflexivity.
  - rewrite bool_decide_eq_true_2 by reflexivity. reflexivity.
Qed.

(** The comparison goes on only when the link parses to the key kept. *)
Lemma checkUrlMapReference_Val (kind urlMap : string)
    (urlMapKey urlMapKey' : option Meta.Key) (tr : list Call) :
  checkUrlMapReference kind urlMap urlMapKey = (tr, Val urlMapKey') ->
  exists urlMapResID k,
    ParseResourceURL urlMap = ok urlMapResID /\
    Key urlMapResID = Some k /\
    urlMapKey' = Some k /\
    (urlMapKey = None \/ urlMapKey = Some k).
Proof.
  unfold Fuzz.checkUrlMapReference.
  destruct (ParseResourceURL urlMap) as [id|e]; cbn; [|discriminate].
  destruct (Key id) as [k|] eqn:Hk.
  - destruct urlMapKey as [a|]; cbn.
    + destruct (bool_decide (a = k)) eqn:Hd; cbn; [|discriminate].
      apply bool_decide_eq_true in Hd. subst a.
      intros [= <- <-]. exists id, k. auto.
    + rewrite bool_decide_eq_true_2 by reflexivity. cbn.
      intros [= <- <-]. exists id, k. auto.
  - destruct urlMapKey as [a|]; cbn; discriminate.
Qed.

Lemma proxyCase_Val {P : Type} (s : Service)
    (getf : option Meta.Key -> result P) (urlMapOf : P -> string)
    (kind : string) (key urlMapKey urlMapKey' : option Meta.Key)
    (store : Meta.Key -> P -> GCLB) (tr : list Call) (gclb' : GCLB) :
  proxyCase s getf urlMapOf kind key urlMapKey store
    = (tr, Val (gclb', urlMapKey')) ->
  exists p k0 urlMapResID k,
    getf key = ok p /\ key = Some k0 /\
    ParseResourceURL (urlMapOf p) = ok urlMapResID /\
    Key urlMapResID = Some k /\
    urlMapKey' = Some k /\
    (urlMapKey = None \/ urlMapKey = Some k).
Proof.
  unfold Fuzz.proxyCase, get. cbn.
  destruct (getf key) as [p|e]; cbn; [|discriminate].
  destruct key as [k0|]; cbn; [|discriminate].
  destruct (checkUrlMapReference kind (urlMapOf p) urlMapKey)
    as [t [v|e|]] eqn:Hc; cbn; try discriminate.
  intros [= _ _ <-].
  destruct (checkUrlMapReference_Val _ _ _ _ _ Hc) as (id & k & H1 & H2 & H3 & H4).
  exists p, k0, id, k. repeat split; auto.
Qed.

Lemma proxyCase_resolved {P : Type} (s : Service)
    (getf : option Meta.Key -> result P) (urlMapOf : P -> string)
    (kind : string) (key urlMapKey : option Meta.Key)
    (store : Meta.Key -> P -> GCLB)
    (p : P) (k0 k : Meta.Key) (urlMapResID : ResourceID) :
  getf key = ok p -> key = Some k0 ->
  ParseResourceURL (urlMapOf p) = ok urlMapResID ->
  Key urlMapResID = Some k ->
  proxyCase s getf urlMapOf kind key urlMapKey store =
  ([Get s key],
   match urlMapKey with
   | None => Val (store k0 p, Some k)
   | Some a =>
       if bool_decide (a = k) then Val (store k0 p, Some a)
       else Fail (referencesNotSame kind a k)
   end).
Proof.
  intros Hget -> Hparse Hk. unfold Fuzz.proxyCase, get. cbn. rewrite Hget. cbn.
  rewrite (checkUrlMapReference_resolved _ _ _ _ _ Hparse Hk).
  destruct urlMapKey as [a|]; cbn; [|reflexivity].
  destruct (bool_decide (a = k)); reflexivity.
Qed.

(** The loop body, with the version branches (which are never taken)
    removed. *)
Lemma visitForwardingRule_unfold (c : Cloud.Cloud)
    (validators : list FeatureValidator) (gclb : GCLB)
    (urlMapKey : option Meta.Key) (gfr : Compute.ForwardingRule.t) :
  visitForwardingRule c validators (gclb, urlMapKey) gfr =
  let gclb1 :=
    upd_ForwardingRule
      (insert (Meta.GlobalKey (Compute.ForwardingRule.Name gfr))
         (mkUnion (Some gfr) None None)) gclb in
  match ParseResourceURL (Compute.ForwardingRule.Target gfr) with
  | err e => ([], Fail e)
  | ok resID =>
      if String.eqb (Resource resID) "targetHttpProxies" then
        proxyCase TargetHttpProxies (TargetHttpProxies_Get c)
          Compute.TargetHttpProxy.UrlMap "targetHttpProxy" (Key resID)
          urlMapKey
          (fun k p =>
             upd_TargetHTTPProxy (insert k (mkUnion (Some p) None None)) gclb1)
      else if String.eqb (Resource resID) "targetHttpsProxies" then
        proxyCase TargetHttpsProxies (TargetHttpsProxies_Get c)
          Compute.TargetHttpsProxy.UrlMap "targetHttpsProxy" (Key resID)
          urlMapKey
          (fun k p =>
             upd_TargetHTTPSProxy (insert k (mkUnion (Some p) None None)) gclb1)
      else fail (Errorf "unhandled resource %q" [ArgString (Resource resID)])
  end.
Proof.
  unfold Fuzz.visitForwardingRule, Fuzz.hasAlphaResource, Fuzz.hasBetaResource.
  cbn [orb]. rewrite !mbind_mret_l.
  destruct (ParseResourceURL (Compute.ForwardingRule.Target gfr)) as [resID|e];
    cbn [try]; [rewrite mbind_mret_l|reflexivity].
  reflexivity.
Qed.

Lemma visitForwardingRule_Val (c : Cloud.Cloud)
    (validators : list FeatureValidator) (gclb gclb' : GCLB)
    (urlMapKey urlMapKey' : option Meta.Key)
    (gfr : Compute.ForwardingRule.t) (tr : list Call) :
  visitForwardingRule c validators (gclb, urlMapKey) gfr
    = (tr, Val (gclb', urlMapKey')) ->
  exists k,
    urlMapKey' = Some k /\
    referencedUrlMapKey c gfr = Some k /\
    (urlMapKey = None \/ urlMapKey = Some k).
Proof.
  rewrite visitForwardingRule_unfold. cbv zeta.
  unfold Fuzz.referencedUrlMapKey, Fuzz.targetProxyUrlMap.
  destruct (ParseResourceURL (Compute.ForwardingRule.Target gfr)) as [resID|e];
    [|discriminate].
  destruct (String.eqb (Resource resID) "targetHttpProxies");
    [|destruct (String.eqb (Resource resID) "targetHttpsProxies");
      [|discriminate]];
    intros H; apply proxyCase_Val in H;
    destruct H as (p & k0 & id & k & H1 & H2 & H3 & H4 & H5 & H6);
    exists k; rewrite H2 in H1 |- *; rewrite H1, H3; repeat split; auto.
Qed.

(** A rule whose target proxy references the key [k]: the loop body goes on
    with [k] kept, or returns the structural error. *)
Lemma visitForwardingRule_resolved (c : Cloud.Cloud)
    (validators : list FeatureValidator) (gclb : GCLB)
    (urlMapKey : option Meta.Key) (gfr : Compute.ForwardingRule.t)
    (k : Meta.Key) :
  referencedUrlMapKey c gfr = Some k ->
  exists tr gclb' kind,
    visitForwardingRule c validators (gclb, urlMapKey) gfr =
    (tr,
     match urlMapKey with
     | None => Val (gclb', Some k)
     | Some a =>
         if bool_decide (a = k) then Val (gclb', Some a)
         else Fail (referencesNotSame kind a k)
     end).
Proof.
  rewrite visitForwardingRule_unfold. cbv zeta.
  unfold Fuzz.referencedUrlMapKey, Fuzz.targetProxyUrlMap.
  destruct (ParseResourceURL (Compute.ForwardingRule.Target gfr)) as [resID|e];
    [|discriminate].
  destruct (Key resID) as [k0|] eqn:Hk0; [|discriminate].
  destruct (String.eqb (Resource resID) "targetHttpProxies").
  - destruct (TargetHttpProxies_Get c (Some k0)) as [p|e] eqn:Hget;
      [|discriminate].
    destruct (ParseResourceURL (Compute.TargetHttpProxy.UrlMap p)) as [id|e]
      eqn:Hp; [|discriminate].
    intros Hk. eexists _, _, _.
    apply (proxyCase_resolved _ _ _ _ _ _ _ p k0 k id); auto.
  - destruct (String.eqb (Resource resID) "targetHttpsProxies"); [|discriminate].
    destruct (TargetHttpsProxies_Get c (Some k0)) as [p|e] eqn:Hget;
      [|discriminate].
    destruct (ParseResourceURL (Compute.TargetHttpsProxy.UrlMap p)) as [id|e]
      eqn:Hp; [|discriminate].
    intros Hk. eexists _, _, _.
    apply (proxyCase_resolved _ _ _ _ _ _ _ p k0 k id); auto.
Qed.

(** The invariant of the loop over the forwarding rules: when the loop runs
    to its end, every rule's target proxy references the key kept in
    [urlMapKey], and a key kept before the loop is still the one kept. *)
Lemma forwardingRules_loop_Val (c : Cloud.Cloud)
    (validators : list FeatureValidator)
    (gfrs : list Compute.ForwardingRule.t) (gclb gclb' : GCLB)
    (urlMapKey urlMapKey' : option Meta.Key) (tr : list Call) :
  range gfrs (visitForwardingRule c validators) (gclb, urlMapKey)
    = (tr, Val (gclb', urlMapKey')) ->
  (forall gfr, In gfr gfrs ->
     is_Some urlMapKey' /\ referencedUrlMapKey c gfr = urlMapKey') /\
  (forall k, urlMapKey = Some k -> urlMapKey' = Some k).
Proof.
  revert gclb urlMapKey tr.
  induction gfrs as [|gfr rest IH]; intros gclb urlMapKey tr.
  - cbn. intros [= _ _ <-]. split; [intros gfr []|auto].
  - cbn [range].
    destruct (visitForwardingRule c validators (gclb, urlMapKey) gfr)
      as [t1 [[gclb1 urlMapKey1]|e|]] eqn:Hv; cbn [mbind]; try discriminate.
    destruct (range rest (visitForwardingRule c validators) (gclb1, urlMapKey1))
      as [t2 out] eqn:Hrest.
    intros [= _ ->].
    destruct (visitForwardingRule_Val _ _ _ _ _ _ _ _ Hv) as (k & -> & Href & Hk).
    destruct (IH _ _ _ Hrest) as [Hall Hkept].
    specialize (Hkept k eq_refl). subst urlMapKey'.
    split.
    + intros r [<-|Hin]; [split; [eauto|exact Href]|exact (Hall r Hin)].
    + intros a Ha. destruct Hk as [Hk|Hk]; congruence.
Qed.

(** When every rule's target proxy references some URL map key, the loop
    either runs to its end or returns the structural error. *)
Lemma forwardingRules_loop_resolved (c : Cloud.Cloud)
    (validators : list FeatureValidator)
    (gfrs : list Compute.ForwardingRule.t) (gclb : GCLB)
    (urlMapKey : option Meta.Key) :
  (forall gfr, In gfr gfrs -> is_Some (referencedUrlMapKey c gfr)) ->
  (exists st,
     value_of (range gfrs (visitForwardingRule c validators) (gclb, urlMapKey))
       = Val st) \/
  (exists e,
     value_of (range gfrs (visitForwardingRule c validators) (gclb, urlMapKey))
       = Fail e /\ isStructural e).
Proof.
  revert gclb urlMapKey.
  induction gfrs as [|gfr rest IH]; intros gclb urlMapKey Hall.
  - left. eexists. reflexivity.
  - destruct (Hall gfr (or_introl eq_refl)) as [k Hk].
    destruct (visitForwardingRule_resolved c validators gclb urlMapKey gfr k Hk)
      as (t1 & gclb1 & kind & Hv).
    cbn [range]. rewrite value_of_mbind, Hv. cbn [value_of snd].
    assert (Hrest : forall r, In r rest -> is_Some (referencedUrlMapKey c r)).
    { intros r Hr. apply Hall. right. exact Hr. }
    destruct urlMapKey as [a|].
    + destruct (bool_decide (a = k)) eqn:Hd.
      * apply IH. exact Hrest.
      * right. eexists. split; [reflexivity|].
        apply bool_decide_eq_false in Hd. exists kind, a, k. auto.
    + apply IH. exact Hrest.
Qed.

(** While the rules all reference one key, the loop goes on and keeps that
    key. *)
Lemma forwardingRules_loop_same (c : Cloud.Cloud)
    (validators : list FeatureValidator)
    (gfrs : list Compute.ForwardingRule.t) (gclb : GCLB)
    (urlMapKey : option Meta.Key) (k : Meta.Key) :
  (forall gfr, In gfr gfrs -> referencedUrlMapKey c gfr = Some k) ->
  urlMapKey = None \/ urlMapKey = Some k ->
  exists tr gclb',
    range gfrs (visitForwardingRule c validators) (gclb, urlMapKey) =
    (tr, Val (gclb', match gfrs with
                     | [] => urlMapKey
                     | _ :: _ => Some k
                     end)).
Proof.
  revert gclb urlMapKey.
  induction gfrs as [|gfr rest IH]; intros gclb urlMapKey Hall Hkey.
  - eexists _, _. reflexivity.
  - destruct (visitForwardingRule_resolved c validators gclb urlMapKey gfr k
                (Hall gfr (or_introl eq_refl))) as (t1 & gclb1 & kind & Hv).
    assert (Hv' : visitForwardingRule c validators (gclb, urlMapKey) gfr
                  = (t1, Val (gclb1, Some k))).
    { rewrite Hv. destruct Hkey as [->| ->]; [reflexivity|].
      rewrite bool_decide_eq_true_2 by reflexivity. reflexivity. }
    destruct (IH gclb1 (Some k)) as (t2 & gclb2 & Hrest).
    { intros r Hr. apply Hall. right. exact Hr. }
    { right. reflexivity. }
    exists (t1 ++ t2), gclb2. cbn [range]. rewrite Hv'. cbn [mbind].
    rewrite Hrest. destruct rest; reflexivity.
Qed.

(** Discovery as far as the loop over the forwarding rules. *)
Lemma GCLBForVIP_loop (c : Cloud.Cloud) (vip : string)
    (validators : list FeatureValidator)
    (allGFRs : list Compute.ForwardingRule.t) :
  GlobalForwardingRules_List c = ok allGFRs ->
  match value_of (range (rulesOfVIP vip allGFRs)
                    (visitForwardingRule c validators) (NewGCLB vip, None)) with
  | Val _ => True
  | Fail e => value_of (GCLBForVIP c vip validators) = Fail e
  | Panic => value_of (GCLBForVIP c vip validators) = Panic
  end.
Proof.
  intros Hlist.
  destruct (value_of (range (rulesOfVIP vip allGFRs)
              (visitForwardingRule c validators) (NewGCLB vip, None)))
    as [st|e|] eqn:Hv; [exact I| |];
    unfold Fuzz.GCLBForVIP, list_, Fuzz.getGclbForwardingRules,
      Fuzz.getGclbTargetProxies, Fuzz.getGclbUrlMaps,
      Fuzz.getGclbBackendServices;
    rewrite Hlist, value_of_mbind; cbn [value_of snd];
    rewrite value_of_mbind; cbn [try]; unfold mret at 1; cbn [value_of snd];
    rewrite value_of_mbind; fold (rulesOfVIP vip allGFRs);
    rewrite Hv; reflexivity.
Qed.

(** C1.  When the forwarding rules listed for the VIP include two whose
    target proxies reference two distinct URL map keys, [GCLBForVIP] returns
    no graph, whatever the validators; when every rule of the VIP resolves
    to a URL map key, what it returns is the structural error that the
    references are not the same; and when the rules visited before the
    second of the two all reference the key of the first, that error is the
    one that names the two keys. *)
Theorem GCLBForVIP_distinct_url_maps
    (c : Cloud.Cloud) (vip : string) (validators : list FeatureValidator)
    (allGFRs : list Compute.ForwardingRule.t)
    (gfr1 gfr2 : Compute.ForwardingRule.t) (k1 k2 : Meta.Key) :
  GlobalForwardingRules_List c = ok allGFRs ->
  In gfr1 (rulesOfVIP vip allGFRs) ->
  In gfr2 (rulesOfVIP vip allGFRs) ->
  referencedUrlMapKey c gfr1 = Some k1 ->
  referencedUrlMapKey c gfr2 = Some k2 ->
  k1 <> k2 ->
  (forall gclb, value_of (GCLBForVIP c vip validators) <> Val gclb) /\
  ((forall gfr, In gfr (rulesOfVIP vip allGFRs) ->
      is_Some (referencedUrlMapKey c gfr)) ->
   exists e, value_of (GCLBForVIP c vip validators) = Fail e /\ isStructural e) /\
  (forall pre post,
     rulesOfVIP vip allGFRs = pre ++ gfr2 :: post ->
     pre <> [] ->
     (forall gfr, In gfr pre -> referencedUrlMapKey c gfr = Some k1) ->
     exists kind,
       value_of (GCLBForVIP c vip validators)
       = Fail (referencesNotSame kind k1 k2)).
Proof.
  intros Hlist Hin1 Hin2 Hk1 Hk2 Hne.
  pose proof (GCLBForVIP_loop c vip validators allGFRs Hlist) as Hloop.
  assert (Hnot : forall st,
            value_of (range (rulesOfVIP vip allGFRs)
                        (visitForwardingRule c validators) (NewGCLB vip, None))
            <> Val st).
  { intros [gclb' urlMapKey'] Hval.
    destruct (range (rulesOfVIP vip allGFRs) (visitForwardingRule c validators)
                (NewGCLB vip, None)) as [tr out] eqn:Hrange.
    cbn in Hval. subst out.
    destruct (forwardingRules_loop_Val _ _ _ _ _ _ _ _ Hrange) as [Hall _].
    destruct (Hall _ Hin1) as [_ H1]. destruct (Hall _ Hin2) as [_ H2].
    congruence. }
  split.
  - intros gclb Hval.
    destruct (value_of (range (rulesOfVIP vip allGFRs)
                (visitForwardingRule c validators) (NewGCLB vip, None)))
      as [st|e|] eqn:Hv.
    + exact (Hnot st eq_refl).
    + congruence.
    + congruence.
  - split.
    + intros Hall.
      destruct (forwardingRules_loop_resolved c validators _ (NewGCLB vip) None
                  Hall) as [[st Hst]|(e & He & Hstruct)].
      * exfalso. exact (Hnot st Hst).
      * rewrite He in Hloop. exists e. split; assumption.
    + intros pre post Hsplit Hpre Hsame.
      destruct (forwardingRules_loop_same c validators pre (NewGCLB vip) None k1
                  Hsame (or_introl eq_refl)) as (t1 & gclb1 & Hrun).
      destruct (visitForwardingRule_resolved c validators gclb1 (Some k1) gfr2
                  k2 Hk2) as (t2 & gclb2 & kind & Hv).
      rewrite bool_decide_eq_false_2 in Hv by exact Hne.
      exists kind.
      assert (Hval : value_of (range (rulesOfVIP vip allGFRs)
                                 (visitForwardingRule c validators)
                                 (NewGCLB vip, None))
                     = Fail (referencesNotSame kind k1 k2)).
      { rewrite Hsplit, range_app, value_of_mbind, Hrun.
        cbn [value_of snd range]. rewrite value_of_mbind.
        destruct pre as [|r pre']; [contradiction|].
        rewrite Hv. reflexivity. }
      rewrite Hval in Hloop. exact Hloop.
Qed.

End DiscoveryProperties.

(** Two forwarding rules of one VIP whose proxies reference um-1 and um-2. *)
Lemma GCLBForVIP_distinct_url_maps_witness :
  Cloud.GlobalForwardingRules_List Samples.cloud_two_url_maps
    = Go.ok [Samples.fr_http; Samples.fr_other; Samples.fr_https] /\
  In Samples.fr_http
     (Fuzz.rulesOfVIP "203.0.113.7"
        [Samples.fr_http; Samples.fr_other; Samples.fr_https]) /\
  In Samples.fr_https
     (Fuzz.rulesOfVIP "203.0.113.7"
        [Samples.fr_http; Samples.fr_other; Samples.fr_https]) /\
  Fuzz.referencedUrlMapKey Samples.parseResourceURL Samples.cloud_two_url_maps
    Samples.fr_http = Some (Meta.GlobalKey "um-1") /\
  Fuzz.referencedUrlMapKey Samples.parseResourceURL Samples.cloud_two_url_maps
    Samples.fr_https = Some (Meta.GlobalKey "um-2") /\
  Meta.GlobalKey "um-1" <> Meta.GlobalKey "um-2" /\
  (forall gclb,
     Go.value_of
       (Fuzz.GCLBForVIP Samples.parseResourceURL unit
          Samples.cloud_two_url_maps "203.0.113.7" [])
     <> Go.Val gclb) /\
  exists e,
    Go.value_of
      (Fuzz.GCLBForVIP Samples.parseResourceURL unit
         Samples.cloud_two_url_maps "203.0.113.7" []) = Go.Fail e /\
    Fuzz.isStructural e.
Proof.
  assert (H1 : In Samples.fr_http
                 (Fuzz.rulesOfVIP "203.0.113.7"
                    [Samples.fr_http; Samples.fr_other; Samples.fr_https])).
  { left. reflexivity. }
  assert (H2 : In Samples.fr_https
                 (Fuzz.rulesOfVIP "203.0.113.7"
                    [Samples.fr_http; Samples.fr_other; Samples.fr_https])).
  { right. left. reflexivity. }
  assert (Hne : Meta.GlobalKey "um-1" <> Meta.GlobalKey "um-2").
  { discriminate. }
  destruct (GCLBForVIP_distinct_url_maps Samples.parseResourceURL unit
              Samples.cloud_two_url_maps "203.0.113.7" []
              [Samples.fr_http; Samples.fr_other; Samples.fr_https]
              Samples.fr_http Samples.fr_https
              (Meta.GlobalKey "um-1") (Meta.GlobalKey "um-2")
              eq_refl H1 H2 eq_refl eq_refl Hne) as (Hno & Hstruct & _).
  do 6 (split; [first [reflexivity|assumption]|]).
  split; [exact Hno|].
  apply Hstruct. intros gfr Hin.
  destruct Hin as [<-|[<-|[]]]; eexists; reflexivity.
Defined.

(** ** Conversion between the composite and the wire types *)

Section ConversionLemmas.

Import Go Converter.

Lemma Value_ind' (P : Value -> Prop) :
  (forall t, P (Scalar t)) ->
  (forall fs force, Forall (fun nv => P (snd nv)) fs -> P (Struct fs force)) ->
  forall v, P v.
Proof.
  intros Hs Hst. fix IH 1. intros [t|fs force]; [apply Hs|].
  apply Hst. induction fs as [|[n v] rest IHfs]; constructor;
    [apply IH|exact IHfs].
Qed.

Lemma Schema_ind' (P : Schema -> Prop) :
  P SScalar ->
  (forall ss, Forall (fun ns => P (snd ns)) ss -> P (SStruct ss)) ->
  forall s, P s.
Proof.
  intros Hs Hst. fix IH 1. intros [|ss]; [apply Hs|].
  apply Hst. induction ss as [|[n s] rest IHss]; constructor;
    [apply IH|exact IHss].
Qed.

Lemma unmarshalMembers_app U ss l1 l2 :
  unmarshalMembers U ss (l1 ++ l2) =
  match unmarshalMembers U ss l1 with
  | ok a =>
      match unmarshalMembers U ss l2 with
      | ok b => ok (a ++ b)
      | err e => err e
      end
  | err e => err e
  end.
Proof.
  induction l1 as [|[n j] rest IH]; cbn.
  - destruct (unmarshalMembers U ss l2); reflexivity.
  - destruct (assoc n ss) as [s|]; [|exact IH].
    destruct j; try exact IH;
      (destruct (U s _); [|reflexivity]; rewrite IH;
       destruct (unmarshalMembers U ss rest); [|reflexivity];
       destruct (unmarshalMembers U ss l2); reflexivity).
Qed.

Lemma unmarshalMembers_zeros U ss (names : list string) :
  unmarshalMembers U ss (map (fun name => (jsonName name, JZero)) names) = ok [].
Proof.
  induction names as [|n rest IH]; [reflexivity|].
  cbn. destruct (assoc (jsonName n) ss); exact IH.
Qed.

Lemma Unmarshal_Marshal (S : Schema) (x : Value) :
  conforms false S x = true -> Unmarshal S (Marshal x) = ok (project S x).
Proof.
  revert S. induction x as [t|fs force IH] using Value_ind'; intros S.
  - destruct S; [reflexivity|discriminate].
  - destruct S as [|ss]; [discriminate|]. cbn [conforms Marshal Unmarshal project].
    intros Hc. rewrite unmarshalMembers_app, unmarshalMembers_zeros.
    assert (Hfs : unmarshalMembers Unmarshal ss
                    (map (fun nv => (fst nv, Marshal (snd nv))) fs)
                  = ok (projectFields project ss fs)).
    { clear force. induction fs as [|[n v] rest IHfs]; [reflexivity|].
      cbn in Hc |- *. apply andb_prop in Hc. destruct Hc as [Hv Hrest].
      inversion IH as [|? ? IHv IHrest]; subst. cbn in IHv.
      destruct (assoc n ss) as [s|]; [|exact (IHfs IHrest Hrest)].
      specialize (IHv s Hv). rewrite (IHfs IHrest Hrest).
      destruct (Marshal v) eqn:Hm.
      - rewrite IHv. reflexivity.
      - destruct v; discriminate Hm.
      - rewrite IHv. reflexivity. }
    rewrite Hfs, app_nil_r. reflexivity.
Qed.

Lemma project_clean (S : Schema) (x : Value) : project S (clean x) = project S x.
Proof.
  revert S. induction x as [t|fs force IH] using Value_ind'; intros S;
    [reflexivity|].
  destruct S as [|ss]; [reflexivity|]. cbn. f_equal.
  induction fs as [|[n v] rest IHfs]; [reflexivity|].
  inversion IH as [|? ? IHv IHrest]; subst. cbn in IHv |- *.
  destruct (assoc n ss) as [s|]; rewrite ?IHv, (IHfs IHrest); reflexivity.
Qed.

Lemma conforms_clean (strict : bool) (S : Schema) (x : Value) :
  conforms strict S (clean x) = conforms strict S x.
Proof.
  revert S. induction x as [t|fs force IH] using Value_ind'; intros S;
    [reflexivity|].
  destruct S as [|ss]; [reflexivity|]. cbn.
  induction fs as [|[n v] rest IHfs]; [reflexivity|].
  inversion IH as [|? ? IHv IHrest]; subst. cbn in IHv |- *.
  rewrite (IHfs IHrest). destruct (assoc n ss) as [s|]; rewrite ?IHv; reflexivity.
Qed.

Lemma clean_project (S : Schema) (x : Value) : clean (project S x) = project S x.
Proof.
  revert S. induction x as [t|fs force IH] using Value_ind'; intros S;
    [reflexivity|].
  destruct S as [|ss]; [reflexivity|]. cbn. f_equal.
  induction fs as [|[n v] rest IHfs]; [reflexivity|].
  inversion IH as [|? ? IHv IHrest]; subst. cbn in IHv |- *.
  destruct (assoc n ss) as [s|]; cbn; rewrite ?IHv, (IHfs IHrest); reflexivity.
Qed.

Lemma project_inhabitant (S : Schema) (x : Value) :
  conforms true S x = true -> project S x = clean x.
Proof.
  revert S. induction x as [t|fs force IH] using Value_ind'; intros S;
    [reflexivity|].
  destruct S as [|ss]; [discriminate|]. cbn. intros Hc. f_equal.
  induction fs as [|[n v] rest IHfs]; [reflexivity|].
  inversion IH as [|? ? IHv IHrest]; subst. cbn in IHv, Hc |- *.
  apply andb_prop in Hc. destruct Hc as [Hv Hrest].
  destruct (assoc n ss) as [s|]; [|discriminate].
  rewrite (IHv s Hv), (IHfs IHrest Hrest). reflexivity.
Qed.

Lemma project_inhabits (S : Schema) (x : Value) :
  conforms false S x = true -> conforms true S (project S x) = true.
Proof.
  revert S. induction x as [t|fs force IH] using Value_ind'; intros S.
  - destruct S; [reflexivity|discriminate].
  - destruct S as [|ss]; [discriminate|]. cbn.
    induction fs as [|[n v] rest IHfs]; [reflexivity|].
    inversion IH as [|? ? IHv IHrest]; subst. cbn in IHv |- *.
    intros Hc. apply andb_prop in Hc. destruct Hc as [Hv Hrest].
    destruct (assoc n ss) as [s|] eqn:Hn; [|exact (IHfs IHrest Hrest)].
    cbn. rewrite Hn, (IHv s Hv). exact (IHfs IHrest Hrest).
Qed.

Lemma subFields_assoc (Sub : Schema -> Schema -> bool)
    (ss ss' : list (string * Schema)) (n : string) (s' : Schema) :
  subFields Sub ss ss' = true -> assoc n ss' = Some s' ->
  exists s, assoc n ss = Some s /\ Sub s' s = true.
Proof.
  induction ss' as [|[m t] rest IH]; [discriminate|].
  cbn. intros Hsub Hn. apply andb_prop in Hsub. destruct Hsub as [Hm Hrest].
  destruct (String.eqb m n) eqn:Hmn.
  - apply String.eqb_eq in Hmn. subst m. injection Hn as <-.
    destruct (assoc n ss) as [s|]; [|discriminate]. eauto.
  - exact (IH Hrest Hn).
Qed.

Lemma conforms_true_sub (S' S : Schema) (x : Value) :
  subschema S' S = true -> conforms true S' x = true -> conforms true S x = true.
Proof.
  revert S' S. induction x as [t|fs force IH] using Value_ind'; intros S' S.
  - destruct S', S; cbn; congruence.
  - destruct S' as [|ss'], S as [|ss]; cbn; try congruence.
    intros Hsub. induction fs as [|[n v] rest IHfs]; [reflexivity|].
    inversion IH as [|? ? IHv IHrest]; subst. cbn in IHv |- *.
    intros Hc. apply andb_prop in Hc. destruct Hc as [Hv Hrest].
    rewrite (IHfs IHrest Hrest), andb_true_r.
    destruct (assoc n ss') as [s'|] eqn:Hn; [|discriminate].
    destruct (subFields_assoc _ _ _ _ _ Hsub Hn) as (s & -> & Hs).
    exact (IHv s' s Hs Hv).
Qed.

Lemma conforms_false_sub (S' S : Schema) (x : Value) :
  subschema S' S = true -> conforms false S x = true -> conforms false S' x = true.
Proof.
  revert S' S. induction x as [t|fs force IH] using Value_ind'; intros S' S.
  - destruct S', S; cbn; congruence.
  - destruct S' as [|ss'], S as [|ss]; cbn; try congruence.
    intros Hsub. induction fs as [|[n v] rest IHfs]; [reflexivity|].
    inversion IH as [|? ? IHv IHrest]; subst. cbn in IHv |- *.
    intros Hc. apply andb_prop in Hc. destruct Hc as [Hv Hrest].
    rewrite (IHfs IHrest Hrest), andb_true_r.
    destruct (assoc n ss') as [s'|] eqn:Hn; [|reflexivity].
    destruct (subFields_assoc _ _ _ _ _ Hsub Hn) as (s & Hs1 & Hs).
    rewrite Hs1 in Hv. exact (IHv s' s Hs Hv).
Qed.

Lemma conforms_strict_weaken (S : Schema) (x : Value) :
  conforms true S x = true -> conforms false S x = true.
Proof.
  revert S. induction x as [t|fs force IH] using Value_ind'; intros S;
    [auto|].
  destruct S as [|ss]; [discriminate|]. cbn.
  induction fs as [|[n v] rest IHfs]; [reflexivity|].
  inversion IH as [|? ? IHv IHrest]; subst. cbn in IHv |- *.
  intros Hc. apply andb_prop in Hc. destruct Hc as [Hv Hrest].
  rewrite (IHfs IHrest Hrest), andb_true_r.
  destruct (assoc n ss) as [s|]; [exact (IHv s Hv)|reflexivity].
Qed.

(** The members of a marshalled struct are unmarshalled to the projection of
    its fields. *)
Lemma unmarshalMembers_Marshal (ss : list (string * Schema))
    (fs : list (string * Value)) (force : list string) :
  conforms false (SStruct ss) (Struct fs force) = true ->
  exists ms,
    Marshal (Struct fs force) = JObject ms /\
    unmarshalMembers Unmarshal ss ms = ok (projectFields project ss fs).
Proof.
  intros Hc. pose proof (Unmarshal_Marshal (SStruct ss) _ Hc) as H.
  cbn [Marshal] in H |- *. eexists. split; [reflexivity|].
  cbn [Unmarshal project] in H.
  destruct (unmarshalMembers Unmarshal ss _) as [fields|e]; [|discriminate].
  injection H as ->. reflexivity.
Qed.

Lemma assoc_app {A : Type} (n : string) (l1 l2 : list (string * A)) :
  assoc n (l1 ++ l2) =
  match assoc n l1 with
  | Some a => Some a
  | None => assoc n l2
  end.
Proof.
  induction l1 as [|[m a] rest IH]; [reflexivity|].
  cbn. destruct (String.eqb m n); [reflexivity|exact IH].
Qed.

Lemma assoc_map_None {A B : Type} (f : A -> B) (n : string)
    (l : list (string * A)) :
  assoc n l = None -> assoc n (map (fun nv => (fst nv, f (snd nv))) l) = None.
Proof.
  induction l as [|[m a] rest IH]; [reflexivity|].
  cbn. destruct (String.eqb m n); [discriminate|exact IH].
Qed.

Lemma versionOf_zeros (n : string) (names : list string) :
  match assoc n (map (fun name => (jsonName name, JZero)) names) with
  | Some (JScalar _) => False
  | _ => True
  end.
Proof.
  induction names as [|m rest IH]; [exact I|].
  cbn. destruct (String.eqb (jsonName m) n); [exact I|exact IH].
Qed.

(** A struct without a field [Version] marshals to a document from which no
    version is read. *)
Lemma versionOf_Marshal (fs : list (string * Value)) (force : list string)
    (ms : list (string * Json)) :
  assoc "Version" fs = None ->
  Marshal (Struct fs force) = JObject ms ->
  versionOf ms = "".
Proof.
  intros Hn [= <-]. unfold versionOf. rewrite assoc_app.
  rewrite (assoc_map_None Marshal _ _ Hn).
  pose proof (versionOf_zeros "Version"
                (List.filter (fun name => negb (hasField (jsonName name) fs)) force))
    as Hz.
  destruct (assoc "Version" (map _ _)) as [[t| |ms]|]; try reflexivity.
  destruct Hz.
Qed.

Lemma conformsFields_strict_assoc (C : Schema -> Value -> bool)
    (ss : list (string * Schema)) (fs : list (string * Value)) (n : string) :
  conformsFields C true ss fs = true -> assoc n ss = None -> assoc n fs = None.
Proof.
  induction fs as [|[m v] rest IH]; [reflexivity|].
  cbn. intros Hc Hn. apply andb_prop in Hc. destruct Hc as [Hm Hrest].
  destruct (String.eqb m n) eqn:Hmn; [|exact (IH Hrest Hn)].
  apply String.eqb_eq in Hmn. subst m. rewrite Hn in Hm. discriminate.
Qed.

Lemma assoc_projectFields_None (P : Schema -> Value -> Value)
    (ss : list (string * Schema)) (fs : list (string * Value)) (n : string) :
  assoc n ss = None -> assoc n (projectFields P ss fs) = None.
Proof.
  intros Hn. induction fs as [|[m v] rest IH]; [reflexivity|].
  cbn. destruct (assoc m ss) as [s|] eqn:Hm; [|exact IH].
  cbn. destruct (String.eqb m n) eqn:Hmn; [|exact IH].
  apply String.eqb_eq in Hmn. subst m. congruence.
Qed.

Lemma assoc_updateFields_None (m n : string) (f : Value -> Value)
    (fs : list (string * Value)) :
  assoc n fs = None -> assoc n (updateFields m f fs) = None.
Proof.
  induction fs as [|[k v] rest IH]; [reflexivity|].
  cbn. destruct (String.eqb k n) eqn:Hkn; [discriminate|].
  intros Hn. destruct (String.eqb k m); cbn; rewrite Hkn; auto.
Qed.

(** The force send fields are no data: they do not survive [clean]. *)
Lemma clean_setForceSendFields (force : list string) (v : Value) :
  clean (setForceSendFields force v) = clean v.
Proof. destruct v; reflexivity. Qed.

Lemma clean_update (n : string) (f : Value -> Value) (v : Value) :
  (forall y, clean (f y) = clean y) -> clean (update n f v) = clean v.
Proof.
  intros Hf. destruct v as [t|fs force]; [reflexivity|]. cbn. f_equal.
  induction fs as [|[k x] rest IH]; [reflexivity|].
  cbn. destruct (String.eqb k n); cbn; [rewrite Hf; reflexivity|].
  rewrite IH. reflexivity.
Qed.

Lemma clean_setForceSend (w : Value) : clean (setForceSend w) = clean w.
Proof.
  unfold setForceSend.
  set (w1 := match field "cdnPolicy" w with
             | Some cdnPolicy =>
                 match field "cacheKeyPolicy" cdnPolicy with
                 | Some _ => _
                 | None => w
                 end
             | None => w
             end).
  assert (H1 : clean w1 = clean w).
  { subst w1. destruct (field "cdnPolicy" w) as [cdn|]; [|reflexivity].
    destruct (field "cacheKeyPolicy" cdn); [|reflexivity].
    apply clean_update. intros y. apply clean_update. intros z.
    apply clean_setForceSendFields. }
  destruct (field "iap" w1); [|exact H1].
  rewrite clean_update; [exact H1|]. intros y. apply clean_setForceSendFields.
Qed.

(** [setForceSend] keeps a struct a struct, with the same field names and the
    same force send fields at the top. *)
Lemma setForceSend_Struct (fs : list (string * Value)) (force : list string) :
  exists fs',
    setForceSend (Struct fs force) = Struct fs' force /\
    (forall n, assoc n fs = None -> assoc n fs' = None).
Proof.
  unfold setForceSend.
  set (w1 := match field "cdnPolicy" (Struct fs force) with
             | Some cdnPolicy =>
                 match field "cacheKeyPolicy" cdnPolicy with
                 | Some _ => _
                 | None => Struct fs force
                 end
             | None => Struct fs force
             end).
  assert (H1 : exists fs1, w1 = Struct fs1 force /\
                 (forall n, assoc n fs = None -> assoc n fs1 = None)).
  { subst w1. destruct (field "cdnPolicy" (Struct fs force)) as [cdn|];
      [|eauto].
    destruct (field "cacheKeyPolicy" cdn); [|eauto].
    cbn. eexists. split; [reflexivity|].
    intros n. apply assoc_updateFields_None. }
  destruct H1 as (fs1 & -> & Hfs1).
  destruct (field "iap" (Struct fs1 force)); [|eauto].
  cbn. eexists. split; [reflexivity|].
  intros n Hn. apply assoc_updateFields_None, Hfs1, Hn.
Qed.

End ConversionLemmas.

Section ConversionProperties.

Import Go Converter.

Variable name : string.
Variable schemaOf : ApiVersion -> list (string * Schema).

(** The alpha version has every field of the other versions, and no
    version has a field that reads the composite [Version]. *)
Hypothesis alpha_superset :
  forall version,
    subschema (SStruct (schemaOf version)) (SStruct (schemaOf Alpha)) = true.
Hypothesis Version_not_wire :
  forall version, assoc "Version" (schemaOf version) = None.

Local Abbreviation toComposite := (Converter.toComposite name schemaOf).
Local Abbreviation toVersion := (Converter.toVersion name schemaOf).

Lemma toComposite_Struct (fs : list (string * Value)) (force : list string) :
  conforms false (SStruct (schemaOf Alpha)) (Struct fs force) = true ->
  assoc "Version" fs = None ->
  toComposite (Struct fs force) =
  ok (mkComposite "" (projectFields project (schemaOf Alpha) fs)).
Proof.
  intros Hc Hn. unfold Converter.toComposite, UnmarshalComposite.
  destruct (unmarshalMembers_Marshal _ _ _ Hc) as (ms & Hm & Hu).
  rewrite Hm, Hu, (versionOf_Marshal _ _ _ Hn Hm). reflexivity.
Qed.

Lemma Marshal_clean_Struct (fs : list (string * Value)) (force : list string) :
  Marshal (clean (Struct fs force)) =
  JObject (map (fun nv => (fst nv, Marshal (clean (snd nv)))) fs).
Proof.
  transitivity
    (JObject
       (map (fun nv => (fst nv, Marshal (snd nv)))
          (map (fun nv => (fst nv, clean (snd nv))) fs) ++ []));
    [reflexivity|].
  rewrite app_nil_r, map_map. reflexivity.
Qed.

Lemma toVersion_Struct (version : ApiVersion) (c : Composite) :
  conforms false (SStruct (schemaOf Alpha)) (Struct (Fields c) []) = true ->
  toVersion version c =
  ok (if String.eqb name "BackendService"
      then setForceSend
             (Struct (projectFields project (schemaOf version) (Fields c)) [])
      else Struct (projectFields project (schemaOf version) (Fields c)) []).
Proof.
  intros Hc. unfold Converter.toVersion, MarshalComposite.
  cbn [Unmarshal unmarshalMembers]. rewrite Version_not_wire.
  pose proof (conforms_false_sub _ _ _ (alpha_superset version) Hc) as Hv.
  rewrite <- conforms_clean in Hv.
  destruct (unmarshalMembers_Marshal _ _ _ Hv) as (ms & Hm & Hu).
  change (Marshal (clean (Struct (Fields c) [])) = JObject ms) in Hm.
  rewrite Marshal_clean_Struct in Hm. injection Hm as <-. rewrite Hu.
  pose proof (project_clean (SStruct (schemaOf version)) (Struct (Fields c) []))
    as Hp.
  cbn [clean project] in Hp. injection Hp as Hp. rewrite <- Hp.
  destruct (String.eqb name "BackendService"); reflexivity.
Qed.

(** The composite value made from a wire value after [toVersion]. *)
Lemma toComposite_after_toVersion (version : ApiVersion) (c : Composite) :
  conforms false (SStruct (schemaOf Alpha)) (Struct (Fields c) []) = true ->
  exists w,
    toVersion version c = ok w /\
    toComposite w = ok (restrictTo (schemaOf version) c).
Proof.
  intros Hc. rewrite (toVersion_Struct version c Hc).
  set (w0 := Struct (projectFields project (schemaOf version) (Fields c)) []).
  pose proof (conforms_false_sub _ _ _ (alpha_superset version) Hc) as Hv.
  assert (Hin : conforms true (SStruct (schemaOf version)) w0 = true).
  { exact (project_inhabits _ _ Hv). }
  assert (HinA : conforms true (SStruct (schemaOf Alpha)) w0 = true).
  { exact (conforms_true_sub _ _ _ (alpha_superset version) Hin). }
  assert (Hw0 : project (SStruct (schemaOf Alpha)) w0 = w0).
  { rewrite (project_inhabitant _ _ HinA).
    exact (clean_project (SStruct (schemaOf version)) (Struct (Fields c) [])). }
  assert (Hgen : forall w, clean w = clean w0 ->
            (exists fs, w = Struct fs [] /\ assoc "Version" fs = None) ->
            toComposite w = ok (restrictTo (schemaOf version) c)).
  { intros w Hclean (fs & -> & Hn).
    rewrite toComposite_Struct; [|idtac|exact Hn].
    - unfold restrictTo. do 2 f_equal.
      pose proof (project_clean (SStruct (schemaOf Alpha)) (Struct fs [])) as H1.
      rewrite Hclean, project_clean, Hw0 in H1.
      cbn [project] in H1. injection H1 as H1. symmetry. exact H1.
    - rewrite <- conforms_clean, Hclean, conforms_clean.
      apply conforms_strict_weaken. exact HinA. }
  assert (Hn0 : assoc "Version"
                  (projectFields project (schemaOf version) (Fields c)) = None).
  { apply assoc_projectFields_None, Version_not_wire. }
  destruct (String.eqb name "BackendService").
  - eexists. split; [reflexivity|]. apply Hgen.
    + apply clean_setForceSend.
    + destruct (setForceSend_Struct
                  (projectFields project (schemaOf version) (Fields c)) [])
        as (fs' & Heq & Hnames).
      exists fs'. split; [exact Heq|]. apply Hnames, Hn0.
  - eexists. split; [reflexivity|]. apply Hgen; [reflexivity|].
    eexists. split; [reflexivity|exact Hn0].
Qed.


End ConversionProperties.


(** ** [CheckNEGDeletion], and the answers that make the checks panic *)

Section NEGDeletionProperties.

Import Go Cloud Fuzz.

Variable KeyString : Meta.Key -> string.
Variable DescriptionFromString : string -> Description.t.
Variable rangeKeys : forall V : Type, gmap Meta.Key V -> list Meta.Key.

Local Abbreviation CheckNEGDeletion := (Fuzz.CheckNEGDeletion KeyString rangeKeys).
Local Abbreviation CheckResourceDeletion :=
  (Fuzz.CheckResourceDeletion KeyString DescriptionFromString rangeKeys).
Local Abbreviation items := (Fuzz.items rangeKeys).

(** The loop of [CheckNEGDeletion] over keys whose Gets all answer a success
    or not found: one Get per key, and the keys that answered a success. *)
Lemma negLoop_clean (c : Cloud.Cloud) (keys resources : list Meta.Key) :
  (forall k, In k keys ->
     foundOrNotFound (BetaNetworkEndpointGroups_Get c (Some k))) ->
  range keys (fun resources k =>
    Go.mbind (get BetaNetworkEndpointGroups (BetaNetworkEndpointGroups_Get c)
                (Some k)) (fun r =>
    match r with
    | err e =>
        Go.mbind (notStatusNotFound e) (fun b =>
          if b then fail e else mret resources)
    | ok _ => mret (resources ++ [k])
    end)) resources =
  (map (fun k => Get BetaNetworkEndpointGroups (Some k)) keys,
   Val (resources ++
        List.filter
          (fun k => match BetaNetworkEndpointGroups_Get c (Some k) with
                    | ok _ => true
                    | err _ => false
                    end) keys)).
Proof.
  revert resources. induction keys as [|k keys IH]; intros resources H.
  - cbn. rewrite app_nil_r. reflexivity.
  - cbn [range map List.filter]. unfold get at 1.
    pose proof (H k (or_introl eq_refl)) as Hk.
    destruct (BetaNetworkEndpointGroups_Get c (Some k)) as [neg|e]; cbn.
    + rewrite IH by (intros k' Hk'; apply H; right; exact Hk').
      rewrite <- app_assoc. reflexivity.
    + destruct Hk as [m ->]. cbn.
      rewrite IH by (intros k' Hk'; apply H; right; exact Hk').
      reflexivity.
Qed.

(** X1.  When the Get of every network endpoint group of the graph answers a
    success or not found, [CheckNEGDeletion] makes one Get per group, through
    the beta service and in the order of the loop, and returns nil when all
    are gone and otherwise the one error that lists the keys of the groups
    still present; the other resources of the graph and the options play no
    part. *)
Theorem CheckNEGDeletion_reports_present
    (g : GCLB) (c : Cloud.Cloud) (options : option GCLBDeleteOptions) :
  (forall k, In k (rangeKeys _ (NetworkEndpointGroup g)) ->
     foundOrNotFound (BetaNetworkEndpointGroups_Get c (Some k))) ->
  CheckNEGDeletion g c options =
  (map (fun k => Get BetaNetworkEndpointGroups (Some k))
     (rangeKeys _ (NetworkEndpointGroup g)),
   match List.filter
           (fun k => match BetaNetworkEndpointGroups_Get c (Some k) with
                     | ok _ => true
                     | err _ => false
                     end) (rangeKeys _ (NetworkEndpointGroup g)) with
   | [] => Val tt
   | present =>
       Fail (Errorf "NEGs still exist (%s)"
               [ArgString (Join (map KeyString present) ", ")])
   end).
Proof.
  intros H. unfold Fuzz.CheckNEGDeletion.
  rewrite (negLoop_clean c _ [] H). cbn [Go.mbind app].
  destruct (List.filter _ _) as [|k present]; cbn; rewrite ?app_nil_r;
    reflexivity.
Qed.

(** X2.  [CheckNEGDeletion] stops at the first Get, in the order of the
    loop, that fails with something else than not found: it makes no further
    Get, and it returns the error of the cloud as it is when that error is a
    [*googleapi.Error] (a nil pointer of that type included), and panics in
    the type assertion when the error is of any other type. *)
Theorem CheckNEGDeletion_stops_at_first_error
    (g : GCLB) (c : Cloud.Cloud) (options : option GCLBDeleteOptions)
    (pre post : list Meta.Key) (k : Meta.Key) (e : error) :
  rangeKeys _ (NetworkEndpointGroup g) = pre ++ k :: post ->
  (forall k', In k' pre ->
     foundOrNotFound (BetaNetworkEndpointGroups_Get c (Some k'))) ->
  BetaNetworkEndpointGroups_Get c (Some k) = err e ->
  (forall message, e <> GoogleapiError StatusNotFound message) ->
  CheckNEGDeletion g c options =
  (map (fun k => Get BetaNetworkEndpointGroups (Some k)) (pre ++ [k]),
   match e with
   | GoogleapiError _ _ | GoogleapiErrorNil => Fail e
   | _ => Panic
   end).
Proof.
  intros Hkeys Hpre Hk Hne. unfold Fuzz.CheckNEGDeletion.
  rewrite Hkeys, range_app, (negLoop_clean c _ [] Hpre).
  cbn [Go.mbind app range]. unfold get at 1. rewrite Hk. cbn.
  rewrite map_app. cbn [map].
  destruct e as [code m| | | |]; cbn; try reflexivity.
  destruct (code =? StatusNotFound)%Z eqn:Hc; [|reflexivity].
  apply Z.eqb_eq in Hc. subst code. exfalso. exact (Hne m eq_refl).
Qed.

(** X3.  [CheckResourceDeletion] panics when, every earlier Get in the order
    of its loops having answered a success or not found, a Get fails with an
    error whose type is not [*googleapi.Error]: the type assertion on the
    error has one result.  The call ends with that Get. *)
Theorem CheckResourceDeletion_panics_on_other_error_type
    (g : GCLB) (c : Cloud.Cloud) (options : option GCLBDeleteOptions)
    (pre post : list (Kind * Meta.Key)) (kind : Kind) (k : Meta.Key)
    (e : error) :
  items g = pre ++ (kind, k) :: post ->
  (forall kind' k', In (kind', k') pre ->
     foundOrNotFound (response c kind' k')) ->
  response c kind k = err e ->
  e <> GoogleapiErrorNil ->
  (forall code message, e <> GoogleapiError code message) ->
  CheckResourceDeletion g c options =
  (map callOf pre ++ [Get (serviceOf kind k) (Some k)], Panic).
Proof.
  intros Hitems Hpre Hk Hnil Hcode.
  assert (Hp : probe DescriptionFromString c options (kind, k) = Crash).
  { unfold Fuzz.probe. cbn [fst snd]. rewrite Hk.
    destruct e as [code m| | | |]; cbn; try reflexivity.
    - exfalso. exact (Hcode code m eq_refl).
    - exfalso. exact (Hnil eq_refl). }
  rewrite (CheckResourceDeletion_stop KeyString DescriptionFromString rangeKeys
             g c options pre post (kind, k) Hitems).
  - rewrite Hp. reflexivity.
  - apply List.Forall_forall. intros [kind' k'] Hin.
    apply verdict_clean. exact (Hpre kind' k' Hin).
  - rewrite Hp. reflexivity.
Qed.

End NEGDeletionProperties.

(** ** [GCLBForVIP]: a VIP without forwarding rules, and the graph returned *)

Section DiscoveryGraphProperties.

Import Go Cloud Fuzz.

Variable ParseResourceURL : string -> result ResourceID.
Variable FeatureValidator : Type.

Local Abbreviation GCLBForVIP := (Fuzz.GCLBForVIP ParseResourceURL FeatureValidator).
Local Abbreviation visitForwardingRule :=
  (Fuzz.visitForwardingRule ParseResourceURL FeatureValidator).
Local Abbreviation referencedUrlMapKey := (Fuzz.referencedUrlMapKey ParseResourceURL).

(** X4.  For a VIP that none of the listed forwarding rules carries,
    [GCLBForVIP] never returns a graph: [urlMapKey] is still nil after the
    loop, the URL map is fetched with that nil key, and the call returns the
    error of that Get, or panics on the dereference of the nil key when the
    Get answers an object.  It makes these two calls and no other. *)
Theorem GCLBForVIP_without_forwarding_rule
    (c : Cloud.Cloud) (vip : string) (validators : list FeatureValidator)
    (allGFRs : list Compute.ForwardingRule.t) :
  GlobalForwardingRules_List c = ok allGFRs ->
  rulesOfVIP vip allGFRs = [] ->
  GCLBForVIP c vip validators =
  ([List GlobalForwardingRules; Get UrlMaps None],
   match UrlMaps_Get c None with
   | err e => Fail e
   | ok _ => Panic
   end).
Proof.
  intros Hlist Hnone.
  unfold Fuzz.GCLBForVIP, list_, Fuzz.getGclbForwardingRules,
    Fuzz.getGclbTargetProxies, Fuzz.getGclbUrlMaps, Fuzz.getGclbBackendServices.
  rewrite Hlist. unfold rulesOfVIP in Hnone. cbn [Go.mbind try mret].
  rewrite Hnone. cbn [range Go.mbind mret app]. unfold get.
  destruct (UrlMaps_Get c None) as [um|e]; reflexivity.
Qed.

(** A sequence that ends with a value: both parts did. *)
Lemma mbind_Val_inv {Ev A B : Type} (m : M Ev A) (f : A -> M Ev B)
    (t : list Ev) (b : B) :
  Go.mbind m f = (t, Val b) ->
  exists t1 a t2, m = (t1, Val a) /\ f a = (t2, Val b) /\ t = t1 ++ t2.
Proof.
  destruct m as [t1 [a|e|]]; cbn; try discriminate.
  destruct (f a) as [t2 r] eqn:Hf. intros [= <- ->].
  exists t1, a, t2. auto.
Qed.

(** A loop that runs to its end keeps what each turn keeps; the property may
    speak of the elements visited so far. *)
Lemma range_invariant_prefix {Ev A S : Type} (P : list A -> S -> Prop)
    (body : S -> A -> M Ev S) (l : list A) :
  (forall pre s x t s',
     P pre s -> body s x = (t, Val s') -> P (pre ++ [x]) s') ->
  forall pre s t s',
    P pre s -> range l body s = (t, Val s') -> P (pre ++ l) s'.
Proof.
  intros Hstep. induction l as [|x l IH]; intros pre s t s' HP Hrun.
  - cbn in Hrun. injection Hrun as _ <-. rewrite app_nil_r. exact HP.
  - cbn [range] in Hrun. apply mbind_Val_inv in Hrun.
    destruct Hrun as (t1 & s1 & t2 & Hx & Hrest & _).
    replace (pre ++ x :: l) with ((pre ++ [x]) ++ l)
      by (rewrite <- app_assoc; reflexivity).
    eapply IH; [|exact Hrest]. eapply Hstep; eauto.
Qed.

Lemma range_invariant {Ev A S : Type} (P : S -> Prop)
    (body : S -> A -> M Ev S) (l : list A) :
  (forall s x t s', P s -> body s x = (t, Val s') -> P s') ->
  forall s t s', P s -> range l body s = (t, Val s') -> P s'.
Proof.
  intros Hstep s t s' HP Hrun.
  apply (range_invariant_prefix (fun _ => P) body l
           (fun pre s x t s' => Hstep s x t s') [] s t s' HP Hrun).
Qed.

Lemma holdsAnswer_empty {A : Type} (getf : option Meta.Key -> result A) :
  FuzzGraph.holdsAnswer getf ∅.
Proof. intros k u H. rewrite lookup_empty in H. discriminate. Qed.

Lemma holdsAnswer_insert {A : Type} (getf : option Meta.Key -> result A)
    (m : gmap Meta.Key (Union A)) (k : Meta.Key) (a : A) :
  FuzzGraph.holdsAnswer getf m ->
  getf (Some k) = ok a ->
  FuzzGraph.holdsAnswer getf (<[k := mkUnion (Some a) None None]> m).
Proof.
  intros Hm Hget k' u Hlook.
  destruct (decide (k = k')) as [<-|Hne].
  - rewrite lookup_insert_eq in Hlook. injection Hlook as <-. eauto.
  - rewrite lookup_insert_ne in Hlook by exact Hne. eauto.
Qed.

(** What a proxy case of the loop body stores. *)
Lemma proxyCase_Val_store {P : Type} (s : Service)
    (getf : option Meta.Key -> result P) (urlMapOf : P -> string)
    (kind : string) (key urlMapKey urlMapKey' : option Meta.Key)
    (store : Meta.Key -> P -> GCLB) (tr : list Call) (gclb' : GCLB) :
  Fuzz.proxyCase ParseResourceURL s getf urlMapOf kind key urlMapKey store
    = (tr, Val (gclb', urlMapKey')) ->
  exists p k0, getf key = ok p /\ key = Some k0 /\ gclb' = store k0 p.
Proof.
  unfold Fuzz.proxyCase, get. cbn.
  destruct (getf key) as [p|e]; cbn; [|discriminate].
  destruct key as [k0|]; cbn; [|discriminate].
  destruct (Fuzz.checkUrlMapReference ParseResourceURL kind (urlMapOf p) urlMapKey)
    as [t [v|e|]]; cbn; try discriminate.
  intros [= _ <- _]. exists p, k0. auto.
Qed.

(** What a turn of the loop over the forwarding rules adds to the graph: the
    rule under the global key of its name, and its target proxy as the cloud
    answers it. *)
Lemma visitForwardingRule_Val_graph (c : Cloud.Cloud)
    (validators : list FeatureValidator) (gclb gclb' : GCLB)
    (urlMapKey urlMapKey' : option Meta.Key)
    (gfr : Compute.ForwardingRule.t) (tr : list Call) :
  visitForwardingRule c validators (gclb, urlMapKey) gfr
    = (tr, Val (gclb', urlMapKey')) ->
  let gclb1 :=
    upd_ForwardingRule
      (insert (Meta.GlobalKey (Compute.ForwardingRule.Name gfr))
         (mkUnion (Some gfr) None None)) gclb in
  exists k0,
    (exists p, TargetHttpProxies_Get c (Some k0) = ok p /\
               gclb' = upd_TargetHTTPProxy
                         (insert k0 (mkUnion (Some p) None None)) gclb1) \/
    (exists p, TargetHttpsProxies_Get c (Some k0) = ok p /\
               gclb' = upd_TargetHTTPSProxy
                         (insert k0 (mkUnion (Some p) None None)) gclb1).
Proof.
  rewrite (visitForwardingRule_unfold ParseResourceURL FeatureValidator).
  cbv zeta.
  destruct (ParseResourceURL (Compute.ForwardingRule.Target gfr)) as [resID|e];
    [|discriminate].
  destruct (String.eqb (Resource resID) "targetHttpProxies").
  - intros H. apply proxyCase_Val_store in H.
    destruct H as (p & k0 & Hget & Hkey & ->). rewrite Hkey in Hget.
    exists k0. left. eauto.
  - destruct (String.eqb (Resource resID) "targetHttpsProxies"); [|discriminate].
    intros H. apply proxyCase_Val_store in H.
    destruct H as (p & k0 & Hget & Hkey & ->). rewrite Hkey in Hget.
    exists k0. right. eauto.
Qed.

(** The graph after the loop over the forwarding rules of the VIP. *)
Lemma forwardingRules_loop_graph (c : Cloud.Cloud) (vip : string)
    (validators : list FeatureValidator)
    (gfrs : list Compute.ForwardingRule.t) (gclb' : GCLB)
    (urlMapKey' : option Meta.Key) (tr : list Call) :
  range gfrs (visitForwardingRule c validators) (NewGCLB vip, None)
    = (tr, Val (gclb', urlMapKey')) ->
  VIP gclb' = vip /\
  (forall kf, kf ∈ dom (ForwardingRule gclb') <->
     exists gfr, In gfr gfrs /\
                 kf = Meta.GlobalKey (Compute.ForwardingRule.Name gfr)) /\
  FuzzGraph.holdsAnswer (TargetHttpProxies_Get c) (TargetHTTPProxy gclb') /\
  FuzzGraph.holdsAnswer (TargetHttpsProxies_Get c) (TargetHTTPSProxy gclb') /\
  URLMap gclb' = ∅ /\ BackendService gclb' = ∅ /\
  NetworkEndpointGroup gclb' = ∅ /\ InstanceGroup gclb' = ∅.
Proof.
  intros Hrun.
  apply (range_invariant_prefix
           (fun pre (st : GCLB * option Meta.Key) =>
              VIP (fst st) = vip /\
              (forall kf, kf ∈ dom (ForwardingRule (fst st)) <->
                 exists gfr, In gfr pre /\
                   kf = Meta.GlobalKey (Compute.ForwardingRule.Name gfr)) /\
              FuzzGraph.holdsAnswer (TargetHttpProxies_Get c)
                (TargetHTTPProxy (fst st)) /\
              FuzzGraph.holdsAnswer (TargetHttpsProxies_Get c)
                (TargetHTTPSProxy (fst st)) /\
              URLMap (fst st) = ∅ /\ BackendService (fst st) = ∅ /\
              NetworkEndpointGroup (fst st) = ∅ /\ InstanceGroup (fst st) = ∅)
           (visitForwardingRule c validators) gfrs) with (pre := [])
    in Hrun; [exact Hrun| |].
  - intros pre [g key] gfr t [g' key'] (Hvip & Hdom & Htp & Htps & H1 & H2 & H3 & H4)
      Hstep.
    cbn [fst] in *.
    apply visitForwardingRule_Val_graph in Hstep. cbv zeta in Hstep.
    assert (Hdom' : forall kf,
              kf ∈ dom (<[Meta.GlobalKey (Compute.ForwardingRule.Name gfr) :=
                          mkUnion (Some gfr) None None]> (ForwardingRule g)) <->
              exists r, In r (pre ++ [gfr]) /\
                        kf = Meta.GlobalKey (Compute.ForwardingRule.Name r)).
    { intros kf. rewrite dom_insert, elem_of_union, elem_of_singleton, Hdom.
      split.
      - intros [->|(r & Hr & ->)].
        + exists gfr. split; [apply in_or_app; right; left|]; reflexivity.
        + exists r. split; [apply in_or_app; left; exact Hr|reflexivity].
      - intros (r & Hr & ->). apply in_app_or in Hr.
        destruct Hr as [Hr|[<-|[]]]; [right; eauto|left; reflexivity]. }
    destruct Hstep as (k0 & [(p & Hget & ->)|(p & Hget & ->)]); cbn;
      repeat split; auto; try apply Hdom';
      apply holdsAnswer_insert; assumption.
  - cbn. repeat split; auto using holdsAnswer_empty.
    + rewrite dom_empty. intros H. apply elem_of_empty in H. destruct H.
    + intros (r & [] & _).
Qed.

(** Links that parse, with the keys they parse to. *)
Local Abbreviation resolved :=
  (Forall2 (fun (link : string) (key : option Meta.Key) =>
              exists resID, ParseResourceURL link = ok resID /\ Key resID = key)).

Lemma pathRules_loop_Val (prs : list Compute.PathRule.t)
    (bsKeys out : list (option Meta.Key)) (tr : list Call) :
  range prs (fun bsKeys pr =>
    Go.mbind (try (ParseResourceURL (Compute.PathRule.Service pr)))
      (fun resID => mret (bsKeys ++ [Key resID]))) bsKeys = (tr, Val out) ->
  exists keys,
    out = bsKeys ++ keys /\ resolved (map Compute.PathRule.Service prs) keys.
Proof.
  revert bsKeys tr. induction prs as [|pr prs IH]; intros bsKeys tr.
  - cbn. intros [= _ <-]. exists []. rewrite app_nil_r. split; [reflexivity|].
    constructor.
  - cbn [range map]. intros H. apply mbind_Val_inv in H.
    destruct H as (t1 & acc & t2 & Hstep & Hrest & _).
    destruct (ParseResourceURL (Compute.PathRule.Service pr)) as [resID|e] eqn:Hp;
      cbn in Hstep; [|discriminate].
    injection Hstep as _ <-.
    destruct (IH _ _ Hrest) as (keys & -> & Hkeys).
    exists (Key resID :: keys). rewrite <- app_assoc. split; [reflexivity|].
    constructor; eauto.
Qed.

Lemma visitPathMatcher_Val (pm : Compute.PathMatcher.t)
    (bsKeys out : list (option Meta.Key)) (tr : list Call) :
  Fuzz.visitPathMatcher ParseResourceURL bsKeys pm = (tr, Val out) ->
  exists keys,
    out = bsKeys ++ keys /\
    resolved (Compute.PathMatcher.DefaultService pm ::
              map Compute.PathRule.Service (Compute.PathMatcher.PathRules pm))
      keys.
Proof.
  unfold Fuzz.visitPathMatcher. intros H. apply mbind_Val_inv in H.
  destruct H as (t1 & resID & t2 & Hparse & Hrules & _).
  destruct (ParseResourceURL (Compute.PathMatcher.DefaultService pm))
    as [id|e] eqn:Hp; cbn in Hparse; [|discriminate].
  injection Hparse as _ <-.
  destruct (pathRules_loop_Val _ _ _ _ Hrules) as (keys & -> & Hkeys).
  exists (Key id :: keys). rewrite <- app_assoc. split; [reflexivity|].
  constructor; eauto.
Qed.

Lemma pathMatchers_loop_Val (pms : list Compute.PathMatcher.t)
    (bsKeys out : list (option Meta.Key)) (tr : list Call) :
  range pms (Fuzz.visitPathMatcher ParseResourceURL) bsKeys = (tr, Val out) ->
  exists keys,
    out = bsKeys ++ keys /\
    resolved
      (flat_map
         (fun pm =>
            Compute.PathMatcher.DefaultService pm ::
            map Compute.PathRule.Service (Compute.PathMatcher.PathRules pm))
         pms) keys.
Proof.
  revert bsKeys tr. induction pms as [|pm pms IH]; intros bsKeys tr.
  - cbn. intros [= _ <-]. exists []. rewrite app_nil_r. split; [reflexivity|].
    constructor.
  - cbn [range flat_map]. intros H. apply mbind_Val_inv in H.
    destruct H as (t1 & acc & t2 & Hstep & Hrest & _).
    destruct (visitPathMatcher_Val _ _ _ _ Hstep) as (keys1 & -> & Hkeys1).
    destruct (IH _ _ Hrest) as (keys2 & -> & Hkeys2).
    exists (keys1 ++ keys2). rewrite <- app_assoc. split; [reflexivity|].
    apply Forall2_app; assumption.
Qed.

(** What a turn of each later loop adds to the graph. *)
Lemma visitBackendService_Val (c : Cloud.Cloud)
    (validators : list FeatureValidator) (gclb gclb' : GCLB)
    (bsKey : option Meta.Key) (tr : list Call) :
  Fuzz.visitBackendService FeatureValidator c validators gclb bsKey
    = (tr, Val gclb') ->
  exists k bs,
    bsKey = Some k /\ BackendServices_Get c (Some k) = ok bs /\
    gclb' = upd_BackendService (insert k (mkUnion (Some bs) None None)) gclb.
Proof.
  unfold Fuzz.visitBackendService, Fuzz.hasAlphaResource, Fuzz.hasBetaResource,
    get. cbn.
  destruct (BackendServices_Get c bsKey) as [bs|e] eqn:Hget; cbn; [|discriminate].
  destruct bsKey as [k|]; cbn; [|discriminate].
  intros [= _ <-]. exists k, bs. auto.
Qed.

Lemma visitNetworkEndpointGroup_Val (c : Cloud.Cloud)
    (validators : list FeatureValidator) (gclb gclb' : GCLB)
    (negKey : option Meta.Key) (tr : list Call) :
  Fuzz.visitNetworkEndpointGroup FeatureValidator c validators gclb negKey
    = (tr, Val gclb') ->
  exists k neg,
    negKey = Some k /\ NetworkEndpointGroups_Get c (Some k) = ok neg /\
    gclb' = upd_NetworkEndpointGroup
              (insert k (mkUnion (Some neg) None None)) gclb.
Proof.
  unfold Fuzz.visitNetworkEndpointGroup, Fuzz.hasAlphaResource,
    Fuzz.hasBetaResource, get. cbn.
  destruct (NetworkEndpointGroups_Get c negKey) as [neg|e] eqn:Hget; cbn;
    [|discriminate].
  destruct negKey as [k|]; cbn; [|discriminate].
  intros [= _ <-]. exists k, neg. auto.
Qed.

Lemma visitInstanceGroup_Val (c : Cloud.Cloud) (gclb gclb' : GCLB)
    (igKey : option Meta.Key) (tr : list Call) :
  Fuzz.visitInstanceGroup c gclb igKey = (tr, Val gclb') ->
  exists k ig,
    igKey = Some k /\ InstanceGroups_Get c (Some k) = ok ig /\
    gclb' = upd_InstanceGroup (insert k (mkInstanceGroupUnion (Some ig))) gclb.
Proof.
  unfold Fuzz.visitInstanceGroup, get. cbn.
  destruct (InstanceGroups_Get c igKey) as [ig|e] eqn:Hget; cbn; [|discriminate].
  destruct igKey as [k|]; cbn; [|discriminate].
  intros [= _ <-]. exists k, ig. auto.
Qed.

(** The loop over [bsKeys]: every key is a key, the backend services stored
    are the ones of the keys, and nothing else of the graph changes. *)
Lemma backendServices_loop_graph (c : Cloud.Cloud)
    (validators : list FeatureValidator)
    (bsKeys : list (option Meta.Key)) (gclb gclb' : GCLB) (tr : list Call) :
  range bsKeys (Fuzz.visitBackendService FeatureValidator c validators) gclb
    = (tr, Val gclb') ->
  (exists f, gclb' = upd_BackendService f gclb) /\
  (forall ko, In ko bsKeys -> is_Some ko) /\
  (forall kb, kb ∈ dom (BackendService gclb') <->
     kb ∈ dom (BackendService gclb) \/ In (Some kb) bsKeys) /\
  (FuzzGraph.holdsAnswer (BackendServices_Get c) (BackendService gclb) ->
   FuzzGraph.holdsAnswer (BackendServices_Get c) (BackendService gclb')).
Proof.
  intros Hrun.
  apply (range_invariant_prefix
           (fun pre g' =>
              (exists f, g' = upd_BackendService f gclb) /\
              (forall ko, In ko pre -> is_Some ko) /\
              (forall kb, kb ∈ dom (BackendService g') <->
                 kb ∈ dom (BackendService gclb) \/ In (Some kb) pre) /\
              (FuzzGraph.holdsAnswer (BackendServices_Get c) (BackendService gclb) ->
               FuzzGraph.holdsAnswer (BackendServices_Get c) (BackendService g')))
           (Fuzz.visitBackendService FeatureValidator c validators) bsKeys)
    with (pre := []) in Hrun; [exact Hrun| |].
  - intros pre g key t g' ([f ->] & Hsome & Hdom & Hans) Hstep.
    apply visitBackendService_Val in Hstep.
    destruct Hstep as (k & bs & -> & Hget & ->). cbn.
    split; [eexists (fun m => _); reflexivity|]. split; [|split].
    + intros ko Hin. apply in_app_or in Hin.
      destruct Hin as [Hin|[<-|[]]]; [auto|eauto].
    + intros kb. rewrite dom_insert, elem_of_union, elem_of_singleton.
      cbn in Hdom. rewrite Hdom, in_app_iff. cbn. split.
      * intros [->|[H|H]]; auto.
      * intros [H|[H|[[= ->]|[]]]]; auto.
    + intros H. apply holdsAnswer_insert; auto.
  - split; [exists (fun m => m); destruct gclb; reflexivity|].
    split; [intros ko []|]. split; [|auto].
    intros kb. split; [auto|]. intros [H|[]]. exact H.
Qed.

Lemma Forall2_In_l {A B : Type} (R : A -> B -> Prop) (l1 : list A)
    (l2 : list B) (x : A) :
  Forall2 R l1 l2 -> In x l1 -> exists y, In y l2 /\ R x y.
Proof.
  induction 1 as [|a b l1 l2 Hab _ IH]; intros Hin; [destruct Hin|].
  destruct Hin as [->|Hin]; [exists b; split; [left; reflexivity|exact Hab]|].
  destruct (IH Hin) as (y & Hy & Hxy). exists y. split; [right|]; assumption.
Qed.

Lemma Forall2_In_r {A B : Type} (R : A -> B -> Prop) (l1 : list A)
    (l2 : list B) (y : B) :
  Forall2 R l1 l2 -> In y l2 -> exists x, In x l1 /\ R x y.
Proof.
  induction 1 as [|a b l1 l2 Hab _ IH]; intros Hin; [destruct Hin|].
  destruct Hin as [->|Hin]; [exists a; split; [left; reflexivity|exact Hab]|].
  destruct (IH Hin) as (x & Hx & Hxy). exists x. split; [right|]; assumption.
Qed.

Lemma networkEndpointGroups_loop_graph (c : Cloud.Cloud)
    (validators : list FeatureValidator)
    (negKeys : list (option Meta.Key)) (gclb gclb' : GCLB) (tr : list Call) :
  range negKeys (Fuzz.visitNetworkEndpointGroup FeatureValidator c validators)
    gclb = (tr, Val gclb') ->
  (exists f, gclb' = upd_NetworkEndpointGroup f gclb) /\
  (FuzzGraph.holdsAnswer (NetworkEndpointGroups_Get c)
     (NetworkEndpointGroup gclb) ->
   FuzzGraph.holdsAnswer (NetworkEndpointGroups_Get c)
     (NetworkEndpointGroup gclb')).
Proof.
  apply (range_invariant
           (fun g' =>
              (exists f, g' = upd_NetworkEndpointGroup f gclb) /\
              (FuzzGraph.holdsAnswer (NetworkEndpointGroups_Get c)
                 (NetworkEndpointGroup gclb) ->
               FuzzGraph.holdsAnswer (NetworkEndpointGroups_Get c)
                 (NetworkEndpointGroup g')))).
  - intros g key t g' ([f ->] & Hans) Hstep.
    apply visitNetworkEndpointGroup_Val in Hstep.
    destruct Hstep as (k & neg & -> & Hget & ->). cbn.
    split; [eexists (fun m => _); reflexivity|].
    intros H. apply holdsAnswer_insert; auto.
  - split; [exists (fun m => m); destruct gclb; reflexivity|auto].
Qed.

Lemma instanceGroups_loop_graph (c : Cloud.Cloud)
    (igKeys : list (option Meta.Key)) (gclb gclb' : GCLB) (tr : list Call) :
  range igKeys (Fuzz.visitInstanceGroup c) gclb = (tr, Val gclb') ->
  (exists f, gclb' = upd_InstanceGroup f gclb) /\
  ((forall k u, InstanceGroup gclb !! k = Some u ->
      exists ig, InstanceGroups_Get c (Some k) = ok ig /\
                 u = mkInstanceGroupUnion (Some ig)) ->
   forall k u, InstanceGroup gclb' !! k = Some u ->
     exists ig, InstanceGroups_Get c (Some k) = ok ig /\
                u = mkInstanceGroupUnion (Some ig)).
Proof.
  apply (range_invariant
           (fun g' =>
              (exists f, g' = upd_InstanceGroup f gclb) /\
              ((forall k u, InstanceGroup gclb !! k = Some u ->
                  exists ig, InstanceGroups_Get c (Some k) = ok ig /\
                             u = mkInstanceGroupUnion (Some ig)) ->
               forall k u, InstanceGroup g' !! k = Some u ->
                 exists ig, InstanceGroups_Get c (Some k) = ok ig /\
                            u = mkInstanceGroupUnion (Some ig)))).
  - intros g key t g' ([f ->] & Hans) Hstep.
    apply visitInstanceGroup_Val in Hstep.
    destruct Hstep as (k & ig & -> & Hget & ->). cbn.
    split; [eexists (fun m => _); reflexivity|].
    intros H k' u Hlook. cbn in Hans.
    destruct (decide (k = k')) as [<-|Hne].
    + rewrite lookup_insert_eq in Hlook. injection Hlook as <-. eauto.
    + rewrite lookup_insert_ne in Hlook by exact Hne. eauto.
  - split; [exists (fun m => m); destruct gclb; reflexivity|auto].
Qed.

(** A run of [GCLBForVIP] that returns a graph, loop by loop. *)
Lemma GCLBForVIP_Val_inv (c : Cloud.Cloud) (vip : string)
    (validators : list FeatureValidator) (g : GCLB) :
  value_of (GCLBForVIP c vip validators) = Val g ->
  exists allGFRs g1 k urlMap bsKeys g3 negKeys g4 igKeys t1 t3 t4 t5,
    GlobalForwardingRules_List c = ok allGFRs /\
    range (rulesOfVIP vip allGFRs) (visitForwardingRule c validators)
      (NewGCLB vip, None) = (t1, Val (g1, Some k)) /\
    UrlMaps_Get c (Some k) = ok urlMap /\
    resolved (FuzzGraph.serviceLinks urlMap) bsKeys /\
    range bsKeys (Fuzz.visitBackendService FeatureValidator c validators)
      (upd_URLMap (insert k (mkUnion (Some urlMap) None None)) g1)
      = (t3, Val g3) /\
    range negKeys (Fuzz.visitNetworkEndpointGroup FeatureValidator c validators)
      g3 = (t4, Val g4) /\
    range igKeys (Fuzz.visitInstanceGroup c) g4 = (t5, Val g).
Proof.
  destruct (GCLBForVIP c vip validators) as [tr v] eqn:Hrun. cbn. intros ->.
  unfold Fuzz.GCLBForVIP, list_, Fuzz.getGclbForwardingRules,
    Fuzz.getGclbTargetProxies, Fuzz.getGclbUrlMaps, Fuzz.getGclbBackendServices,
    Fuzz.hasAlphaResource, Fuzz.hasBetaResource in Hrun.
  cbn [orb] in Hrun.
  apply mbind_Val_inv in Hrun. destruct Hrun as (? & r & ? & [= _ <-] & Hrun & _).
  apply mbind_Val_inv in Hrun.
  destruct Hrun as (? & allGFRs & ? & Hlist & Hrun & _).
  destruct (GlobalForwardingRules_List c) as [l|e]; cbn in Hlist; [|discriminate].
  injection Hlist as _ ->.
  apply mbind_Val_inv in Hrun.
  destruct Hrun as (t1 & [g1 urlMapKey] & ? & Hloop & Hrun & _).
  apply mbind_Val_inv in Hrun. destruct Hrun as (? & r & ? & Hget & Hrun & _).
  unfold get in Hget. injection Hget as _ <-.
  apply mbind_Val_inv in Hrun.
  destruct Hrun as (? & urlMap & ? & Hum & Hrun & _).
  destruct (UrlMaps_Get c urlMapKey) as [um|e] eqn:Hmap; cbn in Hum;
    [|discriminate].
  injection Hum as _ ->.
  apply mbind_Val_inv in Hrun. destruct Hrun as (? & k & ? & Hk & Hrun & _).
  destruct urlMapKey as [k'|]; cbn in Hk; [|discriminate].
  injection Hk as _ ->.
  apply mbind_Val_inv in Hrun. destruct Hrun as (? & [] & ? & _ & Hrun & _).
  apply mbind_Val_inv in Hrun.
  destruct Hrun as (? & resID & ? & Hparse & Hrun & _).
  destruct (ParseResourceURL (Compute.UrlMap.DefaultService urlMap))
    as [id|e] eqn:Hp; cbn in Hparse; [|discriminate].
  injection Hparse as _ ->.
  apply mbind_Val_inv in Hrun.
  destruct Hrun as (? & bsKeys & ? & Hpms & Hrun & _).
  apply mbind_Val_inv in Hrun. destruct Hrun as (t3 & g3 & ? & Hbs & Hrun & _).
  apply mbind_Val_inv in Hrun.
  destruct Hrun as (? & [negKeys igKeys] & ? & _ & Hrun & _).
  apply mbind_Val_inv in Hrun. destruct Hrun as (t4 & g4 & ? & Hneg & Hrun & _).
  apply mbind_Val_inv in Hrun. destruct Hrun as (t5 & g5 & ? & Hig & Hrun & _).
  injection Hrun as _ ->.
  destruct (pathMatchers_loop_Val _ _ _ _ Hpms) as (keys & -> & Hkeys).
  exists allGFRs, g1, k, urlMap, ([Key resID] ++ keys), g3, negKeys, g4, igKeys,
    t1, t3, t4, t5.
  repeat split; auto.
  unfold FuzzGraph.serviceLinks. constructor; eauto.
Qed.

(** X5.  A graph that [GCLBForVIP] returns is the graph of the VIP: some
    listed rule carries the VIP, the target proxies of all the rules of the
    VIP reference one URL map key, the graph has a forwarding rule under the
    global key of the name of each of these rules and no other, it has the
    URL map that the cloud answers for that key and no other, and its backend
    services are under the keys that the service links of that URL map parse
    to, all of which parse to a key. *)
Theorem GCLBForVIP_graph
    (c : Cloud.Cloud) (vip : string) (validators : list FeatureValidator)
    (g : GCLB) :
  value_of (GCLBForVIP c vip validators) = Val g ->
  exists allGFRs k urlMap,
    GlobalForwardingRules_List c = ok allGFRs /\
    rulesOfVIP vip allGFRs <> [] /\
    (forall gfr, In gfr (rulesOfVIP vip allGFRs) ->
       referencedUrlMapKey c gfr = Some k) /\
    UrlMaps_Get c (Some k) = ok urlMap /\
    VIP g = vip /\
    (forall kf, kf ∈ dom (ForwardingRule g) <->
       exists gfr, In gfr (rulesOfVIP vip allGFRs) /\
                   kf = Meta.GlobalKey (Compute.ForwardingRule.Name gfr)) /\
    URLMap g = {[ k := mkUnion (Some urlMap) None None ]} /\
    (forall link, In link (FuzzGraph.serviceLinks urlMap) ->
       exists resID kb, ParseResourceURL link = ok resID /\ Key resID = Some kb) /\
    (forall kb, kb ∈ dom (BackendService g) <->
       exists link resID,
         In link (FuzzGraph.serviceLinks urlMap) /\
         ParseResourceURL link = ok resID /\ Key resID = Some kb).
Proof.
  intros Hval. apply GCLBForVIP_Val_inv in Hval.
  destruct Hval as (allGFRs & g1 & k & urlMap & bsKeys & g3 & negKeys & g4 &
                    igKeys & t1 & t3 & t4 & t5 & Hlist & Hfr & Hum & Hres &
                    Hbs & Hneg & Hig).
  destruct (forwardingRules_loop_Val ParseResourceURL FeatureValidator
              _ _ _ _ _ _ _ _ Hfr) as [Hall _].
  destruct (forwardingRules_loop_graph _ _ _ _ _ _ _ Hfr)
    as (Hvip & Hdom & _ & _ & Hmap & Hbs0 & _ & _).
  destruct (backendServices_loop_graph _ _ _ _ _ _ Hbs)
    as ([f3 ->] & Hsome & Hbsdom & _).
  destruct (networkEndpointGroups_loop_graph _ _ _ _ _ _ Hneg) as ([f4 ->] & _).
  destruct (instanceGroups_loop_graph _ _ _ _ _ Hig) as ([f5 ->] & _).
  cbn in Hbsdom |- *.
  exists allGFRs, k, urlMap.
  split; [exact Hlist|].
  split; [intros Hnone; rewrite Hnone in Hfr; cbn in Hfr; discriminate|].
  split; [intros gfr Hin; destruct (Hall gfr Hin) as [_ H]; exact H|].
  split; [exact Hum|]. split; [exact Hvip|]. split; [exact Hdom|].
  split; [rewrite Hmap; reflexivity|]. split.
  - intros link Hin.
    destruct (Forall2_In_l _ _ _ _ Hres Hin) as (ko & Hko & resID & Hp & Hkey).
    destruct (Hsome ko Hko) as [kb ->]. eauto.
  - intros kb. split.
    + intros Hkb. apply Hbsdom in Hkb. destruct Hkb as [Hkb|Hkb].
      * rewrite Hbs0, dom_empty in Hkb. apply elem_of_empty in Hkb.
        destruct Hkb.
      * destruct (Forall2_In_r _ _ _ _ Hres Hkb)
          as (link & Hlink & resID & Hp & Hk).
        exists link, resID. split; [exact Hlink|]. split; assumption.
    + intros (link & resID & Hlink & Hp & Hk). apply Hbsdom. right.
      destruct (Forall2_In_l _ _ _ _ Hres Hlink)
        as (ko & Hko & resID' & Hp' & Hk').
      congruence.
Qed.

(** X6.  A graph that [GCLBForVIP] returns holds nothing but answers of the
    cloud: each target proxy, URL map, backend service, network endpoint
    group and instance group of the graph is the object that the Get of the
    GA service answers for the key it is stored under, and no entry carries
    an alpha or beta object. *)
Theorem GCLBForVIP_holds_answers
    (c : Cloud.Cloud) (vip : string) (validators : list FeatureValidator)
    (g : GCLB) :
  value_of (GCLBForVIP c vip validators) = Val g ->
  FuzzGraph.holdsAnswers c g.
Proof.
  intros Hval. apply GCLBForVIP_Val_inv in Hval.
  destruct Hval as (allGFRs & g1 & k & urlMap & bsKeys & g3 & negKeys & g4 &
                    igKeys & t1 & t3 & t4 & t5 & Hlist & Hfr & Hum & Hres &
                    Hbs & Hneg & Hig).
  destruct (forwardingRules_loop_graph _ _ _ _ _ _ _ Hfr)
    as (_ & _ & Htp & Htps & Hmap & Hbs0 & Hneg0 & Hig0).
  destruct (backendServices_loop_graph _ _ _ _ _ _ Hbs)
    as ([f3 ->] & _ & _ & Hbsans).
  destruct (networkEndpointGroups_loop_graph _ _ _ _ _ _ Hneg)
    as ([f4 ->] & Hnegans).
  destruct (instanceGroups_loop_graph _ _ _ _ _ Hig) as ([f5 ->] & Higans).
  cbn in Hbsans, Hnegans, Higans. unfold FuzzGraph.holdsAnswers. cbn.
  split; [exact Htp|]. split; [exact Htps|]. split; [|split; [|split]].
  - rewrite Hmap. apply holdsAnswer_insert; [apply holdsAnswer_empty|exact Hum].
  - apply Hbsans. rewrite Hbs0. apply holdsAnswer_empty.
  - apply Hnegans. rewrite Hneg0. apply holdsAnswer_empty.
  - apply Higans. rewrite Hig0. intros k' u H. rewrite lookup_empty in H.
    discriminate.
Qed.

End DiscoveryGraphProperties.

(** The sample graph, one of whose network endpoint groups is left. *)
Lemma CheckNEGDeletion_reports_present_witness :
  Fuzz.CheckNEGDeletion Samples.keyString Samples.mapOrder Samples.gclb_full
    Examples.cloud_neg_left None =
  ([Cloud.Get Cloud.BetaNetworkEndpointGroups
      (Some (Meta.ZonalKey "neg-1" "us-central1-a"))],
   Go.Fail (Go.Errorf "NEGs still exist (%s)" [Go.ArgString "Key{neg-1}"])).
Proof.
  rewrite (CheckNEGDeletion_reports_present Samples.keyString Samples.mapOrder
             Samples.gclb_full Examples.cloud_neg_left None).
  - vm_compute. reflexivity.
  - intros k _. exact I.
Defined.

(** The sample graph, the Get of whose network endpoint group answers code
    500. *)
Lemma CheckNEGDeletion_stops_at_first_error_witness :
  Fuzz.CheckNEGDeletion Samples.keyString Samples.mapOrder Samples.gclb_full
    Examples.cloud_neg_failing None =
  ([Cloud.Get Cloud.BetaNetworkEndpointGroups
      (Some (Meta.ZonalKey "neg-1" "us-central1-a"))],
   Go.Fail (Go.GoogleapiError 500 "internal error")).
Proof.
  apply (CheckNEGDeletion_stops_at_first_error Samples.keyString
           Samples.mapOrder Samples.gclb_full Examples.cloud_neg_failing None
           [] [] (Meta.ZonalKey "neg-1" "us-central1-a")
           (Go.GoogleapiError 500 "internal error")).
  - vm_compute. reflexivity.
  - intros k' [].
  - reflexivity.
  - intros message. discriminate.
Defined.

(** The small sample graph, the Get of whose URL map times out: the forwarding
    rule is gone, and the call panics at the URL map. *)
Lemma CheckResourceDeletion_panics_on_other_error_type_witness :
  Fuzz.CheckResourceDeletion Samples.keyString Samples.descriptionFromString
    Samples.mapOrder Samples.gclb_small Examples.cloud_timeout None =
  ([Cloud.Get Cloud.GlobalForwardingRules (Some (Meta.GlobalKey "fr-http"));
    Cloud.Get Cloud.UrlMaps (Some (Meta.GlobalKey "um-1"))],
   Go.Panic).
Proof.
  apply (CheckResourceDeletion_panics_on_other_error_type Samples.keyString
           Samples.descriptionFromString Samples.mapOrder Samples.gclb_small
           Examples.cloud_timeout None
           [(Fuzz.KForwardingRule, Meta.GlobalKey "fr-http")] []
           Fuzz.KURLMap (Meta.GlobalKey "um-1")
           (Go.ErrorString "context deadline exceeded")).
  - vm_compute. reflexivity.
  - intros kind' k' [[= <- <-]|[]]. cbn. eexists. reflexivity.
  - reflexivity.
  - discriminate.
  - intros code message. discriminate.
Defined.

(** A VIP that no forwarding rule of the sample cloud carries. *)
Lemma GCLBForVIP_without_forwarding_rule_witness :
  Fuzz.GCLBForVIP Samples.parseResourceURL unit Examples.cloud_one_lb
    "192.0.2.1" [] =
  ([Cloud.List Cloud.GlobalForwardingRules; Cloud.Get Cloud.UrlMaps None],
   Go.Fail (Go.GoogleapiError Go.StatusNotFound "not found")).
Proof.
  apply (GCLBForVIP_without_forwarding_rule Samples.parseResourceURL unit
           Examples.cloud_one_lb "192.0.2.1" []
           [Samples.fr_other; Samples.fr_http]); reflexivity.
Defined.

(** The load balancer of the sample cloud. *)
Lemma GCLBForVIP_graph_witness :
  Go.value_of
    (Fuzz.GCLBForVIP Samples.parseResourceURL unit Examples.cloud_one_lb
       "203.0.113.7" []) = Go.Val Examples.gclb_one_lb /\
  exists allGFRs k urlMap,
    Cloud.GlobalForwardingRules_List Examples.cloud_one_lb = Go.ok allGFRs /\
    Fuzz.rulesOfVIP "203.0.113.7" allGFRs <> [] /\
    (forall gfr, In gfr (Fuzz.rulesOfVIP "203.0.113.7" allGFRs) ->
       Fuzz.referencedUrlMapKey Samples.parseResourceURL Examples.cloud_one_lb
         gfr = Some k) /\
    Cloud.UrlMaps_Get Examples.cloud_one_lb (Some k) = Go.ok urlMap /\
    Fuzz.VIP Examples.gclb_one_lb = "203.0.113.7" /\
    (forall kf, kf ∈ dom (Fuzz.ForwardingRule Examples.gclb_one_lb) <->
       exists gfr, In gfr (Fuzz.rulesOfVIP "203.0.113.7" allGFRs) /\
                   kf = Meta.GlobalKey (Compute.ForwardingRule.Name gfr)) /\
    Fuzz.URLMap Examples.gclb_one_lb
      = {[ k := Fuzz.mkUnion (Some urlMap) None None ]} /\
    (forall link, In link (FuzzGraph.serviceLinks urlMap) ->
       exists resID kb,
         Samples.parseResourceURL link = Go.ok resID /\
         Cloud.Key resID = Some kb) /\
    (forall kb, kb ∈ dom (Fuzz.BackendService Examples.gclb_one_lb) <->
       exists link resID,
         In link (FuzzGraph.serviceLinks urlMap) /\
         Samples.parseResourceURL link = Go.ok resID /\
         Cloud.Key resID = Some kb).
Proof.
  assert (Hrun : Go.value_of
            (Fuzz.GCLBForVIP Samples.parseResourceURL unit Examples.cloud_one_lb
               "203.0.113.7" []) = Go.Val Examples.gclb_one_lb).
  { vm_compute. reflexivity. }
  split; [exact Hrun|].
  exact (GCLBForVIP_graph Samples.parseResourceURL unit Examples.cloud_one_lb
           "203.0.113.7" [] Examples.gclb_one_lb Hrun).
Defined.

Lemma GCLBForVIP_holds_answers_witness :
  Go.value_of
    (Fuzz.GCLBForVIP Samples.parseResourceURL unit Examples.cloud_one_lb
       "203.0.113.7" []) = Go.Val Examples.gclb_one_lb /\
  FuzzGraph.holdsAnswers Examples.cloud_one_lb Examples.gclb_one_lb.
Proof.
  assert (Hrun : Go.value_of
            (Fuzz.GCLBForVIP Samples.parseResourceURL unit Examples.cloud_one_lb
               "203.0.113.7" []) = Go.Val Examples.gclb_one_lb).
  { vm_compute. reflexivity. }
  split; [exact Hrun|].
  exact (GCLBForVIP_holds_answers Samples.parseResourceURL unit
           Examples.cloud_one_lb "203.0.113.7" [] Examples.gclb_one_lb Hrun).
Defined.

(** ** [ILBSubnetSourceRange] and the firewall controller's use of it *)

Section ILBSubnetProperties.

Import Go LBFeatures.

(** X7.  [ILBSubnetSourceRange] answers a range exactly when the subnets
    listed for the region include one whose role is ACTIVE and whose purpose
    is INTERNAL_HTTPS_LOAD_BALANCER, and the range is that of the first such
    subnet of the list.  Its two errors carry the region only: when the
    listing fails, the error of the cloud is dropped. *)
Theorem ILBSubnetSourceRange_first_active_subnet
    (AlphaSubnetworks_List : string -> result (list Subnetwork))
    (region : string) :
  (forall range,
     ILBSubnetSourceRange AlphaSubnetworks_List region = ok range <->
     exists pre subnet post,
       AlphaSubnetworks_List region = ok (pre ++ subnet :: post) /\
       Forall (fun s => ~ (Role s = "ACTIVE" /\
                           Purpose s = "INTERNAL_HTTPS_LOAD_BALANCER")) pre /\
       Role subnet = "ACTIVE" /\
       Purpose subnet = "INTERNAL_HTTPS_LOAD_BALANCER" /\
       IpCidrRange subnet = range) /\
  (forall e,
     ILBSubnetSourceRange AlphaSubnetworks_List region = err e ->
     (exists e', AlphaSubnetworks_List region = err e' /\
        e = Errorf "error obtaining subnets for region: %s" [ArgString region]) \/
     (exists subnets, AlphaSubnetworks_List region = ok subnets /\
        Forall (fun s => ~ (Role s = "ACTIVE" /\
                            Purpose s = "INTERNAL_HTTPS_LOAD_BALANCER")) subnets /\
        e = Errorf "L7 ILB Subnet not found in region: %s" [ArgString region])).
Proof.
  assert (Hfirst : forall subnets,
    match firstILBSubnet subnets with
    | Some range =>
        exists pre subnet post,
          subnets = pre ++ subnet :: post /\
          Forall (fun s => ~ (Role s = "ACTIVE" /\
                              Purpose s = "INTERNAL_HTTPS_LOAD_BALANCER")) pre /\
          Role subnet = "ACTIVE" /\
          Purpose subnet = "INTERNAL_HTTPS_LOAD_BALANCER" /\
          IpCidrRange subnet = range
    | None =>
        Forall (fun s => ~ (Role s = "ACTIVE" /\
                            Purpose s = "INTERNAL_HTTPS_LOAD_BALANCER")) subnets
    end).
  { induction subnets as [|s rest IH]; [constructor|].
    cbn [firstILBSubnet].
    destruct (String.eqb (Role s) "ACTIVE") eqn:Hr;
      [destruct (String.eqb (Purpose s) "INTERNAL_HTTPS_LOAD_BALANCER") eqn:Hp|];
      cbn [andb].
    - apply String.eqb_eq in Hr, Hp. exists [], s, rest. repeat split; auto.
    - assert (Hs : ~ (Role s = "ACTIVE" /\
                      Purpose s = "INTERNAL_HTTPS_LOAD_BALANCER")).
      { intros [_ H]. apply String.eqb_neq in Hp. contradiction. }
      destruct (firstILBSubnet rest) as [range|].
      + destruct IH as (pre & subnet & post & -> & Hpre & H1 & H2 & H3).
        exists (s :: pre), subnet, post. repeat split; auto.
      + constructor; assumption.
    - assert (Hs : ~ (Role s = "ACTIVE" /\
                      Purpose s = "INTERNAL_HTTPS_LOAD_BALANCER")).
      { intros [H _]. apply String.eqb_neq in Hr. contradiction. }
      destruct (firstILBSubnet rest) as [range|].
      + destruct IH as (pre & subnet & post & -> & Hpre & H1 & H2 & H3).
        exists (s :: pre), subnet, post. repeat split; auto.
      + constructor; assumption. }
  assert (Hskip : forall pre subnet post,
    Forall (fun s => ~ (Role s = "ACTIVE" /\
                        Purpose s = "INTERNAL_HTTPS_LOAD_BALANCER")) pre ->
    Role subnet = "ACTIVE" ->
    Purpose subnet = "INTERNAL_HTTPS_LOAD_BALANCER" ->
    firstILBSubnet (pre ++ subnet :: post) = Some (IpCidrRange subnet)).
  { intros pre subnet post Hpre H1 H2.
    induction Hpre as [|s pre Hs _ IH]; cbn [app firstILBSubnet].
    - rewrite H1, H2. reflexivity.
    - destruct (String.eqb (Role s) "ACTIVE") eqn:Hr;
        [destruct (String.eqb (Purpose s) "INTERNAL_HTTPS_LOAD_BALANCER") eqn:Hp|];
        cbn [andb]; try exact IH.
      apply String.eqb_eq in Hr, Hp. exfalso. apply Hs. auto. }
  unfold ILBSubnetSourceRange. split.
  - intros range. split.
    + destruct (AlphaSubnetworks_List region) as [subnets|e]; [|discriminate].
      pose proof (Hfirst subnets) as H.
      destruct (firstILBSubnet subnets) as [r|]; [|discriminate].
      intros [= ->]. destruct H as (pre & subnet & post & -> & H).
      exists pre, subnet, post. split; [reflexivity|exact H].
    + intros (pre & subnet & post & -> & Hpre & H1 & H2 & <-).
      rewrite (Hskip pre subnet post Hpre H1 H2). reflexivity.
  - intros e. destruct (AlphaSubnetworks_List region) as [subnets|e'].
    + pose proof (Hfirst subnets) as H.
      destruct (firstILBSubnet subnets) as [r|]; [discriminate|].
      intros [= <-]. right. exists subnets. auto.
    + intros [= <-]. left. exists e'. auto.
Qed.

End ILBSubnetProperties.

Section FirewallSyncEdgeProperties.

Import Firewalls.

Variable ServicePort : Type.
Variable GCEURLMap : Type.
Variable IsGCEIngress : Ingress -> bool.
Variable IsGCEL7ILBIngress : Ingress -> bool.
Variable SuppressFirewallXPNError : Ingress -> bool.
Variable TranslateIngress : Ingress -> GCEURLMap.
Variable AllServicePorts : GCEURLMap -> list ServicePort.
Variable UpdateServicePortsForILB :
  list ServicePort -> Ingress -> list ServicePort.
Variable GatherEndpointPorts : list ServicePort -> list string.

Local Abbreviation sync :=
  (Firewalls.sync ServicePort GCEURLMap IsGCEIngress IsGCEL7ILBIngress
     SuppressFirewallXPNError TranslateIngress AllServicePorts
     UpdateServicePortsForILB GatherEndpointPorts).
Local Abbreviation gceIngressesOf := (Firewalls.gceIngressesOf IsGCEIngress).
Local Abbreviation ToSvcPorts :=
  (Firewalls.ToSvcPorts ServicePort GCEURLMap IsGCEL7ILBIngress TranslateIngress
     AllServicePorts UpdateServicePortsForILB).

Lemma length_eqb_0_false {A : Type} (l : list A) :
  l <> [] -> (length l =? 0)%nat = false.
Proof. destruct l; [contradiction|reflexivity]. Qed.

(** X8.  With the L7-ILB flag set and managed ingresses none of which is an
    ILB ingress, [sync] does not list the subnets, and the additional ranges
    it passes to the firewall pool's [Sync] are the one empty string that
    [ilbFirewallSrcRange] answers, not an empty list. *)
Theorem sync_ilb_flag_without_ilb_ingress
    (fwc : FirewallController) (key : string) (nodeNames : list string) :
  hasSynced fwc = true ->
  gceIngressesOf fwc <> [] ->
  GetReadyNodeNames fwc = Go.ok nodeNames ->
  EnableL7Ilb fwc = true ->
  existsb IsGCEL7ILBIngress (gceIngressesOf fwc) = false ->
  exists events,
    Go.trace_of (sync fwc key) =
      FirewallPoolSync nodeNames
        (GatherEndpointPorts (ToSvcPorts fwc (gceIngressesOf fwc))) [""]
      :: events /\
    Forall (fun e => isEvent e = true) events.
Proof.
  intros Hs Hne Hnodes Hflag Hilb. unfold Firewalls.sync.
  unfold Firewalls.gceIngressesOf in *.
  rewrite Hs, (length_eqb_0_false _ Hne), Hnodes, Hflag. cbn [negb].
  unfold Firewalls.ilbFirewallSrcRange. rewrite Hilb. cbn.
  destruct (firewallPool_Sync fwc nodeNames _ [""]) as [[code m| |message|m|f a]|];
    cbn; try (exists []; split; [reflexivity|constructor]).
  rewrite (raiseXPNEvents_spec SuppressFirewallXPNError). cbn.
  eexists. split; [rewrite app_nil_r; reflexivity|].
  apply List.Forall_forall. intros e He. apply in_map_iff in He.
  destruct He as (ing & <- & _). reflexivity.
Qed.

(** X9.  With the L7-ILB flag set and an ILB ingress among the managed ones,
    a failure to find the subnet range ends [sync] before the firewall pool
    is touched: the subnets are listed, nothing else is done, and the error
    returned wraps the one of [ILBSubnetSourceRange]. *)
Theorem sync_ilb_subnet_error
    (fwc : FirewallController) (key : string) (nodeNames : list string)
    (e : Go.error) :
  hasSynced fwc = true ->
  GetReadyNodeNames fwc = Go.ok nodeNames ->
  EnableL7Ilb fwc = true ->
  existsb IsGCEL7ILBIngress (gceIngressesOf fwc) = true ->
  LBFeatures.ILBSubnetSourceRange (AlphaSubnetworks_List fwc) (Region fwc)
    = Go.err e ->
  sync fwc key =
  ([ListSubnetworks (Region fwc)],
   Some (Go.Errorf "error unable to get ILB subnet source ranges: %v"
           [Go.ArgError e])).
Proof.
  intros Hs Hnodes Hflag Hilb Herr. unfold Firewalls.sync.
  unfold Firewalls.gceIngressesOf in *.
  assert (Hne : List.filter IsGCEIngress (Ingresses_List fwc) <> []).
  { intros H. rewrite H in Hilb. discriminate. }
  rewrite Hs, (length_eqb_0_false _ Hne), Hnodes, Hflag. cbn [negb].
  unfold Firewalls.ilbFirewallSrcRange. rewrite Hilb, Herr. reflexivity.
Qed.

(** X10.  What [sync] never does: it calls the firewall pool's [Sync] at
    most once; a run that calls [GC] does nothing else; before the stores
    have synced it only sleeps and returns an error; and when the ready nodes
    cannot be listed it returns that error without any call. *)
Theorem sync_calls
    (fwc : FirewallController) (key : string) :
  length (List.filter isSyncCall (Go.trace_of (sync fwc key))) <= 1 /\
  (In FirewallPoolGC (Go.trace_of (sync fwc key)) ->
   sync fwc key = ([FirewallPoolGC], None)) /\
  (hasSynced fwc = false ->
   sync fwc key = ([Sleep], Some (Go.Errorf "waiting for stores to sync" []))) /\
  (forall e,
     hasSynced fwc = true -> gceIngressesOf fwc <> [] ->
     GetReadyNodeNames fwc = Go.err e ->
     sync fwc key = ([], Some e)).
Proof.
  assert (Hevents : forall message ings,
    List.filter isSyncCall
      (Go.trace_of (Firewalls.raiseXPNEvents SuppressFirewallXPNError message ings))
    = [] /\
    ~ In FirewallPoolGC
        (Go.trace_of (Firewalls.raiseXPNEvents SuppressFirewallXPNError message
                        ings))).
  { intros message ings. rewrite (raiseXPNEvents_spec SuppressFirewallXPNError).
    cbn [Go.trace_of fst]. split.
    - induction (List.filter _ ings) as [|i l IH]; [reflexivity|exact IH].
    - intros H. apply in_map_iff in H. destruct H as (i & [=] & _). }
  assert (Hquiet : forall pre,
    quiet pre -> List.filter isSyncCall pre = []).
  { induction 1 as [|x l [Hx _] _ IH]; [reflexivity|].
    cbn. rewrite Hx. exact IH. }
  split; [|split; [|split]].
  - destruct (sync_shape ServicePort GCEURLMap IsGCEIngress IsGCEL7ILBIngress
                SuppressFirewallXPNError TranslateIngress AllServicePorts
                UpdateServicePortsForILB GatherEndpointPorts fwc key)
      as [Hq|(pre & n & p & r & Hpre & Hsync)].
    + rewrite (Hquiet _ Hq). cbn. lia.
    + rewrite Hsync.
      destruct (firewallPool_Sync fwc n p r) as [[code m| |message|m|f a]|];
        cbn [Go.trace_of fst]; rewrite List.filter_app, (Hquiet _ Hpre);
        cbn; try lia.
      destruct (Hevents message (Firewalls.gceIngressesOf IsGCEIngress fwc))
        as [-> _].
      cbn. lia.
  - unfold Firewalls.sync.
    destruct (hasSynced fwc); cbn [negb];
      [|intros [H|[]]; discriminate H].
    destruct (length _ =? 0)%nat; [intros _; reflexivity|].
    destruct (GetReadyNodeNames fwc) as [nodeNames|e]; [|intros []].
    intros Hin. exfalso. revert Hin.
    destruct (EnableL7Ilb fwc);
      [unfold Firewalls.ilbFirewallSrcRange;
       destruct (existsb _ _);
       [destruct (LBFeatures.ILBSubnetSourceRange _ _) as [range|e]|]|];
      cbn;
      try (destruct (firewallPool_Sync fwc nodeNames _ _)
             as [[code m| |message|m|f a]|]);
      try rewrite (raiseXPNEvents_spec SuppressFirewallXPNError);
      cbn; intros H;
      repeat (destruct H as [H|H]; [discriminate H|]);
      first [solve [destruct H]
            |rewrite app_nil_r in H; apply in_map_iff in H;
             destruct H as (i & Heq & _); discriminate Heq].
  - intros Hs. unfold Firewalls.sync. rewrite Hs. reflexivity.
  - intros e Hs Hne Hnodes. unfold Firewalls.sync.
    unfold Firewalls.gceIngressesOf in Hne.
    rewrite Hs, (length_eqb_0_false _ Hne), Hnodes. reflexivity.
Qed.

End FirewallSyncEdgeProperties.

(** The flag set, and one external ingress. *)
Lemma sync_ilb_flag_without_ilb_ingress_witness :
  exists events,
    Go.trace_of
      (Firewalls.sync Z (list Z) Samples.isGCEIngress Samples.isGCEL7ILBIngress
         Samples.suppressFirewallXPNError Samples.translateIngress
         (fun m => m) (fun ports _ => ports) Samples.gatherEndpointPorts
         Examples.fwc_ilb_flag "queueKey") =
    Firewalls.FirewallPoolSync ["node-1"] ["8080"] [""] :: events /\
    Forall (fun e => Firewalls.isEvent e = true) events.
Proof.
  apply (sync_ilb_flag_without_ilb_ingress Z (list Z) Samples.isGCEIngress
           Samples.isGCEL7ILBIngress Samples.suppressFirewallXPNError
           Samples.translateIngress (fun m => m) (fun ports _ => ports)
           Samples.gatherEndpointPorts Examples.fwc_ilb_flag "queueKey"
           ["node-1"]); try reflexivity.
  discriminate.
Defined.

(** The flag set, an internal ingress, and no subnet for it. *)
Lemma sync_ilb_subnet_error_witness :
  Firewalls.sync Z (list Z) Samples.isGCEIngress Samples.isGCEL7ILBIngress
    Samples.suppressFirewallXPNError Samples.translateIngress
    (fun m => m) (fun ports _ => ports) Samples.gatherEndpointPorts
    Examples.fwc_ilb_no_subnet "queueKey" =
  ([Firewalls.ListSubnetworks "us-central1"],
   Some (Go.Errorf "error unable to get ILB subnet source ranges: %v"
           [Go.ArgError
              (Go.Errorf "L7 ILB Subnet not found in region: %s"
                 [Go.ArgString "us-central1"])])).
Proof.
  apply (sync_ilb_subnet_error Z (list Z) Samples.isGCEIngress
           Samples.isGCEL7ILBIngress Samples.suppressFirewallXPNError
           Samples.translateIngress (fun m => m) (fun ports _ => ports)
           Samples.gatherEndpointPorts Examples.fwc_ilb_no_subnet "queueKey"
           ["node-1"]); reflexivity.
Defined.

(** ** [NetworkEndpointsInNegs] *)

Section NetworkEndpointsProperties.

Import Go FuzzEndpoints.

Variable NetworkEndpointWithHealthStatus : Type.
Variable NetworkEndpointGroups_Get :
  option Meta.Key -> result Compute.NetworkEndpointGroup.t.
Variable NetworkEndpointGroups_ListNetworkEndpoints :
  option Meta.Key -> string -> result (list NetworkEndpointWithHealthStatus).

Local Abbreviation NetworkEndpointsInNegs :=
  (FuzzEndpoints.NetworkEndpointsInNegs NetworkEndpointWithHealthStatus
     NetworkEndpointGroups_Get NetworkEndpointGroups_ListNetworkEndpoints).
Local Abbreviation answerOf :=
  (FuzzEndpoints.answerOf NetworkEndpointWithHealthStatus
     NetworkEndpointGroups_Get NetworkEndpointGroups_ListNetworkEndpoints).
Local Abbreviation zoneLoop name :=
  (fun (ret : gmap Meta.Key (NetworkEndpoints NetworkEndpointWithHealthStatus))
       (zone : string) =>
     Go.mbind
       ([Get (Some (Meta.ZonalKey name zone))],
        Val (NetworkEndpointGroups_Get (Some (Meta.ZonalKey name zone))))
       (fun r =>
     Go.mbind (try r) (fun neg =>
     Go.mbind
       ([ListNetworkEndpoints (Some (Meta.ZonalKey name zone)) "SHOW"],
        Val (NetworkEndpointGroups_ListNetworkEndpoints
               (Some (Meta.ZonalKey name zone)) "SHOW"))
       (fun r =>
     Go.mbind (try r) (fun nes =>
     Go.mbind (deref (Some (Meta.ZonalKey name zone))) (fun k =>
     mret (<[k := mkNetworkEndpoints
                    (NEG (@mkNetworkEndpoints NetworkEndpointWithHealthStatus
                            (Some neg) [])) nes]> ret))))))).

Lemma range_cons_Val {Ev A S : Type} (x : A) (l : list A)
    (body : S -> A -> M Ev S) (s s1 : S) (t1 : list Ev) :
  body s x = (t1, Val s1) ->
  range (x :: l) body s =
  (t1 ++ trace_of (range l body s1), value_of (range l body s1)).
Proof.
  intros H. cbn [range]. rewrite H. unfold Go.mbind.
  destruct (range l body s1). reflexivity.
Qed.

Lemma range_cons_stop {Ev A S : Type} (x : A) (l : list A)
    (body : S -> A -> M Ev S) (s : S) (t1 : list Ev) (r : flow S) :
  body s x = (t1, r) -> (forall s1, r <> Val s1) ->
  range (x :: l) body s = (t1, r).
Proof.
  intros H Hr. cbn [range]. rewrite H. destruct r as [s1|e|]; try reflexivity.
  exfalso. exact (Hr s1 eq_refl).
Qed.

Lemma range_app_Val {Ev A S : Type} (l1 l2 : list A)
    (body : S -> A -> M Ev S) (s s1 : S) (t1 : list Ev) :
  range l1 body s = (t1, Val s1) ->
  range (l1 ++ l2) body s =
  (t1 ++ trace_of (range l2 body s1), value_of (range l2 body s1)).
Proof.
  intros H. rewrite range_app, H. unfold Go.mbind.
  destruct (range l2 body s1). reflexivity.
Qed.

(** A turn of the loop, by what the cloud answers for the zone. *)
Lemma zoneLoop_step (name zone : string)
    (ret : gmap Meta.Key (NetworkEndpoints NetworkEndpointWithHealthStatus)) :
  zoneLoop name ret zone =
  match answerOf name zone with
  | ok ne => (callsOf name zone, Val (<[Meta.ZonalKey name zone := ne]> ret))
  | err e =>
      (match NetworkEndpointGroups_Get (Some (Meta.ZonalKey name zone)) with
       | ok _ => callsOf name zone
       | err _ => [Get (Some (Meta.ZonalKey name zone))]
       end, Fail e)
  end.
Proof.
  unfold FuzzEndpoints.answerOf, callsOf. cbn.
  destruct (NetworkEndpointGroups_Get _) as [neg|e]; cbn; [|reflexivity].
  destruct (NetworkEndpointGroups_ListNetworkEndpoints _ _) as [nes|e]; cbn;
    reflexivity.
Qed.

(** The loop over zones all of which answer. *)
Lemma zoneLoop_ok (name : string) (zones : list string)
    (ret : gmap Meta.Key (NetworkEndpoints NetworkEndpointWithHealthStatus)) :
  (forall zone, In zone zones -> exists ne, answerOf name zone = ok ne) ->
  exists ret',
    range zones (zoneLoop name) ret = (flat_map (callsOf name) zones, Val ret') /\
    (forall zone, In zone zones ->
       exists ne, answerOf name zone = ok ne /\
                  ret' !! Meta.ZonalKey name zone = Some ne) /\
    (forall k, ret' !! k = ret !! k \/
               exists zone, In zone zones /\ k = Meta.ZonalKey name zone).
Proof.
  revert ret. induction zones as [|zone zones IH]; intros ret Hall.
  - exists ret. split; [reflexivity|]. split; [intros zone []|auto].
  - destruct (Hall zone (or_introl eq_refl)) as [ne Hne].
    destruct (IH (<[Meta.ZonalKey name zone := ne]> ret)) as (ret' & Hrun & Hin & Hout).
    { intros z Hz. apply Hall. right. exact Hz. }
    exists ret'. split; [|split].
    + rewrite (range_cons_Val zone zones (zoneLoop name) ret
                 (<[Meta.ZonalKey name zone := ne]> ret) (callsOf name zone))
        by (rewrite zoneLoop_step, Hne; reflexivity).
      rewrite Hrun. reflexivity.
    + intros z [<-|Hz]; [|exact (Hin z Hz)].
      exists ne. split; [exact Hne|].
      destruct (Hout (Meta.ZonalKey name zone)) as [->|(z' & Hz' & Heq)].
      * apply lookup_insert_eq.
      * destruct (Hin z' Hz') as (ne' & Hne' & Hlook).
        assert (z' = zone) by (injection Heq; auto). subst z'.
        rewrite Hlook. congruence.
    + intros k. destruct (Hout k) as [Hk|(z & Hz & ->)].
      * destruct (decide (Meta.ZonalKey name zone = k)) as [<-|Hk'].
        -- right. exists zone. split; [left|]; reflexivity.
        -- left. rewrite Hk. apply lookup_insert_ne. exact Hk'.
      * right. exists z. split; [right; exact Hz|reflexivity].
Qed.

(** X11.  When the cloud answers the group and its endpoints for every zone,
    [NetworkEndpointsInNegs] makes the two calls for each zone, in the order
    of the zones, and returns a map that holds, under the zonal key of the
    name in each zone, the group and the endpoints that the cloud answered,
    and nothing under any other key. *)
Theorem NetworkEndpointsInNegs_all_zones (name : string) (zones : list string) :
  (forall zone, In zone zones -> exists ne, answerOf name zone = ok ne) ->
  exists ret,
    NetworkEndpointsInNegs name zones =
      (flat_map (callsOf name) zones, Val ret) /\
    (forall zone, In zone zones ->
       exists ne, answerOf name zone = ok ne /\
                  ret !! Meta.ZonalKey name zone = Some ne) /\
    (forall k, is_Some (ret !! k) ->
       exists zone, In zone zones /\ k = Meta.ZonalKey name zone).
Proof.
  intros Hall. destruct (zoneLoop_ok name zones ∅ Hall) as (ret & Hrun & Hin & Hout).
  exists ret. split; [|split; [exact Hin|]].
  - unfold FuzzEndpoints.NetworkEndpointsInNegs.
    change (range zones _ ∅) with (range zones (zoneLoop name) ∅).
    rewrite Hrun. cbn. rewrite app_nil_r. reflexivity.
  - intros k [ne Hk]. destruct (Hout k) as [H|H]; [|exact H].
    rewrite Hk, lookup_empty in H. discriminate.
Qed.

(** X12.  [NetworkEndpointsInNegs] returns no map when a call fails: at the
    first zone, in the order given, for which the Get of the group or the
    listing of its endpoints fails, it returns that error, and it makes no
    call for the zones after it (nor the listing, when it is the Get that
    failed). *)
Theorem NetworkEndpointsInNegs_first_error
    (name : string) (pre post : list string) (zone : string) (e : error) :
  (forall zone', In zone' pre -> exists ne, answerOf name zone' = ok ne) ->
  answerOf name zone = err e ->
  NetworkEndpointsInNegs name (pre ++ zone :: post) =
  (flat_map (callsOf name) pre ++
   match NetworkEndpointGroups_Get (Some (Meta.ZonalKey name zone)) with
   | ok _ => callsOf name zone
   | err _ => [Get (Some (Meta.ZonalKey name zone))]
   end,
   Fail e).
Proof.
  intros Hpre Hzone.
  destruct (zoneLoop_ok name pre ∅ Hpre) as (ret & Hrun & _).
  unfold FuzzEndpoints.NetworkEndpointsInNegs.
  change (range (pre ++ zone :: post) _ ∅)
    with (range (pre ++ zone :: post) (zoneLoop name) ∅).
  rewrite (range_app_Val _ _ _ _ _ _ Hrun).
  rewrite (range_cons_stop zone post (zoneLoop name) ret
             (match NetworkEndpointGroups_Get (Some (Meta.ZonalKey name zone)) with
              | ok _ => callsOf name zone
              | err _ => [Get (Some (Meta.ZonalKey name zone))]
              end) (Fail e)).
  - reflexivity.
  - rewrite zoneLoop_step, Hzone. reflexivity.
  - discriminate.
Qed.

End NetworkEndpointsProperties.

(** The two zones that have the group. *)
Lemma NetworkEndpointsInNegs_all_zones_witness :
  exists ret,
    FuzzEndpoints.NetworkEndpointsInNegs string Examples.negOf
      Examples.endpointsOf "neg-1" ["us-central1-a"; "us-central1-b"] =
      ([FuzzEndpoints.Get (Some (Meta.ZonalKey "neg-1" "us-central1-a"));
        FuzzEndpoints.ListNetworkEndpoints
          (Some (Meta.ZonalKey "neg-1" "us-central1-a")) "SHOW";
        FuzzEndpoints.Get (Some (Meta.ZonalKey "neg-1" "us-central1-b"));
        FuzzEndpoints.ListNetworkEndpoints
          (Some (Meta.ZonalKey "neg-1" "us-central1-b")) "SHOW"],
       Go.Val ret) /\
    ret !! Meta.ZonalKey "neg-1" "us-central1-a" =
      Some (FuzzEndpoints.mkNetworkEndpoints (Some Samples.neg_1)
              ["10.0.0.1:8080"]) /\
    forall k, is_Some (ret !! k) ->
      exists zone, In zone ["us-central1-a"; "us-central1-b"] /\
                   k = Meta.ZonalKey "neg-1" zone.
Proof.
  destruct (NetworkEndpointsInNegs_all_zones string Examples.negOf
              Examples.endpointsOf "neg-1" ["us-central1-a"; "us-central1-b"])
    as (ret & Hrun & Hin & Hout).
  { intros zone [<-|[<-|[]]]; eexists; reflexivity. }
  exists ret. split; [exact Hrun|]. split; [|exact Hout].
  destruct (Hin "us-central1-a" (or_introl eq_refl)) as (ne & Hne & Hlook).
  rewrite Hlook.
  change (Go.ok (FuzzEndpoints.mkNetworkEndpoints (Some Samples.neg_1)
                   ["10.0.0.1:8080"]) = Go.ok ne) in Hne.
  injection Hne as <-. reflexivity.
Defined.

(** A third zone, which does not have the group, between the two. *)
Lemma NetworkEndpointsInNegs_first_error_witness :
  FuzzEndpoints.NetworkEndpointsInNegs string Examples.negOf
    Examples.endpointsOf "neg-1"
    ["us-central1-a"; "us-central1-c"; "us-central1-b"] =
  ([FuzzEndpoints.Get (Some (Meta.ZonalKey "neg-1" "us-central1-a"));
    FuzzEndpoints.ListNetworkEndpoints
      (Some (Meta.ZonalKey "neg-1" "us-central1-a")) "SHOW";
    FuzzEndpoints.Get (Some (Meta.ZonalKey "neg-1" "us-central1-c"))],
   Go.Fail (Go.GoogleapiError Go.StatusNotFound "not found")).
Proof.
  apply (NetworkEndpointsInNegs_first_error string Examples.negOf
           Examples.endpointsOf "neg-1" ["us-central1-a"] ["us-central1-b"]
           "us-central1-c").
  - intros zone [<-|[]]. eexists. reflexivity.
  - reflexivity.
Defined.

(** ** The backend pool: [ensureDescription] and [Delete] *)

Section BackendPoolProperties.

Import Go BackendPool.

Variable ServicePort : Type.
Variable Description : Type.
Variable GetDescription : ServicePort -> Description.
Variable SetDescription : Description -> ServicePort -> Description.
Variable DescriptionString : Description -> string.
Variable IsHTTPErrorCode : option error -> Z -> bool.
Variable ILBVersion : Meta.Version.
Variable compositeCloud : Backends.CompositeCloud.
Variable DeleteBackendService_answer : Meta.Version -> Meta.Key -> option error.

Local Abbreviation ensureDescription :=
  (BackendPool.ensureDescription ServicePort Description GetDescription
     SetDescription DescriptionString).
Local Abbreviation Delete :=
  (BackendPool.Delete IsHTTPErrorCode ILBVersion compositeCloud
     DeleteBackendService_answer).

(** X13.  [ensureDescription] is idempotent.  It reports an update exactly
    when the description of the backend service differs from the one
    computed for the service port; it leaves the backend service with that
    description and every other field as it was; and a second call on the
    result reports no update and changes nothing. *)
Theorem ensureDescription_idempotent
    (be : Composite.BackendService) (sp : ServicePort) :
  let descString :=
    DescriptionString (SetDescription (GetDescription sp) sp) in
  let needsUpdate := fst (ensureDescription be sp) in
  let be' := snd (ensureDescription be sp) in
  (needsUpdate = true <-> Composite.Description be <> descString) /\
  be' = set_Description descString be /\
  ensureDescription be' sp = (false, be').
Proof.
  cbv zeta. unfold BackendPool.ensureDescription.
  destruct (String.eqb (Composite.Description be) _) eqn:Heq; cbn [fst snd].
  - apply String.eqb_eq in Heq. split; [|split].
    + split; [discriminate|]. intros H. contradiction.
    + rewrite <- Heq. destruct be. reflexivity.
    + rewrite Heq, String.eqb_refl. reflexivity.
  - apply String.eqb_neq in Heq. split; [|split].
    + split; [intros _; exact Heq|reflexivity].
    + reflexivity.
    + cbn. rewrite String.eqb_refl. reflexivity.
Qed.

(** X14.  [Delete] never reports that the backend service was not found:
    it makes the one deletion call, at the ILB version for a regional backend
    service and at GA otherwise, and by its deferred function it returns nil
    when the cloud answers nil or an error that [utils.IsHTTPErrorCode]
    classifies as 404, and the error of the cloud in every other case. *)
Theorem Delete_not_found_is_success (name : string) (regional : bool) :
  let version := if regional then ILBVersion else Meta.VersionGA in
  let key := Backends.CreateKey compositeCloud name regional in
  let answer := DeleteBackendService_answer version key in
  trace_of (Delete name regional) = [DeleteBackendService version key] /\
  (value_of (Delete name regional) = None <->
   answer = None \/ IsHTTPErrorCode answer StatusNotFound = true) /\
  (forall e, value_of (Delete name regional) = Some e ->
     answer = Some e /\ IsHTTPErrorCode (Some e) StatusNotFound = false).
Proof.
  cbv zeta. unfold BackendPool.Delete.
  set (version := if regional then ILBVersion else Meta.VersionGA).
  set (key := Backends.CreateKey compositeCloud name regional).
  destruct (DeleteBackendService_answer version key) as [e|] eqn:Ha.
  - destruct (IsHTTPErrorCode (Some e) StatusNotFound) eqn:Hc; cbn;
      rewrite ?Hc; cbn.
    + split; [reflexivity|]. split; [split; auto|]. discriminate.
    + split; [reflexivity|]. split.
      * split; [discriminate|]. intros [H|H]; discriminate.
      * intros e' [= <-]. auto.
  - cbn. destruct (IsHTTPErrorCode None StatusNotFound); cbn;
      (split; [reflexivity|]); (split; [split; auto|discriminate]).
Qed.

End BackendPoolProperties.

(** ** The generator's [getGoType] *)

Section GeneratorProperties.

Import Generator.

Lemma Any_ind' (P : Any -> Prop) :
  P ANil -> (forall b, P (ABool b)) -> (forall n, P (ANumber n)) ->
  (forall s, P (AString s)) -> (forall items, P (AArray items)) ->
  (forall field, Forall (fun kv => P (snd kv)) field -> P (AObject field)) ->
  forall val, P val.
Proof.
  intros Hnil Hbool Hnum Hstr Harr Hobj. fix IH 1.
  intros [|b|n|s|items|field];
    [apply Hnil|apply Hbool|apply Hnum|apply Hstr|apply Harr|].
  apply Hobj. induction field as [|[k v] rest IHf]; constructor;
    [apply IH|exact IHf].
Qed.

Lemma assoc_map_snd {A B : Type} (f : A -> B) (key : string)
    (l : list (string * A)) :
  Converter.assoc key (map (fun kv => (fst kv, f (snd kv))) l) =
  option_map f (Converter.assoc key l).
Proof.
  induction l as [|[k a] rest IH]; [reflexivity|].
  cbn. destruct (String.eqb k key); [reflexivity|exact IH].
Qed.

Lemma assoc_Forall {A : Type} (Q : string * A -> Prop) (key : string)
    (l : list (string * A)) (a : A) :
  Forall Q l -> Converter.assoc key l = Some a -> exists k, Q (k, a).
Proof.
  induction 1 as [|[k v] rest Hv _ IH]; [discriminate|].
  cbn. destruct (String.eqb k key); [intros [= <-]; eauto|exact IH].
Qed.

(** [getGoType] on a map, with its calls to itself written as such. *)
Lemma getGoType_unfold (field : list (string * Any)) (typesQueue : list string) :
  getGoType (AObject field) typesQueue =
  let getGoTypeOf (key : string) (typesQueue : list string) :=
    match Converter.assoc key field with
    | Some v => getGoType v typesQueue
    | None => None
    end in
  let finish (propType : string) (typesQueue : list string)
             (override : bool) (err : option Error) :=
    Some (mkResults propType typesQueue
            (if eqString (index field "type") "string"
                && negb (String.eqb propType "string")
             then true else override) err) in
  match Converter.assoc "$ref" field with
  | Some ref =>
      refName ← assertString ref;
      finish ("*" ++ refName)%string (typesQueue ++ [refName]) false None
  | None =>
      if eqString (index field "type") "array" then
        r ← getGoTypeOf "items" typesQueue;
        finish ("[]" ++ propType r)%string (Generator.typesQueue r) (override r)
          (err r)
      else if eqString (index field "type") "object" then
        match Converter.assoc "additionalProperties" field with
        | Some _ =>
            r ← getGoTypeOf "additionalProperties" typesQueue;
            finish ("map[string]" ++ propType r)%string (Generator.typesQueue r)
              (override r) (err r)
        | None => finish "map[string]string" typesQueue false None
        end
      else
        match Converter.assoc "format" field with
        | Some format =>
            f ← assertString format;
            finish
              (if String.eqb f "byte" then "string"
               else if String.eqb f "float" then "float64"
               else if String.eqb f "int32" then "int64"
               else f)
              typesQueue false None
        | None =>
            if negb (eqString (index field "type") "") then
              t ← assertString (index field "type");
              finish (if String.eqb t "boolean" then "bool" else t)
                typesQueue false None
            else
              finish "" typesQueue false
                (Some (UnableToGetPropertyType (AObject field)))
        end
  end.
Proof.
  cbn [getGoType]. cbv zeta. rewrite !assoc_map_snd.
  destruct (Converter.assoc "$ref" field); [reflexivity|].
  destruct (eqString (index field "type") "array").
  { destruct (Converter.assoc "items" field); reflexivity. }
  destruct (eqString (index field "type") "object"); [|reflexivity].
  destruct (Converter.assoc "additionalProperties" field); reflexivity.
Qed.

Lemma referenced_unfold (field : list (string * Any)) :
  referenced (AObject field) =
  let referencedOf (key : string) :=
    match Converter.assoc key field with
    | Some v => referenced v
    | None => []
    end in
  match Converter.assoc "$ref" field with
  | Some (AString refName) => [refName]
  | Some _ => []
  | None =>
      if eqString (index field "type") "array" then referencedOf "items"
      else if eqString (index field "type") "object" then
        referencedOf "additionalProperties"
      else []
  end.
Proof.
  cbn [referenced]. cbv zeta. rewrite !assoc_map_snd.
  destruct (Converter.assoc "$ref" field) as [[]|]; try reflexivity.
  destruct (eqString (index field "type") "array").
  { destruct (Converter.assoc "items" field); reflexivity. }
  destruct (eqString (index field "type") "object"); [|reflexivity].
  destruct (Converter.assoc "additionalProperties" field); reflexivity.
Qed.

(** X15.  What [getGoType] does to the queue of types.  When it returns, the
    queue is the one it was given followed by the type that the property
    refers to, if any: at most one name, the one under [$ref] of the property
    or of what it is an array or a map of, in which case the Go type is a
    pointer to that type inside its slices and maps.  The other results do
    not depend on the queue. *)
Theorem getGoType_queue (val : Any) :
  forall (typesQueue : list string) (r : Results),
    getGoType val typesQueue = Some r ->
    Generator.typesQueue r = typesQueue ++ referenced val /\
    (length (referenced val) <= 1)%nat /\
    (forall refName, referenced val = [refName] ->
       exists wrappers, propType r = (wrappers ++ "*" ++ refName)%string) /\
    (forall typesQueue',
       getGoType val typesQueue' =
       Some (mkResults (propType r) (typesQueue' ++ referenced val)
               (override r) (err r))).
Proof.
  induction val as [|b|n|s|items|field IH] using Any_ind';
    try discriminate.
  intros q r. rewrite referenced_unfold. cbv zeta.
  assert (Hq : forall q', getGoType (AObject field) q' = _)
    by (intros q'; apply getGoType_unfold).
  rewrite Hq. cbv zeta.
  destruct (Converter.assoc "$ref" field) as [ref|] eqn:Href.
  { destruct ref as [| | |refName| |]; try discriminate.
    intros H. cbn in H. injection H as <-.
    cbn [propType Generator.typesQueue override err].
    split; [reflexivity|]. split; [cbn; lia|]. split.
    - intros n [= <-]. exists ""%string. reflexivity.
    - intros q'. rewrite Hq. reflexivity. }
  destruct (eqString (index field "type") "array") eqn:Harr.
  { destruct (Converter.assoc "items" field) as [v|] eqn:Hitems;
      [|discriminate].
    destruct (assoc_Forall _ _ _ _ IH Hitems) as [k IHv]. cbn [snd] in IHv.
    destruct (getGoType v q) as [r0|] eqn:Hv; [|discriminate].
    intros H. cbn in H. injection H as <-.
    cbn [propType Generator.typesQueue override err].
    destruct (IHv q r0 Hv) as (H1 & H2 & H3 & H4).
    split; [exact H1|]. split; [exact H2|]. split.
    - intros n Hn. destruct (H3 n Hn) as [w ->]. exists ("[]" ++ w)%string.
      reflexivity.
    - intros q'. rewrite Hq. cbv beta zeta. rewrite Hitems, (H4 q').
      reflexivity. }
  destruct (eqString (index field "type") "object") eqn:Hobj.
  { destruct (Converter.assoc "additionalProperties" field) as [v|] eqn:Hadd.
    - destruct (assoc_Forall _ _ _ _ IH Hadd) as [k IHv]. cbn [snd] in IHv.
      destruct (getGoType v q) as [r0|] eqn:Hv; [|discriminate].
      intros H. cbn in H. injection H as <-.
      cbn [propType Generator.typesQueue override err].
      destruct (IHv q r0 Hv) as (H1 & H2 & H3 & H4).
      split; [exact H1|]. split; [exact H2|]. split.
      + intros n Hn. destruct (H3 n Hn) as [w ->].
        exists ("map[string]" ++ w)%string. reflexivity.
      + intros q'. rewrite Hq. cbv beta zeta. rewrite Hadd, (H4 q').
        reflexivity.
    - intros [= <-]. cbn [propType Generator.typesQueue override err].
      rewrite app_nil_r. split; [reflexivity|].
      split; [cbn; lia|]. split; [discriminate|].
      intros q'. rewrite Hq, app_nil_r. reflexivity. }
  destruct (Converter.assoc "format" field) as [format|] eqn:Hformat.
  { destruct format as [| | |f| |]; try discriminate.
    intros H. cbn in H. injection H as <-.
    cbn [propType Generator.typesQueue override err].
    rewrite app_nil_r. split; [reflexivity|].
    split; [cbn; lia|]. split; [discriminate|].
    intros q'. rewrite Hq, app_nil_r. reflexivity. }
  destruct (negb (eqString (index field "type") "")) eqn:Hty.
  - destruct (index field "type") as [| | |t| |] eqn:Hidx; try discriminate.
    intros H. cbn in H. injection H as <-.
    cbn [propType Generator.typesQueue override err].
    rewrite app_nil_r. split; [reflexivity|].
    split; [cbn; lia|]. split; [discriminate|].
    intros q'. rewrite Hq, app_nil_r. reflexivity.
  - intros [= <-]. cbn [propType Generator.typesQueue override err].
    rewrite app_nil_r. split; [reflexivity|].
    split; [cbn; lia|]. split; [discriminate|].
    intros q'. rewrite Hq, app_nil_r. reflexivity.
Qed.

Lemma eqString_true (v : Any) (s : string) :
  eqString v s = true <-> v = AString s.
Proof.
  destruct v as [| | |t| |]; cbn; try (split; discriminate).
  rewrite String.eqb_eq. split; [intros ->; reflexivity|intros [= ->]; reflexivity].
Qed.

Lemma eqString_false (v : Any) (s : string) :
  eqString v s = false <-> v <> AString s.
Proof.
  rewrite <- eqString_true. destruct (eqString v s); split; congruence.
Qed.

Lemma getGoType_of_Property (val : Any) :
  Property val ->
  forall typesQueue, exists r, getGoType val typesQueue = Some r /\ err r = None.
Proof.
  induction 1 as [field refName Href
                 |field items Href Hty Hitems _ IH
                 |field add Href Hty Hadd _ IH
                 |field Href Hty Hadd
                 |field format Href Harr Hobj Hformat
                 |field type Href Hformat Hty Harr Hobj Hempty];
    intros q; rewrite getGoType_unfold; cbv beta zeta; rewrite Href.
  - cbn. eexists. split; reflexivity.
  - rewrite Hty. cbn [eqString]. rewrite String.eqb_refl, Hitems.
    destruct (IH q) as (r0 & -> & Herr). cbn. eexists. split; [reflexivity|].
    exact Herr.
  - rewrite Hty. cbn [eqString].
    replace (String.eqb "object" "array") with false by reflexivity.
    rewrite String.eqb_refl, Hadd.
    destruct (IH q) as (r0 & -> & Herr). cbn. eexists. split; [reflexivity|].
    exact Herr.
  - rewrite Hty. cbn [eqString].
    replace (String.eqb "object" "array") with false by reflexivity.
    rewrite String.eqb_refl, Hadd. eexists. split; reflexivity.
  - apply eqString_false in Harr, Hobj. rewrite Harr, Hobj, Hformat. cbn.
    eexists. split; reflexivity.
  - rewrite Hty. cbn [eqString].
    apply String.eqb_neq in Harr, Hobj, Hempty. rewrite Harr, Hobj, Hformat, Hempty.
    cbn. eexists. split; reflexivity.
Qed.

Lemma Property_of_getGoType (val : Any) :
  forall typesQueue r,
    getGoType val typesQueue = Some r -> err r = None -> Property val.
Proof.
  induction val as [|b|n|s|items|field IH] using Any_ind';
    try discriminate.
  intros q r. rewrite getGoType_unfold. cbv beta zeta.
  destruct (Converter.assoc "$ref" field) as [ref|] eqn:Href.
  { destruct ref as [| | |refName| |]; try discriminate.
    intros _ _. exact (PropertyRef field refName Href). }
  destruct (eqString (index field "type") "array") eqn:Harr.
  { destruct (Converter.assoc "items" field) as [v|] eqn:Hitems;
      [|discriminate].
    destruct (assoc_Forall _ _ _ _ IH Hitems) as [k IHv]. cbn [snd] in IHv.
    destruct (getGoType v q) as [r0|] eqn:Hv; [|discriminate].
    intros H. cbn in H. injection H as <-. cbn [err]. intros Herr.
    apply eqString_true in Harr.
    exact (PropertyArray field v Href Harr Hitems (IHv q r0 Hv Herr)). }
  destruct (eqString (index field "type") "object") eqn:Hobj.
  { apply eqString_true in Hobj.
    destruct (Converter.assoc "additionalProperties" field) as [v|] eqn:Hadd.
    - destruct (assoc_Forall _ _ _ _ IH Hadd) as [k IHv]. cbn [snd] in IHv.
      destruct (getGoType v q) as [r0|] eqn:Hv; [|discriminate].
      intros H. cbn in H. injection H as <-. cbn [err]. intros Herr.
      exact (PropertyMap field v Href Hobj Hadd (IHv q r0 Hv Herr)).
    - intros _ _. exact (PropertyObject field Href Hobj Hadd). }
  apply eqString_false in Harr, Hobj.
  destruct (Converter.assoc "format" field) as [format|] eqn:Hformat.
  { destruct format as [| | |f| |]; try discriminate.
    intros _ _. exact (PropertyFormat field f Href Harr Hobj Hformat). }
  destruct (negb (eqString (index field "type") "")) eqn:Hty.
  - destruct (index field "type") as [| | |t| |] eqn:Hidx; try discriminate.
    intros _ _. apply (PropertyType field t Href Hformat Hidx).
    + intros ->. apply Harr. reflexivity.
    + intros ->. apply Hobj. reflexivity.
    + intros ->. discriminate Hty.
  - intros [= <-]. discriminate.
Qed.

(** X16.  [getGoType] returns a Go type, without a panic and with a nil
    error, exactly for the properties of an API description: a reference to
    a type, an array whose items are a property, an object whose additional
    properties are a property or that has none, a value with a format that
    is a string, or a value whose type is a string other than the empty
    one. *)
Theorem getGoType_accepts_properties (val : Any) (typesQueue : list string) :
  Property val <->
  exists r, getGoType val typesQueue = Some r /\ err r = None.
Proof.
  split.
  - intros H. exact (getGoType_of_Property val H typesQueue).
  - intros (r & Hr & Herr). exact (Property_of_getGoType val typesQueue r Hr Herr).
Qed.

End GeneratorProperties.

(** The backends of a backend service, with the queue holding the service. *)
Lemma getGoType_queue_witness :
  Generator.getGoType Examples.prop_backends ["BackendService"] =
    Some (Generator.mkResults "[]*Backend" ["BackendService"; "Backend"]
            false None) /\
  Generator.referenced Examples.prop_backends = ["Backend"] /\
  forall typesQueue',
    Generator.getGoType Examples.prop_backends typesQueue' =
    Some (Generator.mkResults "[]*Backend" (typesQueue' ++ ["Backend"])
            false None).
Proof.
  assert (Hrun : Generator.getGoType Examples.prop_backends ["BackendService"] =
            Some (Generator.mkResults "[]*Backend"
                    ["BackendService"; "Backend"] false None)).
  { reflexivity. }
  split; [exact Hrun|]. split; [reflexivity|].
  exact (proj2 (proj2 (proj2
           (getGoType_queue Examples.prop_backends ["BackendService"] _ Hrun)))).
Defined.

(** ** The comparison of struct types in the tests of [pkg/composite] *)

Section TypeEqualityProperties.

Import CompositeTest.

Variable rangeKeys : gmap string bool -> list string.
Hypothesis rangeKeys_spec :
  forall m : gmap string bool, rangeKeys m ≡ₚ (map_to_list m).*1.

Local Abbreviation typeEquality := (CompositeTest.typeEquality rangeKeys).

Lemma fieldNames_lookup (t : StructType) (tFields : gmap string bool)
    (n : string) :
  fieldNames t tFields !! n =
  if decide (n ∈ map Name t) then Some true else tFields !! n.
Proof.
  revert tFields. induction t as [|f rest IH]; intros tFields.
  - cbn. destruct (decide (n ∈ [])) as [H|]; [|reflexivity].
    apply elem_of_nil in H. destruct H.
  - cbn [fieldNames map]. rewrite IH.
    destruct (decide (n ∈ map Name rest)) as [Hin|Hnin].
    + rewrite decide_True by (apply elem_of_cons; right; exact Hin).
      reflexivity.
    + destruct (decide (Name f = n)) as [Heq|Hne].
      * rewrite Heq, lookup_insert_eq.
        rewrite decide_True by (apply elem_of_cons; left; reflexivity).
        reflexivity.
      * rewrite lookup_insert_ne by exact Hne.
        rewrite decide_False; [reflexivity|].
        intros H. apply elem_of_cons in H. destruct H as [H|H]; auto.
Qed.

Lemma fieldNames_eq (t1 t2 : StructType) :
  fieldNames t1 ∅ = fieldNames t2 ∅ <->
  forall n, In n (map Name t1) <-> In n (map Name t2).
Proof.
  split.
  - intros Heq n.
    assert (H : fieldNames t1 ∅ !! n = fieldNames t2 ∅ !! n) by (rewrite Heq; reflexivity).
    rewrite !fieldNames_lookup, !lookup_empty in H.
    rewrite <- !list_elem_of_In.
    destruct (decide (n ∈ map Name t1)), (decide (n ∈ map Name t2));
      try discriminate; tauto.
  - intros H. apply map_eq. intros n. rewrite !fieldNames_lookup.
    specialize (H n). rewrite <- !list_elem_of_In in H.
    destruct (decide (n ∈ map Name t1)) as [H1|H1],
             (decide (n ∈ map Name t2)) as [H2|H2];
      try reflexivity; tauto.
Qed.

Lemma in_rangeKeys_fieldNames (t : StructType) (n : string) :
  In n (rangeKeys (fieldNames t ∅)) <-> In n (map Name t).
Proof.
  rewrite <- !list_elem_of_In, rangeKeys_spec, list_elem_of_fmap. split.
  - intros ([n' b] & -> & H). apply elem_of_map_to_list in H. cbn.
    rewrite fieldNames_lookup, lookup_empty in H.
    destruct (decide (n' ∈ map Name t)); [assumption|discriminate].
  - intros H. exists (n, true). split; [reflexivity|].
    apply elem_of_map_to_list. rewrite fieldNames_lookup.
    rewrite decide_True by exact H. reflexivity.
Qed.

Lemma FieldByName_found (n : string) (t : StructType) :
  In n (map Name t) ->
  exists f, FieldByName n t = (f, true) /\ In f t /\ Name f = n.
Proof.
  induction t as [|f rest IH]; [intros []|].
  cbn [FieldByName map]. intros Hin.
  destruct (String.eqb (Name f) n) eqn:Heq.
  - apply String.eqb_eq in Heq. exists f. auto using in_eq.
  - apply String.eqb_neq in Heq. destruct Hin as [H|H]; [contradiction|].
    destruct (IH H) as (f' & H1 & H2 & H3). exists f'. auto using in_cons.
Qed.

Lemma FieldByName_unique (f : StructField) (t : StructType) :
  NoDup (map Name t) -> In f t -> FieldByName (Name f) t = (f, true).
Proof.
  induction t as [|g rest IH]; [intros _ []|].
  cbn [map FieldByName]. intros Hnd Hin. apply NoDup_cons in Hnd.
  destruct Hnd as [Hg Hnd].
  destruct Hin as [->|Hin]; [rewrite String.eqb_refl; reflexivity|].
  destruct (String.eqb (Name g) (Name f)) eqn:Heq; [|exact (IH Hnd Hin)].
  apply String.eqb_eq in Heq. exfalso. apply Hg. rewrite Heq.
  apply list_elem_of_In, in_map, Hin.
Qed.

Lemma compareFields_Nil (s1 s2 : StructField) :
  is_Some (Type_Name s1) -> is_Some (Type_Name s2) ->
  (compareFields s1 s2 = Nil <-> s1 = s2) /\ compareFields s1 s2 <> Panics.
Proof.
  intros [n1 H1] [n2 H2]. unfold compareFields. rewrite H1, H2.
  destruct s1 as [a1 b1 c1], s2 as [a2 b2 c2]. cbn in *. subst c1 c2.
  destruct (String.eqb a1 a2) eqn:Ha; cbn.
  2:{ apply String.eqb_neq in Ha. split; [|discriminate].
      split; [discriminate|]. intros [= H _ _]. contradiction. }
  destruct (String.eqb b1 b2) eqn:Hb; cbn.
  2:{ apply String.eqb_neq in Hb. split; [|discriminate].
      split; [discriminate|]. intros [= _ H _]. contradiction. }
  destruct (String.eqb n1 n2) eqn:Hn; cbn.
  2:{ apply String.eqb_neq in Hn. split; [|discriminate].
      split; [discriminate|]. intros [= _ _ H]. contradiction. }
  apply String.eqb_eq in Ha, Hb, Hn. subst. split; [|discriminate].
  split; reflexivity.
Qed.

Lemma compareAll_Nil (t1 t2 : StructType) (names : list string) :
  compareAll t1 t2 names = Nil <->
  forall n, In n names ->
    compareFields (fst (FieldByName n t1)) (fst (FieldByName n t2)) = Nil.
Proof.
  induction names as [|n rest IH]; cbn [compareAll].
  - split; [intros _ n []|reflexivity].
  - destruct (FieldByName n t1) as [f1 b1] eqn:H1.
    destruct (FieldByName n t2) as [f2 b2] eqn:H2.
    destruct (compareFields f1 f2) eqn:Hc.
    + rewrite IH. split.
      * intros H m [<-|Hm]; [rewrite H1, H2; exact Hc|exact (H m Hm)].
      * intros H m Hm. apply H. right. exact Hm.
    + split; [discriminate|]. intros H.
      specialize (H n (or_introl eq_refl)). rewrite H1, H2 in H. cbn in H.
      congruence.
    + split; [discriminate|]. intros H.
      specialize (H n (or_introl eq_refl)). rewrite H1, H2 in H. cbn in H.
      congruence.
Qed.

Lemma compareAll_Panics (t1 t2 : StructType) (names : list string) :
  compareAll t1 t2 names = Panics ->
  exists n, In n names /\
    compareFields (fst (FieldByName n t1)) (fst (FieldByName n t2)) = Panics.
Proof.
  induction names as [|n rest IH]; cbn [compareAll]; [discriminate|].
  destruct (FieldByName n t1) as [f1 b1] eqn:H1.
  destruct (FieldByName n t2) as [f2 b2] eqn:H2.
  destruct (compareFields f1 f2) eqn:Hc.
  - intros H. destruct (IH H) as (m & Hm & Hp). exists m. auto using in_cons.
  - discriminate.
  - intros _. exists n. rewrite H1, H2. auto using in_eq.
Qed.

(** X17.  For two struct types, each with distinct field names and a type
    for every field, [typeEquality] returns nil exactly when the two have
    the same fields up to their order, a field being its name, its tag and
    the name of its type; and it does not panic.  The order in which the map
    of names is visited decides only which error is returned. *)
Theorem typeEquality_same_fields (t1 t2 : StructType) :
  NoDup (map Name t1) -> NoDup (map Name t2) ->
  Forall (fun f => is_Some (Type_Name f)) t1 ->
  Forall (fun f => is_Some (Type_Name f)) t2 ->
  (typeEquality t1 t2 = Nil <-> t1 ≡ₚ t2) /\
  typeEquality t1 t2 <> Panics.
Proof.
  intros Hnd1 Hnd2 Hty1 Hty2.
  rewrite List.Forall_forall in Hty1, Hty2.
  assert (Hfields : forall n, In n (map Name t1) -> In n (map Name t2) ->
            exists f1 f2,
              FieldByName n t1 = (f1, true) /\ FieldByName n t2 = (f2, true) /\
              In f1 t1 /\ In f2 t2 /\ Name f1 = n /\ Name f2 = n /\
              (compareFields f1 f2 = Nil <-> f1 = f2) /\
              compareFields f1 f2 <> Panics).
  { intros n H1 H2.
    destruct (FieldByName_found n t1 H1) as (f1 & Hf1 & Hin1 & Hn1).
    destruct (FieldByName_found n t2 H2) as (f2 & Hf2 & Hin2 & Hn2).
    destruct (compareFields_Nil f1 f2 (Hty1 _ Hin1) (Hty2 _ Hin2)) as [Hc Hp].
    exists f1, f2. repeat split; auto; apply Hc. }
  assert (HND1 : NoDup t1) by (eapply NoDup_fmap_1; exact Hnd1).
  assert (HND2 : NoDup t2) by (eapply NoDup_fmap_1; exact Hnd2).
  unfold CompositeTest.typeEquality.
  destruct (bool_decide (fieldNames t1 ∅ = fieldNames t2 ∅)) eqn:Hd; cbn [negb].
  - apply bool_decide_eq_true in Hd.
    pose proof (proj1 (fieldNames_eq t1 t2) Hd) as Hnames.
    split; [split|].
    + intros Hall. rewrite compareAll_Nil in Hall.
      assert (Hsub : forall f, In f t1 -> In f t2).
      { intros f Hf.
        assert (Hn1 : In (Name f) (map Name t1)) by (apply in_map; exact Hf).
        destruct (Hfields (Name f) Hn1 (proj1 (Hnames _) Hn1))
          as (f1 & f2 & Hf1 & Hf2 & _ & Hin2 & _ & _ & Hc & _).
        rewrite (FieldByName_unique f t1 Hnd1 Hf) in Hf1. injection Hf1 as <-.
        specialize (Hall (Name f)
                      (proj2 (in_rangeKeys_fieldNames t1 (Name f)) Hn1)).
        rewrite (FieldByName_unique f t1 Hnd1 Hf), Hf2 in Hall. cbn in Hall.
        apply Hc in Hall. subst f2. exact Hin2. }
      assert (Hsup : forall f, In f t2 -> In f t1).
      { intros f Hf.
        assert (Hn2 : In (Name f) (map Name t2)) by (apply in_map; exact Hf).
        destruct (Hfields (Name f) (proj2 (Hnames _) Hn2) Hn2)
          as (f1 & f2 & Hf1 & Hf2 & Hin1 & _ & _ & _ & Hc & _).
        rewrite (FieldByName_unique f t2 Hnd2 Hf) in Hf2. injection Hf2 as <-.
        specialize (Hall (Name f)
                      (proj2 (in_rangeKeys_fieldNames t1 (Name f))
                         (proj2 (Hnames _) Hn2))).
        rewrite Hf1, (FieldByName_unique f t2 Hnd2 Hf) in Hall. cbn in Hall.
        apply Hc in Hall. subst f1. exact Hin1. }
      apply NoDup_Permutation; [exact HND1|exact HND2|].
      intros f. rewrite !list_elem_of_In. split; auto.
    + intros Hperm. apply compareAll_Nil. intros n Hn.
      apply in_rangeKeys_fieldNames in Hn.
      destruct (Hfields n Hn (proj1 (Hnames _) Hn))
        as (f1 & f2 & Hf1 & Hf2 & Hin1 & Hin2 & Hn1 & Hn2 & Hc & _).
      rewrite Hf1, Hf2. cbn. apply Hc.
      assert (Hin2' : In f2 t1).
      { apply list_elem_of_In. rewrite Hperm. apply list_elem_of_In. exact Hin2. }
      pose proof (FieldByName_unique f1 t1 Hnd1 Hin1) as Hu1.
      pose proof (FieldByName_unique f2 t1 Hnd1 Hin2') as Hu2.
      rewrite Hn1 in Hu1. rewrite Hn2 in Hu2. congruence.
    + intros Hp. apply compareAll_Panics in Hp. destruct Hp as (n & Hn & Hp).
      apply in_rangeKeys_fieldNames in Hn.
      destruct (Hfields n Hn (proj1 (Hnames _) Hn))
        as (f1 & f2 & Hf1 & Hf2 & _ & _ & _ & _ & _ & Hnp).
      rewrite Hf1, Hf2 in Hp. cbn in Hp. contradiction.
  - apply bool_decide_eq_false in Hd. split; [|discriminate].
    split; [discriminate|]. intros Hperm. exfalso. apply Hd.
    apply fieldNames_eq. intros n. rewrite !in_map_iff.
    split; intros (f & Hf & Hin); exists f; (split; [exact Hf|]);
      apply list_elem_of_In; apply list_elem_of_In in Hin;
      [rewrite <- Hperm|rewrite Hperm]; exact Hin.
Qed.

End TypeEqualityProperties.

Lemma typeEquality_same_fields_witness :
  CompositeTest.typeEquality Examples.stringOrder Examples.type_composite
    Examples.type_alpha = CompositeTest.Nil /\
  Examples.type_composite ≡ₚ Examples.type_alpha.
Proof.
  destruct (typeEquality_same_fields Examples.stringOrder
              (fun m => reflexivity _)
              Examples.type_composite Examples.type_alpha) as [[H1 H2] _].
  - apply (bool_decide_unpack _). vm_compute. exact I.
  - apply (bool_decide_unpack _). vm_compute. exact I.
  - repeat constructor; eexists; reflexivity.
  - repeat constructor; eexists; reflexivity.
  - assert (Hrun : CompositeTest.typeEquality Examples.stringOrder
                     Examples.type_composite Examples.type_alpha
                   = CompositeTest.Nil) by (vm_compute; reflexivity).
    split; [exact Hrun|exact (H1 Hrun)].
Defined.

(** ** The fake of the load balancer cloud *)

Section FakesProperties.

Import Go Fakes.

Variable FakeGoogleAPINotFoundErr : error.
Variable FakeGoogleAPIForbiddenErr : error.
Variable GlobalForwardingRulesSelfLink : string -> string.
Variable UrlMapsSelfLink : string -> string.
Variable TargetHttpProxiesSelfLink : string -> string.
Variable SslCertificatesSelfLink : string -> string.
Variable TargetProxyCertLimit : nat.

Local Abbreviation GetGlobalForwardingRule :=
  (Fakes.GetGlobalForwardingRule FakeGoogleAPINotFoundErr).
Local Abbreviation CreateGlobalForwardingRule :=
  (Fakes.CreateGlobalForwardingRule GlobalForwardingRulesSelfLink).
Local Abbreviation DeleteGlobalForwardingRule :=
  (Fakes.DeleteGlobalForwardingRule FakeGoogleAPINotFoundErr).
Local Abbreviation GetURLMap := (Fakes.GetURLMap FakeGoogleAPINotFoundErr).
Local Abbreviation UpdateURLMap := (Fakes.UpdateURLMap FakeGoogleAPINotFoundErr).
Local Abbreviation SetSslCertificateForTargetHTTPSProxy :=
  (Fakes.SetSslCertificateForTargetHTTPSProxy FakeGoogleAPINotFoundErr
     FakeGoogleAPIForbiddenErr TargetProxyCertLimit).
Local Abbreviation CreateSslCertificate :=
  (Fakes.CreateSslCertificate SslCertificatesSelfLink).
Local Abbreviation DeleteSslCertificate :=
  (Fakes.DeleteSslCertificate FakeGoogleAPINotFoundErr).

Lemma keep_In (test : ptr -> bool) (l : list ptr) (p : ptr) :
  In p (keep test l) <-> In p l /\ test p = true.
Proof.
  induction l as [|q rest IH]; cbn; [tauto|].
  destruct (test q) eqn:Hq; cbn; rewrite IH; split.
  - intros [->|[H1 H2]]; auto.
  - intros [[->|H1] H2]; auto.
  - intros [H1 H2]; auto.
  - intros [[->|H1] H2]; [congruence|auto].
Qed.

Lemma keep_length (test : ptr -> bool) (l : list ptr) :
  length (keep test l) <= length l.
Proof.
  induction l as [|q rest IH]; cbn; [lia|]. destruct (test q); cbn; lia.
Qed.

Lemma keep_all (test : ptr -> bool) (l : list ptr) :
  length (keep test l) = length l <-> forall p, In p l -> test p = true.
Proof.
  induction l as [|q rest IH]; cbn; [split; [intros _ p []|reflexivity]|].
  pose proof (keep_length test rest) as Hle.
  destruct (test q) eqn:Hq; cbn.
  - split.
    + intros H p [<-|Hp]; [exact Hq|]. apply IH; [lia|exact Hp].
    + intros H. f_equal. apply IH. intros p Hp. apply H. right. exact Hp.
  - split; [lia|]. intros H. specialize (H q (or_introl eq_refl)). congruence.
Qed.

Lemma first_None (test : ptr -> bool) (l : list ptr) :
  first test l = None <-> forall p, In p l -> test p = false.
Proof.
  induction l as [|q rest IH]; cbn; [split; [intros _ p []|reflexivity]|].
  destruct (test q) eqn:Hq.
  - split; [discriminate|]. intros H.
    specialize (H q (or_introl eq_refl)). congruence.
  - rewrite IH. split.
    + intros H p [<-|Hp]; auto.
    + intros H p Hp. apply H. right. exact Hp.
Qed.

Lemma first_Some (test : ptr -> bool) (l : list ptr) (p : ptr) :
  first test l = Some p <->
  exists pre post,
    l = pre ++ p :: post /\ test p = true /\
    forall q, In q pre -> test q = false.
Proof.
  revert p. induction l as [|q rest IH]; intros p; cbn.
  - split; [discriminate|]. intros (pre & post & H & _). destruct pre; discriminate.
  - destruct (test q) eqn:Hq.
    + split.
      * intros [= <-]. exists [], rest. split; [reflexivity|].
        split; [exact Hq|intros x []].
      * intros (pre & post & Hl & Hp & Hpre). destruct pre as [|x pre].
        -- injection Hl as -> _. reflexivity.
        -- injection Hl as -> _. specialize (Hpre x (or_introl eq_refl)).
           congruence.
    + rewrite IH. split.
      * intros (pre & post & -> & Hp & Hpre). exists (q :: pre), post.
        split; [reflexivity|]. split; [exact Hp|].
        intros x [<-|Hx]; auto.
      * intros (pre & post & Hl & Hp & Hpre). destruct pre as [|x pre].
        -- injection Hl as -> _. congruence.
        -- injection Hl as -> ->. exists pre, post. split; [reflexivity|].
           split; [exact Hp|]. intros y Hy. apply Hpre. right. exact Hy.
Qed.

Lemma first_ext (test1 test2 : ptr -> bool) (l : list ptr) :
  (forall p, In p l -> test1 p = test2 p) -> first test1 l = first test2 l.
Proof.
  induction l as [|q rest IH]; intros H; [reflexivity|].
  cbn. rewrite (H q (or_introl eq_refl)).
  destruct (test2 q); [reflexivity|].
  apply IH. intros p Hp. apply H. right. exact Hp.
Qed.

Lemma first_keep (test other : ptr -> bool) (l : list ptr) :
  (forall p, test p = true -> other p = true) ->
  first test (keep other l) = first test l.
Proof.
  intros H. induction l as [|q rest IH]; [reflexivity|].
  cbn. destruct (other q) eqn:Ho; cbn.
  - destruct (test q); [reflexivity|exact IH].
  - destruct (test q) eqn:Ht; [|exact IH].
    rewrite (H q Ht) in Ho. discriminate.
Qed.

Lemma first_app (test : ptr -> bool) (l1 l2 : list ptr) :
  first test (l1 ++ l2) =
  match first test l1 with
  | Some p => Some p
  | None => first test l2
  end.
Proof.
  induction l1 as [|q rest IH]; [reflexivity|].
  cbn. destruct (test q); [reflexivity|exact IH].
Qed.

(** X18.  Deletion and lookup of forwarding rules in the fake.
    [DeleteGlobalForwardingRule] returns nil exactly when the fake has a rule
    of that name, and the not-found error otherwise, the slice being then as
    it was; it removes every rule of that name, not only the first, and
    keeps the others; it writes to no object; after it, in either case, the
    lookup of the name answers not found, and the lookup of any other name
    answers what it answered before. *)
Theorem DeleteGlobalForwardingRule_then_Get (name : string) (s : State) :
  let e := fst (DeleteGlobalForwardingRule name s) in
  let s' := snd (DeleteGlobalForwardingRule name s) in
  (e = None <->
   exists p, In p (Fw s) /\ ForwardingRule.Name (forwardingRule s p) = name) /\
  (e <> None -> e = Some FakeGoogleAPINotFoundErr /\ Fw s' = Fw s) /\
  (forall p, In p (Fw s') <->
     In p (Fw s) /\ ForwardingRule.Name (forwardingRule s p) <> name) /\
  forwardingRule s' = forwardingRule s /\
  fst (GetGlobalForwardingRule name s') = err FakeGoogleAPINotFoundErr /\
  (forall name', name' <> name ->
     fst (GetGlobalForwardingRule name' s')
     = fst (GetGlobalForwardingRule name' s)).
Proof.
  cbv zeta. unfold Fakes.DeleteGlobalForwardingRule.
  set (test := fun p =>
         negb (String.eqb
                 (ForwardingRule.Name (forwardingRule (record _ s) p)) name)).
  assert (Htest : forall p, test p = true <->
            ForwardingRule.Name (forwardingRule s p) <> name).
  { intros p. unfold test. cbn. rewrite negb_true_iff. apply String.eqb_neq. }
  assert (Hget : forall (l : list ptr) name',
    fst (GetGlobalForwardingRule name'
           (set_Fw l (record "DeleteGlobalForwardingRule" s))) =
    match first (fun p =>
                   String.eqb (ForwardingRule.Name (forwardingRule s p)) name') l
    with
    | Some p => ok p
    | None => err FakeGoogleAPINotFoundErr
    end).
  { intros l name'. unfold Fakes.GetGlobalForwardingRule. cbn.
    destruct (first _ l); reflexivity. }
  assert (Hget0 : forall name',
    fst (GetGlobalForwardingRule name' s) =
    match first (fun p =>
                   String.eqb (ForwardingRule.Name (forwardingRule s p)) name')
            (Fw s)
    with
    | Some p => ok p
    | None => err FakeGoogleAPINotFoundErr
    end).
  { intros name'. unfold Fakes.GetGlobalForwardingRule. cbn.
    destruct (first _ (Fw s)); reflexivity. }
  assert (Hgone : first (fun p =>
                     String.eqb (ForwardingRule.Name (forwardingRule s p)) name)
                    (keep test (Fw s)) = None).
  { apply first_None. intros p Hp. apply keep_In in Hp. destruct Hp as [_ Hp].
    apply Htest in Hp. apply String.eqb_neq. exact Hp. }
  assert (Hother : forall name', name' <> name ->
            first (fun p =>
                     String.eqb (ForwardingRule.Name (forwardingRule s p)) name')
              (keep test (Fw s)) =
            first (fun p =>
                     String.eqb (ForwardingRule.Name (forwardingRule s p)) name')
              (Fw s)).
  { intros name' Hne. apply first_keep. intros p Hp. apply String.eqb_eq in Hp.
    apply Htest. congruence. }
  change (Fw (record "DeleteGlobalForwardingRule" s)) with (Fw s).
  destruct (length (Fw s) =? length (keep test (Fw s)))%nat eqn:Hlen;
    cbn [fst snd].
  - apply Nat.eqb_eq in Hlen. symmetry in Hlen.
    pose proof (proj1 (keep_all test (Fw s)) Hlen) as Hall.
    assert (Hsame : keep test (Fw s) = Fw s).
    { clear -Hall. induction (Fw s) as [|q rest IH]; [reflexivity|].
      cbn. rewrite (Hall q (or_introl eq_refl)). f_equal. apply IH.
      intros p Hp. apply Hall. right. exact Hp. }
    split; [|split; [|split; [|split; [|split]]]].
    + split; [discriminate|]. intros (p & Hp & Hname). exfalso.
      apply (proj1 (Htest p) (Hall p Hp)). exact Hname.
    + intros _. split; reflexivity.
    + intros p. cbn. split.
      * intros Hp. split; [exact Hp|]. apply Htest, Hall, Hp.
      * intros [Hp _]. exact Hp.
    + reflexivity.
    + rewrite Hsame in Hgone. unfold Fakes.GetGlobalForwardingRule. cbn.
      rewrite Hgone. reflexivity.
    + intros name' Hne. rewrite Hget0. unfold Fakes.GetGlobalForwardingRule.
      cbn. destruct (first _ (Fw s)); reflexivity.
  - apply Nat.eqb_neq in Hlen.
    split; [|split; [|split; [|split; [|split]]]].
    + split; [|reflexivity]. intros _.
      destruct (first (fun p => negb (test p)) (Fw s)) as [p|] eqn:Hfirst.
      * apply first_Some in Hfirst.
        destruct Hfirst as (pre & post & Hl & Hp & _). exists p. split.
        -- rewrite Hl. apply in_or_app. right. left. reflexivity.
        -- apply negb_true_iff in Hp. unfold test in Hp. cbn in Hp.
           apply negb_false_iff, String.eqb_eq in Hp. exact Hp.
      * exfalso. apply Hlen. symmetry. apply keep_all. intros p Hp.
        pose proof (proj1 (first_None _ _) Hfirst p Hp) as H.
        apply negb_false_iff in H. exact H.
    + intros H. contradiction.
    + intros p. cbn. rewrite keep_In, Htest. reflexivity.
    + reflexivity.
    + rewrite Hget, Hgone. reflexivity.
    + intros name' Hne. rewrite Hget, Hget0, (Hother name' Hne). reflexivity.
Qed.

Lemma assign_same {T : Type} (store : ptr -> T) (p : ptr) (v : T) :
  assign store p v p = v.
Proof. unfold assign. rewrite Nat.eqb_refl. reflexivity. Qed.

Lemma assign_other {T : Type} (store : ptr -> T) (p q : ptr) (v : T) :
  q <> p -> assign store p v q = store q.
Proof.
  intros H. unfold assign. apply Nat.eqb_neq in H. rewrite H. reflexivity.
Qed.

Local Ltac create_cases rule s :=
  let Hip := fresh "Hip" in
  unfold Fakes.CreateGlobalForwardingRule, ip; cbv zeta;
  change (forwardingRule (record "CreateGlobalForwardingRule" s))
    with (forwardingRule s);
  destruct (String.eqb (ForwardingRule.IPAddress (forwardingRule s rule)) "")
    eqn:Hip; cbn.

Lemma CreateGlobalForwardingRule_Name (rule : ptr) (s : State) (q : ptr) :
  ForwardingRule.Name
    (forwardingRule (snd (CreateGlobalForwardingRule rule s)) q)
  = ForwardingRule.Name (forwardingRule s q).
Proof.
  create_cases rule s; unfold assign; destruct (Nat.eqb q rule) eqn:Hq; cbn;
    try rewrite Nat.eqb_refl; cbn;
    try (apply Nat.eqb_eq in Hq; subst q); reflexivity.
Qed.

(** X19.  Creation and lookup of forwarding rules in the fake.
    [CreateGlobalForwardingRule] always returns nil and appends the rule to
    the slice.  It writes to the rule alone: the self link always, the
    address only when the rule had none, which is then the next address of
    the counter; a rule with an address leaves the counter as it is.  A name
    that was found before is found after with the same rule, also the name of
    the new rule: the lookup answers the first rule of a name.  A name that
    was not found is found after exactly when it is the name of the new
    rule. *)
Theorem CreateGlobalForwardingRule_then_Get (rule : ptr) (s : State) :
  let s' := snd (CreateGlobalForwardingRule rule s) in
  let r := forwardingRule s rule in
  let r' := forwardingRule s' rule in
  fst (CreateGlobalForwardingRule rule s) = None /\
  Fw s' = Fw s ++ [rule] /\
  (ForwardingRule.Name r' = ForwardingRule.Name r /\
   ForwardingRule.Target r' = ForwardingRule.Target r /\
   ForwardingRule.SelfLink r'
   = GlobalForwardingRulesSelfLink (ForwardingRule.Name r)) /\
  (ForwardingRule.IPAddress r <> "" ->
   ForwardingRule.IPAddress r' = ForwardingRule.IPAddress r /\
   testIPManager_start s' = testIPManager_start s) /\
  (ForwardingRule.IPAddress r = "" ->
   ForwardingRule.IPAddress r' = fst (ip s) /\
   testIPManager_start s' = incr (testIPManager_start s)) /\
  (forall q, q <> rule -> forwardingRule s' q = forwardingRule s q) /\
  (forall name p,
     fst (GetGlobalForwardingRule name s) = ok p ->
     fst (GetGlobalForwardingRule name s') = ok p) /\
  (forall name,
     fst (GetGlobalForwardingRule name s) = err FakeGoogleAPINotFoundErr ->
     fst (GetGlobalForwardingRule name s')
     = if String.eqb (ForwardingRule.Name r) name then ok rule
       else err FakeGoogleAPINotFoundErr).
Proof.
  cbv zeta.
  assert (Hget : forall name,
    fst (GetGlobalForwardingRule name
           (snd (CreateGlobalForwardingRule rule s))) =
    match first (fun p =>
                   String.eqb (ForwardingRule.Name (forwardingRule s p)) name)
            (Fw s ++ [rule])
    with
    | Some p => ok p
    | None => err FakeGoogleAPINotFoundErr
    end).
  { intros name. unfold Fakes.GetGlobalForwardingRule.
    cbv zeta.
    change (forwardingRule (record "GetGlobalForwardingRule" ?x)) with
      (forwardingRule x).
    change (Fw (record "GetGlobalForwardingRule" ?x)) with (Fw x).
    rewrite (first_ext _
               (fun p => String.eqb
                           (ForwardingRule.Name (forwardingRule s p)) name)).
    2:{ intros p _. rewrite CreateGlobalForwardingRule_Name. reflexivity. }
    replace (Fw (snd (CreateGlobalForwardingRule rule s)))
      with (Fw s ++ [rule]).
    2:{ create_cases rule s; reflexivity. }
    destruct (first _ (Fw s ++ [rule])); reflexivity. }
  assert (Hget0 : forall name,
    fst (GetGlobalForwardingRule name s) =
    match first (fun p =>
                   String.eqb (ForwardingRule.Name (forwardingRule s p)) name)
            (Fw s)
    with
    | Some p => ok p
    | None => err FakeGoogleAPINotFoundErr
    end).
  { intros name. unfold Fakes.GetGlobalForwardingRule. cbn.
    destruct (first _ (Fw s)); reflexivity. }
  split; [|split; [|split; [|split; [|split; [|split; [|split]]]]]].
  - create_cases rule s; reflexivity.
  - create_cases rule s; reflexivity.
  - create_cases rule s; rewrite ?assign_same; cbn;
      rewrite ?assign_same; cbn; auto.
  - intros Hne. create_cases rule s.
    + apply String.eqb_eq in Hip. contradiction.
    + rewrite assign_same. cbn. auto.
  - intros Heq. create_cases rule s.
    + rewrite !assign_same. cbn. auto.
    + apply String.eqb_neq in Hip. contradiction.
  - intros q Hq. create_cases rule s; rewrite !(assign_other _ _ _ _ Hq);
      reflexivity.
  - intros name p. rewrite Hget, Hget0, first_app.
    destruct (first _ (Fw s)); [auto|discriminate].
  - intros name. rewrite Hget, Hget0, first_app.
    destruct (first _ (Fw s)); [discriminate|]. intros _. cbn.
    destruct (String.eqb _ name); reflexivity.
Qed.

Lemma setProxy_spec (name link : string) (l : list ptr)
    (store : ptr -> ForwardingRule.t) (q : ptr) :
  let r := store q in
  let r' := setProxy name link l store q in
  ForwardingRule.Name r' = ForwardingRule.Name r /\
  ForwardingRule.IPAddress r' = ForwardingRule.IPAddress r /\
  ForwardingRule.SelfLink r' = ForwardingRule.SelfLink r /\
  ForwardingRule.Target r'
  = if existsb (Nat.eqb q) l && String.eqb (ForwardingRule.Name r) name
    then link else ForwardingRule.Target r.
Proof.
  cbv zeta. revert store. induction l as [|p rest IH]; intros store.
  - cbn. auto.
  - cbn [setProxy existsb].
    destruct (IH (if String.eqb (ForwardingRule.Name (store p)) name
                  then assign store p
                         (ForwardingRule.mk (ForwardingRule.Name (store p))
                            (ForwardingRule.IPAddress (store p))
                            (ForwardingRule.SelfLink (store p)) link)
                  else store)) as (H1 & H2 & H3 & H4).
    rewrite H1, H2, H3, H4. clear IH H1 H2 H3 H4.
    destruct (String.eqb (ForwardingRule.Name (store p)) name) eqn:Hp.
    + unfold assign. destruct (Nat.eqb q p) eqn:Hq; cbn.
      * apply Nat.eqb_eq in Hq. subst q. rewrite Hp.
        rewrite andb_true_r. destruct (existsb (Nat.eqb p) rest); auto.
      * auto.
    + destruct (Nat.eqb q p) eqn:Hq; cbn; [|auto].
      apply Nat.eqb_eq in Hq. subst q. rewrite Hp, andb_false_r. auto.
Qed.

(** X20.  [SetProxyForGlobalForwardingRule] always returns nil and leaves the
    slice as it is.  It sets the target of every rule of the fake that has
    the name, not only of the first, and writes nothing else: the other
    fields of those rules, and the rules of other names or outside the
    slice, are as they were.  So a rule that the lookup of the name finds
    afterwards has the proxy as its target. *)
Theorem SetProxyForGlobalForwardingRule_every_rule
    (forwardingRuleName proxyLink : string) (s : State) :
  let s' :=
    snd (Fakes.SetProxyForGlobalForwardingRule forwardingRuleName proxyLink s) in
  fst (Fakes.SetProxyForGlobalForwardingRule forwardingRuleName proxyLink s)
  = None /\
  Fw s' = Fw s /\
  (forall q,
     ForwardingRule.Name (forwardingRule s' q)
     = ForwardingRule.Name (forwardingRule s q) /\
     ForwardingRule.IPAddress (forwardingRule s' q)
     = ForwardingRule.IPAddress (forwardingRule s q) /\
     ForwardingRule.SelfLink (forwardingRule s' q)
     = ForwardingRule.SelfLink (forwardingRule s q)) /\
  (forall q,
     In q (Fw s) ->
     ForwardingRule.Name (forwardingRule s q) = forwardingRuleName ->
     ForwardingRule.Target (forwardingRule s' q) = proxyLink) /\
  (forall q,
     ~ (In q (Fw s) /\
        ForwardingRule.Name (forwardingRule s q) = forwardingRuleName) ->
     forwardingRule s' q = forwardingRule s q) /\
  (forall p,
     fst (GetGlobalForwardingRule forwardingRuleName s') = ok p ->
     fst (GetGlobalForwardingRule forwardingRuleName s) = ok p /\
     ForwardingRule.Target (forwardingRule s' p) = proxyLink).
Proof.
  cbv zeta. unfold Fakes.SetProxyForGlobalForwardingRule. cbn [fst snd].
  change (Fw (set_forwardingRule ?f ?x)) with (Fw x).
  change (forwardingRule (set_forwardingRule ?f ?x)) with f.
  change (Fw (record ?c s)) with (Fw s).
  change (forwardingRule (record ?c s)) with (forwardingRule s).
  assert (Hin : forall q l, existsb (Nat.eqb q) l = true <-> In q l).
  { intros q l. rewrite existsb_exists. split.
    - intros (x & Hx & Heq). apply Nat.eqb_eq in Heq. subst x. exact Hx.
    - intros Hq. exists q. split; [exact Hq|apply Nat.eqb_refl]. }
  assert (Htarget : forall q,
            In q (Fw s) ->
            ForwardingRule.Name (forwardingRule s q) = forwardingRuleName ->
            ForwardingRule.Target
              (setProxy forwardingRuleName proxyLink (Fw s) (forwardingRule s) q)
            = proxyLink).
  { intros q Hq Hname.
    destruct (setProxy_spec forwardingRuleName proxyLink (Fw s)
                (forwardingRule s) q) as (_ & _ & _ & H4).
    rewrite H4. rewrite (proj2 (Hin q (Fw s)) Hq).
    rewrite (proj2 (String.eqb_eq _ _) Hname). reflexivity. }
  split; [reflexivity|]. split; [reflexivity|].
  split; [|split; [|split]].
  - intros q.
    destruct (setProxy_spec forwardingRuleName proxyLink (Fw s)
                (forwardingRule s) q) as (H1 & H2 & H3 & _).
    auto.
  - exact Htarget.
  - intros q Hq.
    destruct (setProxy_spec forwardingRuleName proxyLink (Fw s)
                (forwardingRule s) q) as (H1 & H2 & H3 & H4).
    assert (Hcond : existsb (Nat.eqb q) (Fw s) &&
                    String.eqb (ForwardingRule.Name (forwardingRule s q))
                      forwardingRuleName = false).
    { apply not_true_is_false. intros H. apply andb_true_iff in H.
      destruct H as [Ha Hb]. apply Hq. split.
      - apply Hin. exact Ha.
      - apply String.eqb_eq. exact Hb. }
    rewrite Hcond in H4.
    destruct (setProxy _ _ _ _ q), (forwardingRule s q). cbn in *. congruence.
  - intros p. unfold Fakes.GetGlobalForwardingRule. cbv zeta.
    change (Fw (record ?c ?x)) with (Fw x).
    change (forwardingRule (record ?c ?x)) with (forwardingRule x).
    change (Fw (set_forwardingRule ?f ?x)) with (Fw x).
    change (forwardingRule (set_forwardingRule ?f ?x)) with f.
    change (Fw (record ?c s)) with (Fw s).
    change (forwardingRule (record ?c s)) with (forwardingRule s).
    rewrite (first_ext _
               (fun p => String.eqb (ForwardingRule.Name (forwardingRule s p))
                           forwardingRuleName)).
    2:{ intros q _.
        destruct (setProxy_spec forwardingRuleName proxyLink (Fw s)
                    (forwardingRule s) q) as (H1 & _).
        rewrite H1. reflexivity. }
    destruct (first _ (Fw s)) as [p'|] eqn:Hfirst; cbn [fst]; [|discriminate].
    intros [= <-]. split; [reflexivity|].
    apply first_Some in Hfirst. destruct Hfirst as (pre & post & Hl & Hp & _).
    apply Htarget.
    + rewrite Hl. apply in_or_app. right. left. reflexivity.
    + apply String.eqb_eq. exact Hp.
Qed.

(** *** URL maps *)

Lemma replaceFirst_None (test : ptr -> bool) (um : ptr) (l : list ptr) :
  (forall p, In p l -> test p = false) -> replaceFirst test um l = None.
Proof.
  induction l as [|q rest IH]; intros H; [reflexivity|].
  cbn. rewrite (H q (or_introl eq_refl)). rewrite IH; [reflexivity|].
  intros p Hp. apply H. right. exact Hp.
Qed.

Lemma replaceFirst_Some (test : ptr -> bool) (um : ptr)
    (pre : list ptr) (p : ptr) (post : list ptr) :
  (forall q, In q pre -> test q = false) -> test p = true ->
  replaceFirst test um (pre ++ p :: post) = Some (pre ++ um :: post).
Proof.
  induction pre as [|q rest IH]; intros Hpre Hp.
  - cbn. rewrite Hp. reflexivity.
  - cbn. rewrite (Hpre q (or_introl eq_refl)). rewrite IH; [reflexivity| |exact Hp].
    intros x Hx. apply Hpre. right. exact Hx.
Qed.

(** X21.  [UpdateURLMap] puts the map it is given in the place of the first
    map of the fake that has its name, and of that one only: the maps before
    and after it stay, also later maps of the same name.  It returns nil
    then, and the lookup of the name answers the new map.  When the fake has
    no map of the name it returns the not-found error and the slice is as it
    was.  It writes to no object, so unlike [CreateURLMap] it does not set
    the self link of the map. *)
Theorem UpdateURLMap_replaces_first (um : ptr) (s : State) :
  let name := UrlMap.Name (urlMap s um) in
  let e := fst (UpdateURLMap um s) in
  let s' := snd (UpdateURLMap um s) in
  urlMap s' = urlMap s /\
  ((forall p, In p (Um s) -> UrlMap.Name (urlMap s p) <> name) ->
   e = Some FakeGoogleAPINotFoundErr /\ Um s' = Um s) /\
  (forall pre p post,
     Um s = pre ++ p :: post ->
     (forall q, In q pre -> UrlMap.Name (urlMap s q) <> name) ->
     UrlMap.Name (urlMap s p) = name ->
     e = None /\
     Um s' = pre ++ um :: post /\
     fst (GetURLMap name s') = ok um).
Proof.
  cbv zeta. unfold Fakes.UpdateURLMap. cbv zeta.
  change (Um (record ?c s)) with (Um s).
  change (urlMap (record ?c s)) with (urlMap s).
  split; [|split].
  - destruct (replaceFirst _ um (Um s)); reflexivity.
  - intros H. rewrite replaceFirst_None; [split; reflexivity|].
    intros p Hp. apply String.eqb_neq. apply H. exact Hp.
  - intros pre p post Hl Hpre Hp. rewrite Hl.
    rewrite replaceFirst_Some.
    + cbn [fst snd]. split; [reflexivity|]. split; [reflexivity|].
      unfold Fakes.GetURLMap. cbn.
      rewrite first_app.
      rewrite (proj2 (first_None _ pre)).
      * cbn. rewrite String.eqb_refl. reflexivity.
      * intros q Hq. apply String.eqb_neq. apply Hpre. exact Hq.
    + intros q Hq. apply String.eqb_neq. apply Hpre. exact Hq.
    + apply String.eqb_eq. exact Hp.
Qed.

(** *** Target HTTPS proxies *)

(** X22.  [SetSslCertificateForTargetHTTPSProxy] looks at the number of
    certificates only once it has found a proxy of the name: without one it
    returns the not-found error, also for too many certificates; with one and
    more certificates than [TargetProxyCertLimit] it returns the forbidden
    error; in both cases no object is written.  Otherwise it returns nil and
    sets the certificates of the first proxy of the name, which is the one
    that [GetTargetHTTPSProxy] answers, and writes nothing else, so the
    object of the argument is written only when it is that proxy.  The slice
    is never changed. *)
Theorem SetSslCertificateForTargetHTTPSProxy_first_proxy
    (proxy : ptr) (sslCertURLs : list string) (s : State) :
  let name := TargetHttpsProxy.Name (targetHttpsProxy s proxy) in
  let e := fst (SetSslCertificateForTargetHTTPSProxy proxy sslCertURLs s) in
  let s' := snd (SetSslCertificateForTargetHTTPSProxy proxy sslCertURLs s) in
  Tps s' = Tps s /\
  (fst (Fakes.GetTargetHTTPSProxy FakeGoogleAPINotFoundErr name s)
   = err FakeGoogleAPINotFoundErr ->
   e = Some FakeGoogleAPINotFoundErr /\
   targetHttpsProxy s' = targetHttpsProxy s) /\
  (forall p,
     fst (Fakes.GetTargetHTTPSProxy FakeGoogleAPINotFoundErr name s) = ok p ->
     (TargetProxyCertLimit < length sslCertURLs ->
      e = Some FakeGoogleAPIForbiddenErr /\
      targetHttpsProxy s' = targetHttpsProxy s) /\
     (length sslCertURLs <= TargetProxyCertLimit ->
      e = None /\
      fst (Fakes.GetTargetHTTPSProxy FakeGoogleAPINotFoundErr name s') = ok p /\
      TargetHttpsProxy.SslCertificates (targetHttpsProxy s' p) = sslCertURLs /\
      TargetHttpsProxy.Name (targetHttpsProxy s' p) = name /\
      TargetHttpsProxy.SelfLink (targetHttpsProxy s' p)
      = TargetHttpsProxy.SelfLink (targetHttpsProxy s p) /\
      TargetHttpsProxy.UrlMap (targetHttpsProxy s' p)
      = TargetHttpsProxy.UrlMap (targetHttpsProxy s p) /\
      forall q, q <> p -> targetHttpsProxy s' q = targetHttpsProxy s q)).
Proof.
  cbv zeta.
  unfold Fakes.SetSslCertificateForTargetHTTPSProxy, Fakes.GetTargetHTTPSProxy.
  cbv zeta.
  change (Tps (record ?c s)) with (Tps s).
  change (targetHttpsProxy (record ?c s)) with (targetHttpsProxy s).
  destruct (first _ (Tps s)) as [p|] eqn:Hfirst; cbn [fst snd].
  - split; [destruct (_ <? _)%nat; reflexivity|].
    split; [discriminate|]. intros p' [= <-].
    apply first_Some in Hfirst. destruct Hfirst as (pre & post & Hl & Hp & Hpre).
    apply String.eqb_eq in Hp.
    split.
    + intros Hlt. apply Nat.ltb_lt in Hlt. rewrite Hlt. split; reflexivity.
    + intros Hle. apply Nat.ltb_ge in Hle. rewrite Hle. cbn [fst snd].
      change (Tps (set_targetHttpsProxy ?f ?x)) with (Tps x).
      change (targetHttpsProxy (set_targetHttpsProxy ?f ?x)) with f.
      change (Tps (record ?c ?x)) with (Tps x).
      change (targetHttpsProxy (record ?c ?x)) with (targetHttpsProxy x).
      rewrite !assign_same. cbn.
      split; [reflexivity|]. split.
      * rewrite (first_ext _
                   (fun q => String.eqb
                               (TargetHttpsProxy.Name (targetHttpsProxy s q))
                               (TargetHttpsProxy.Name
                                  (targetHttpsProxy s proxy)))).
        2:{ intros q _. unfold assign. destruct (Nat.eqb q p) eqn:Hq; cbn;
              [|reflexivity].
            apply Nat.eqb_eq in Hq. subst q. reflexivity. }
        rewrite Hl, first_app, (proj2 (first_None _ pre) Hpre). cbn.
        rewrite Hp, String.eqb_refl. reflexivity.
      * split; [reflexivity|]. split; [exact Hp|].
        split; [reflexivity|]. split; [reflexivity|].
        intros q Hq. apply assign_other. exact Hq.
  - split; [reflexivity|]. split; [intros _; split; reflexivity|].
    intros p. discriminate.
Qed.

(** *** SSL certificates *)

(** X23.  The quota of certificates of the fake.  [CreateSslCertificate]
    fails exactly when the fake has [FakeCertQuota], fifteen, certificates,
    with an error that gives the number, and leaves the slice as it is; with
    any other number of them, also a greater one, it appends the certificate
    and returns it.  The self link of the certificate is written in both
    cases, and nothing else is.  So a fake with at most fifteen certificates
    has at most fifteen after a creation, and after a deletion too, which
    never adds one. *)
Theorem CreateSslCertificate_quota (cert : ptr) (s : State) :
  let r := fst (CreateSslCertificate cert s) in
  let s' := snd (CreateSslCertificate cert s) in
  (length (Certs s) = FakeCertQuota ->
   r = err (Errorf "unable to create cert, Exceeded cert limit of %d."
              [ArgString "15"]) /\
   Certs s' = Certs s) /\
  (length (Certs s) <> FakeCertQuota ->
   r = ok cert /\ Certs s' = Certs s ++ [cert]) /\
  SslCertificate.SelfLink (sslCertificate s' cert)
  = SslCertificatesSelfLink (SslCertificate.Name (sslCertificate s cert)) /\
  SslCertificate.Name (sslCertificate s' cert)
  = SslCertificate.Name (sslCertificate s cert) /\
  (forall q, q <> cert -> sslCertificate s' q = sslCertificate s q) /\
  (length (Certs s) <= FakeCertQuota -> length (Certs s') <= FakeCertQuota) /\
  (forall name,
     length (Certs (snd (DeleteSslCertificate name s))) <= length (Certs s)).
Proof.
  cbv zeta. unfold Fakes.CreateSslCertificate. cbv zeta.
  change (Certs (set_sslCertificate ?f ?x)) with (Certs x).
  change (Certs (record ?c s)) with (Certs s).
  change (sslCertificate (record ?c s)) with (sslCertificate s).
  destruct (length (Certs s) =? FakeCertQuota)%nat eqn:Hlen; cbn [fst snd];
    change (sslCertificate (set_Certs ?l ?x)) with (sslCertificate x);
    change (Certs (set_Certs ?l ?x)) with l;
    change (Certs (set_sslCertificate ?f ?x)) with (Certs x);
    change (sslCertificate (set_sslCertificate ?f ?x)) with f;
    change (Certs (record ?c s)) with (Certs s);
    rewrite !assign_same; cbn [SslCertificate.SelfLink SslCertificate.Name].
  - apply Nat.eqb_eq in Hlen.
    split; [intros _; split; reflexivity|].
    split; [intros H; contradiction|].
    split; [reflexivity|]. split; [reflexivity|].
    split; [intros q Hq; apply assign_other; exact Hq|].
    split; [intros H; exact H|].
    intros name. unfold Fakes.DeleteSslCertificate. cbv zeta.
    destruct (_ =? _)%nat; cbn; [lia|apply keep_length].
  - apply Nat.eqb_neq in Hlen.
    split; [intros H; contradiction|].
    split; [intros _; split; reflexivity|].
    split; [reflexivity|]. split; [reflexivity|].
    split; [intros q Hq; apply assign_other; exact Hq|].
    split.
    + intros H. rewrite length_app. cbn. lia.
    + intros name. unfold Fakes.DeleteSslCertificate. cbv zeta.
      destruct (_ =? _)%nat; cbn; [lia|apply keep_length].
Qed.

End FakesProperties.
